(** * osde2e: the e2e phase orchestrator, result collection and PagerDuty escalation

    A shallow embedding of [pkg/common/prow/prow.go] and of the e2e driver
    ([beforeSuite], [getLogs], [installAddons], [runGinkgoTests],
    [openPDAlerts], [runTestsInPhase]) together with the properties the
    specification states about them.

    Go code that calls collaborators (the cluster provider, Ginkgo, the file
    system, PagerDuty, Slack, the database) is embedded in a small monad that
    threads the mutable globals (the viper configuration, the [provider]
    variable, [metadata.Instance]) and collects the collaborator calls as a
    chronological list of events.  What a collaborator answers is read from a
    [World] record. *)

From Stdlib Require Import ZArith QArith Ascii String.
From stdpp Require Import base option list strings gmap pretty.

Local Open Scope Z_scope.
Local Open Scope string_scope.
Local Open Scope list_scope.

(** ** Go values *)

(** A Go [error] interface value: [None] is [nil], [Some msg] is an error
    whose [Error()] method yields [msg]. *)
Abbreviation error := (option string).

(** A Go [(T, error)] result pair of a collaborator: either the value with a
    nil error, or an error. *)
Inductive Result (A : Type) : Type :=
| Good (a : A)
| Bad (msg : string).
Arguments Good {A} a.
Arguments Bad {A} msg.

Module Strings.

(** [strings.HasPrefix(s, prefix)]. *)
Fixpoint HasPrefix (s pre : string) : bool :=
  match pre, s with
  | EmptyString, _ => true
  | String c pre', String d s' =>
      if decide (c = d) then HasPrefix s' pre' else false
  | String _ _, EmptyString => false
  end.

(** [strings.Contains(s, substr)]: some suffix of [s] starts with
    [substr]. *)
Fixpoint Contains (s substr : string) : bool :=
  HasPrefix s substr ||
  match s with
  | EmptyString => false
  | String _ s' => Contains s' substr
  end.

Definition lower_ascii (c : ascii) : ascii :=
  let n := N_of_ascii c in
  if ((65 <=? n) && (n <=? 90))%N then ascii_of_N (n + 32) else c.

(** [strings.ToLower(s)] on the bytes of [s].  Only the ASCII letters are
    mapped; no other code point lowers to one of the letters a, d, o, n,
    which is all the caller looks for. *)
Fixpoint ToLower (s : string) : string :=
  match s with
  | EmptyString => EmptyString
  | String c s' => String (lower_ascii c) (ToLower s')
  end.

End Strings.

(** ** github.com/joshdk/go-junit: the parsed result files *)

Module junit.

(** [type Status string] with its four constants. *)
Abbreviation Status := string.
Definition StatusPassed : Status := "passed".
Definition StatusSkipped : Status := "skipped".
Definition StatusFailed : Status := "failed".
Definition StatusError : Status := "error".

(** [junit.Test]; [Duration] is kept in microseconds, [Error] is the Go
    [error] field ([None] for nil). *)
Record Test : Type := mkTest {
  Name : string;
  Duration : Z;
  Status_ : Status;
  Error : error;
  SystemOut : string;
  SystemErr : string;
}.

(** [junit.Suite]. *)
Record Suite : Type := mkSuite {
  SuiteName : string;
  Tests : list Test;
}.

End junit.

(** ** The viper configuration *)

(** The configuration keys this code reads and writes.  The string each
    constant of package [config] stands for is not part of these sources; the
    constants are kept apart as constructors. *)
Inductive Key : Type :=
| config_DryRun
| config_ReportDir
| config_Suffix
| config_Phase
| config_Provider
| config_JobName
| config_JobID
| config_JobType
| config_JobStartedAt
| config_MustGather
| config_NonOSDe2eSecrets
| config_Kubeconfig_Path
| config_Kubeconfig_Contents
| config_Cluster_ID
| config_Cluster_Name
| config_Cluster_Version
| config_Cluster_Passing
| config_Cluster_Reused
| config_Cluster_DestroyAfterTest
| config_Cluster_EnoughVersionsForOldestOrMiddleTest
| config_Cluster_PreviousVersionFromDefaultFound
| config_CloudProvider_CloudProviderID
| config_CloudProvider_Region
| config_Upgrade_Image
| config_Upgrade_ReleaseName
| config_Upgrade_ManagedUpgrade
| config_Upgrade_ManagedUpgradeRescheduled
| config_Upgrade_MonitorRoutesDuringUpgrade
| config_Upgrade_UpgradeVersionEqualToInstallVersion
| config_Addons_IDs
| config_Addons_Parameters
| config_Addons_SkipAddonList
| config_Addons_TestHarnesses
| config_Tests_SkipClusterHealthChecks
| config_Tests_SuppressSkipNotifications
| config_Tests_GinkgoSkip
| config_Tests_GinkgoFocus
| config_Tests_MetricsBucket
| config_Alert_PagerDutyAPIToken
| config_Alert_PagerDutyUserToken
| config_Database_User
| config_Database_Pass
| config_Database_Host
| config_Database_Port
| config_Database_DatabaseName.

#[export] Instance Key_eq_dec : EqDecision Key.
Proof. solve_decision. Defined.

(** What viper stores under a key. *)
Inductive Value : Type :=
| VString (s : string)
| VBool (b : bool).

Module viper.

Abbreviation Store := (Key -> Value).

(** [strconv.ParseBool], which [GetBool] applies to a stored string. *)
Definition ParseBool (s : string) : bool :=
  bool_decide (s ∈ ["1"; "t"; "T"; "TRUE"; "true"; "True"]).

Definition GetString (v : Store) (k : Key) : string :=
  match v k with
  | VString s => s
  | VBool true => "true"
  | VBool false => "false"
  end.

Definition GetBool (v : Store) (k : Key) : bool :=
  match v k with
  | VBool b => b
  | VString s => ParseBool s
  end.

Definition Set_ (v : Store) (k : Key) (x : Value) : Store :=
  fun k' => if decide (k' = k) then x else v k'.

(** The store before anything is set: every string empty. *)
Definition empty : Store := fun _ => VString "".

End viper.

(** ** package prow *)

Module prow.

(** [JobURL]: [jobType] is [viper.GetString(config.JobType)] and [env] the
    process environment that [os.LookupEnv] reads.  The named results [url]
    and [ok] start as [""] and [false]; the bare [return]s hand back their
    current values. *)
Definition JobURL (jobType : string) (env : gmap string string)
  : string * bool :=
  let url := "" in
  if negb (bool_decide (jobType = "periodic")) then (url, false)
  else
    match env !! "BUILD_ID" with
    | None => (url, false)
    | Some jobID =>
        match env !! "JOB_NAME" with
        | None => (url, false)
        | Some jobName =>
            ("https://prow.ci.openshift.org/view/gs/origin-ci-test/logs/"
               +:+ jobName +:+ "/" +:+ jobID, true)
        end
    end.

End prow.

(** [filepath.Join] of two elements (empty elements are ignored; the
    clean-up of dots and doubled separators is left out). *)
Definition filepath_Join (a b : string) : string :=
  if decide (a = "") then b
  else if decide (b = "") then a
  else a +:+ "/" +:+ b.

(** ** Collaborator data *)

(** [pd.V2Payload], the fields this code fills in. *)
Record V2Payload : Type := mkPayload {
  Summary : string;
  Severity : string;
  Source : string;
  Group : string;
  Details : gmap string string;
}.

#[export] Instance V2Payload_eq_dec : EqDecision V2Payload.
Proof. solve_decision. Defined.

Module db.

Inductive TestResult : Type :=
| TestResultPassed
| TestResultFailure
| TestResultSkipped
| TestResultError.

Inductive JobResult : Type :=
| JobResultPassed
| JobResultFailed.

(** [db.CreateTestcaseParams]. *)
Record CreateTestcaseParams : Type := mkTestcase {
  JobID : Z;
  Result_ : TestResult;
  Name : string;
  Duration : Z;
  Error : string;
  Stdout : string;
  Stderr : string;
}.

Definition with_JobID (tc : CreateTestcaseParams) (id : Z)
  : CreateTestcaseParams :=
  mkTestcase id (Result_ tc) (Name tc) (Duration tc) (Error tc)
             (Stdout tc) (Stderr tc).

End db.

Module spi.

Inductive ClusterState : Type :=
| ClusterStateUnknown
| ClusterStateInstalling
| ClusterStateReady
| ClusterStateError
| ClusterStateUninstalling
| ClusterStateHibernating
| ClusterStateDeprovisioned.

#[global] Instance ClusterState_eq_dec : EqDecision ClusterState.
Proof. solve_decision. Defined.

(** What this code reads from a [*spi.Cluster]. *)
Record Cluster : Type := mkCluster {
  ID : string;
  Name : string;
  Version : string;
  CloudProvider : string;
  Region : string;
  Addons : list string;
}.

End spi.

(** A float64 as far as the pass rate needs it: the quotient of two
    non-negative integers is NaN for 0/0, +Inf for n/0 and a ratio
    otherwise (rounding is left out). *)
Inductive float64 : Type :=
| NaN
| PosInf
| Ratio (num den : Z).

(** [float64(a) / float64(b)] for [0 <= a], [0 <= b]. *)
Definition float_div (a b : Z) : float64 :=
  if (b =? 0)%Z then (if (a =? 0)%Z then NaN else PosInf) else Ratio a b.

(** [math.IsNaN]. *)
Definition math_IsNaN (f : float64) : bool :=
  match f with NaN => true | _ => false end.

Module config.

(** [config.LogMetric]: a named pattern.  [HasMatches] and [IsPassing] are
    methods of package [config]; what they answer on a given log file or
    count is a field here. *)
Record LogMetric : Type := mkLogMetric {
  Name : string;
  HasMatches : string -> Z;
  IsPassing : Z -> bool;
}.

End config.

(** ** metadata.Instance *)

Module metadata.

(** The fields of [metadata.Metadata] that the phase runner reads and
    writes as maps; the scalar setters are kept as events. *)
Record Metadata : Type := mkMetadata {
  PassRates : gmap string float64;
  LogMetrics : gmap string Z;
  BeforeSuiteMetrics : gmap string Z;
}.

Definition empty : Metadata := mkMetadata ∅ ∅ ∅.

(** Modelled from the spec: [SetPassRate] of package [metadata] is not part
    of these sources; it records the phase's pass rate. *)
Definition SetPassRate (m : Metadata) (phase : string) (rate : float64)
  : Metadata :=
  mkMetadata (<[phase := rate]> (PassRates m)) (LogMetrics m)
             (BeforeSuiteMetrics m).

(** Modelled from the spec: [ResetLogMetrics] of package [metadata] is not
    part of these sources; the counters are "reset to zero at the start of
    every phase". *)
Definition ResetLogMetrics (m : Metadata) : Metadata :=
  mkMetadata (PassRates m) ((fun _ => 0) <$> LogMetrics m)
             (BeforeSuiteMetrics m).

(** Modelled from the spec: [ResetBeforeSuiteMetrics], as
    [ResetLogMetrics]. *)
Definition ResetBeforeSuiteMetrics (m : Metadata) : Metadata :=
  mkMetadata (PassRates m) (LogMetrics m)
             ((fun _ => 0) <$> BeforeSuiteMetrics m).

Definition increment (k : string) (v : Z) (c : gmap string Z)
  : gmap string Z :=
  match c !! k with
  | Some n => <[k := n + v]> c
  | None => <[k := v]> c
  end.

(** Modelled from the spec: [IncrementLogMetric] of package [metadata] is
    not part of these sources; counts "are additive across files within
    one phase". *)
Definition IncrementLogMetric (m : Metadata) (k : string) (v : Z)
  : Metadata :=
  mkMetadata (PassRates m) (increment k v (LogMetrics m))
             (BeforeSuiteMetrics m).

(** Modelled from the spec: [IncrementBeforeSuiteMetric], as
    [IncrementLogMetric]. *)
Definition IncrementBeforeSuiteMetric (m : Metadata) (k : string) (v : Z)
  : Metadata :=
  mkMetadata (PassRates m) (LogMetrics m)
             (increment k v (BeforeSuiteMetrics m)).

End metadata.

(** ** Events, state and the collaborators' answers *)

(** What the run does to the outside, in the order it does it. *)
Inductive Event : Type :=
| EvLog (msg : string)
| EvHandleErrorWithEvents (err : error) (success failure : string)
| EvRecordEvent (name : string)
| EvMetadataSet (field value : string)
| EvTempDir
| EvStat (path : string)
| EvMkdir (path : string)
| EvCreate (path : string)
| EvReadFile (path : string)
| EvReadDir (path : string)
| EvWriteFile (path : string)
| EvClusterProvider
| EvChooseVersions
| EvProvisionCluster
| EvAddProperty (key value : string)
| EvWaitForClusterReadyPostWake (id : string)
| EvWaitForClusterReadyPostInstall (id : string)
| EvClusterKubeconfig (id : string)
| EvSleep (seconds : Z)
| EvProviderLogs (id : string)
| EvInstallAddons (id : string) (ids : string)
| EvCreateProject (ns : string)
| EvCreateSecret (ns : string)
| EvRunSpecs (description phase reportPath : string)
| EvIngestFile (path : string)
| EvFireAlert (integrationKey : string) (payload : V2Payload)
| EvSendSlackMessage (channel message : string)
| EvProcessCICDIncidents (userToken : string)
| EvGetCluster (id : string)
| EvNewOutsideGinkgo
| EvGenerateDependencies
| EvGenerateDiff (phase : string)
| EvGoRouteMonitors
| EvCloseRouteMonitorChan
| EvRouteMonitorsFlush
| EvRecvCloseMonitorChan
| EvRunUpgrade
| EvWithDB (url : string)
| EvMigrateUp
| EvCreateJob (result : db.JobResult)
| EvCreateTestcase (tc : db.CreateTestcaseParams)
| EvWriteToJSON (dir : string)
| EvNewMetrics
| EvWritePrometheusFile (dir : string)
| EvUploadFileToMetricsBucket (path : string)
| EvDeleteCluster (id : string)
| EvCleanupAfterE2E.

(** The goroutine [setupRouteMonitors] starts, as the orchestrator sees it:
    not started, serving (the monitors run and the goroutine waits for the
    stop signal), dead because [routemonitors.Create] failed, or stopped
    after the flush. *)
Inductive Monitors : Type :=
| MonitorsNone
| MonitorsRunning
| MonitorsCreateFailed
| MonitorsStopped.

(** The package-level state the functions share. *)
Record State : Type := mkState {
  cfg : Key -> Value;            (* viper *)
  provider : bool;               (* var provider spi.Provider: set or nil *)
  DryRun : bool;                 (* ginkgoConfig.GinkgoConfig.DryRun *)
  Instance_ : metadata.Metadata; (* metadata.Instance *)
  monitors : Monitors;
}.

Definition with_cfg (s : State) (c : Key -> Value) : State :=
  mkState c (provider s) (DryRun s) (Instance_ s) (monitors s).
Definition with_provider (s : State) (p : bool) : State :=
  mkState (cfg s) p (DryRun s) (Instance_ s) (monitors s).
Definition with_DryRun (s : State) (d : bool) : State :=
  mkState (cfg s) (provider s) d (Instance_ s) (monitors s).
Definition with_Instance (s : State) (m : metadata.Metadata) : State :=
  mkState (cfg s) (provider s) (DryRun s) m (monitors s).
Definition with_monitors (s : State) (m : Monitors) : State :=
  mkState (cfg s) (provider s) (DryRun s) (Instance_ s) m.

(** What the collaborators answer while one phase runs. *)
Record PhaseWorld : Type := mkPhaseWorld {
  os_Stat_IsNotExist : string -> bool;
  os_Mkdir : string -> error;
  ioutil_ReadFile : string -> Result string;
  ioutil_ReadDir : string -> Result (list string);
  ioutil_WriteFile : string -> error;
  ProvisionCluster : Result spi.Cluster;
  AddProperty : error;
  WaitForClusterReadyPostWake : error;
  WaitForClusterReadyPostInstall : error;
  ClusterKubeconfig : string -> Result string;
  json_Unmarshal : string -> error;
  InstallAddons : Result Z;
  addons_WaitForClusterReadyPostInstall : error;
  CreateSecret : error;
  RunSpecs : string -> bool;
  IngestFile : string -> Result (list junit.Suite);
  FireAlert : V2Payload -> Result string;
  SendSlackMessage : string -> string -> error;
  ProcessCICDIncidents : error;
  GetCluster : string -> Result spi.ClusterState;
  NewOutsideGinkgo_nil : bool;
  GenerateDependencies : Result string;
  GenerateDiff : error;
}.

(** What the environment and the collaborators answer during a run. *)
Record World : Type := mkWorld {
  environ : gmap string string;           (* the process environment *)
  junitFileRegex : string -> bool;        (* junitFileRegex.MatchString *)
  logFileRegex : string -> bool;          (* logFileRegex.MatchString *)
  GetLogMetrics : list config.LogMetric;
  GetBeforeSuiteMetrics : list config.LogMetric;
  NoVersionFound : string;                (* util.NoVersionFound *)
  RandomStr : string;                     (* util.RandomStr(5) *)
  ioutil_TempDir : Result string;
  os_Mkdir_reportDir : error;
  os_Create : string -> error;
  ClusterProvider : Result string;        (* the provider's Environment() *)
  ChooseVersions : (Key -> Value) -> error * (Key -> Value);
  provider_Logs : Result (list (string * string));
  writeLogs_WriteFile : string -> error;
  routemonitors_Create : error;
  RunUpgrade : error;
  WithDB : error;
  migrate_Up : error;
  CreateJob : Result Z;
  CreateTestcase : db.CreateTestcaseParams -> error;
  WriteToJSON : error;
  NewMetrics_nil : bool;
  WritePrometheusFile : Result string;
  uploadFileToMetricsBucket : error;
  DeleteCluster : error;
  cleanup_NewOutsideGinkgo_nil : bool;
  during : string -> PhaseWorld;          (* by phase name *)
}.

(** ** The monad of Go function bodies *)

(** How a statement ends: it falls through with a value, it executes a
    [return], or it panics. *)
Inductive Res (R A : Type) : Type :=
| Next (a : A)
| Return (r : R)
| Panic (msg : string).
Arguments Next {R A} a.
Arguments Return {R A} r.
Arguments Panic {R A} msg.

Record Out (R A : Type) : Type := mkOut {
  res : Res R A;
  st : State;
  evs : list Event;
}.
Arguments mkOut {R A} res st evs.
Arguments res {R A} o.
Arguments st {R A} o.
Arguments evs {R A} o.

Definition M (R A : Type) : Type := State -> Out R A.

Definition ret {R A} (a : A) : M R A := fun s => mkOut (Next a) s [].

Definition bind {R A B} (m : M R A) (k : A -> M R B) : M R B := fun s =>
  let o := m s in
  match res o with
  | Next a => let o' := k a (st o) in mkOut (res o') (st o') (evs o ++ evs o')
  | Return r => mkOut (Return r) (st o) (evs o)
  | Panic msg => mkOut (Panic msg) (st o) (evs o)
  end.

Declare Scope go_scope.
Delimit Scope go_scope with go.
Notation "x ← y ; z" := (bind y (fun x => z))
  (at level 20, y at level 100, z at level 200, only parsing) : go_scope.
Notation "x ;; z" := (bind x (fun _ => z))
  (at level 100, z at level 200, only parsing, right associativity) : go_scope.

Local Open Scope go_scope.

(** The [return] statement. *)
Definition return_ {R A} (r : R) : M R A := fun s => mkOut (Return r) s [].

(** A run-time panic. *)
Definition panic {R A} (msg : string) : M R A := fun s => mkOut (Panic msg) s [].

Definition emit {R} (e : Event) : M R unit := fun s => mkOut (Next tt) s [e].

Definition get {R} : M R State := fun s => mkOut (Next s) s [].

Definition modify {R} (f : State -> State) : M R unit :=
  fun s => mkOut (Next tt) (f s) [].

(** Calling a function: its [return] (or the end of its body) is the value
    of the call. *)
Definition call {R R'} (f : M R R) : M R' R := fun s =>
  let o := f s in
  match res o with
  | Next r | Return r => mkOut (Next r) (st o) (evs o)
  | Panic msg => mkOut (Panic msg) (st o) (evs o)
  end.

Definition when {R} (c : bool) (m : M R unit) : M R unit :=
  if c then m else ret tt.

(** [for _, x := range l { body }], with the loop's variables in [b]. *)
Fixpoint forM {R A B} (l : list A) (b : B) (body : B -> A -> M R B) : M R B :=
  match l with
  | [] => ret b
  | x :: l' => (b' ← body b x; forM l' b' body)
  end.

Definition log_ {R} (msg : string) : M R unit := emit (EvLog msg).

Definition GetString {R} (k : Key) : M R string :=
  fun s => mkOut (Next (viper.GetString (cfg s) k)) s [].

Definition GetBool {R} (k : Key) : M R bool :=
  fun s => mkOut (Next (viper.GetBool (cfg s) k)) s [].

Definition Set_ {R} (k : Key) (v : Value) : M R unit :=
  modify (fun s => with_cfg s (viper.Set_ (cfg s) k v)).

(** What the Go runtime says when a method is called on a nil interface
    value. *)
Definition nilPanic : string :=
  "runtime error: invalid memory address or nil pointer dereference".

(** [err.Error()]: on a nil interface value the call panics. *)
Definition Error_ {R} (err : error) : M R string :=
  match err with
  | Some msg => ret msg
  | None => panic nilPanic
  end.

(** ** openPDAlerts *)

(** The first loops of [openPDAlerts]: the names of the test cases whose
    status is [junit.StatusFailed], in order, one entry per test case. *)
Definition failingTestsOf (suites : list junit.Suite) : list string :=
  foldl (fun failingTests suite =>
           foldl (fun failingTests testcase =>
                    if decide (junit.Status_ testcase ≠ junit.StatusFailed)
                    then failingTests (* continue inner *)
                    else (failingTests ++ [junit.Name testcase])%list)
                 failingTests (junit.Tests suite))
        [] suites.

Definition manyFailedHelp : string :=
  "This is likely a more complex problem, like a test harness or infrastructure issue. The test harness will attempt to notify #sd-cicd".

Definition slackText (jobName jobURL event : string) : string :=
  "@osde2e A bunch of tests failed at once:" +:+ "
pipeline: " +:+ jobName +:+ "
URL: " +:+ jobURL +:+ "
PD info: " +:+ event.

(** The body of the loop that opens an alert for each failing test. *)
Definition openAlertFor {R} (pw : PhaseWorld) (IntegrationKey jobName : string)
    (jobDetails : gmap string string) (name : string) : M R unit :=
  if Strings.Contains name "informing" then
    (* skip informing suite failures, as they do not warrant CI watcher
       investigation *)
    ret tt
  else
    let payload := mkPayload (name +:+ " failed") "info" jobName name
                             jobDetails in
    emit (EvFireAlert IntegrationKey payload);;
    match FireAlert pw payload with
    | Bad err =>
        log_ ("Failed creating pagerduty incident for failure: " +:+ err)
    | Good _ => ret tt
    end.

Definition openPDAlerts (pw : PhaseWorld) (suites : list junit.Suite)
    (jobName jobURL : string) : M unit unit :=
  if Strings.Contains (Strings.ToLower jobName) "addon" then
    (* do not report pd alerts from addon tests *)
    return_ tt
  else
    IntegrationKey ← GetString config_Alert_PagerDutyAPIToken;
    let failingTests := failingTestsOf suites in
    clusterID ← GetString config_Cluster_ID;
    clusterName ← GetString config_Cluster_Name;
    clusterVersion ← GetString config_Cluster_Version;
    let jobDetails : gmap string string :=
      <["expiration" := "clusters expire 6 hours after creation"]>
      (<["clusterVersion" := clusterVersion]>
      (<["clusterName" := clusterName]>
      (<["clusterID" := clusterID]>
      (<["details" := jobURL]> ∅)))) in
    (* if too many things failed, open a single alert that isn't grouped
       with the others. *)
    if (10 <? Z.of_nat (length failingTests))%Z then
      let jobDetails := <["help" := manyFailedHelp]> jobDetails in
      let payload :=
        mkPayload "A lot of tests failed together" "info" jobName ""
                  jobDetails in
      emit (EvFireAlert IntegrationKey payload);;
      match FireAlert pw payload with
      | Bad err =>
          log_ ("Failed creating pagerduty incident for failure: " +:+ err)
      | Good event =>
          let msg := slackText jobName jobURL event in
          emit (EvSendSlackMessage "sd-cicd" msg);;
          match SendSlackMessage pw "sd-cicd" msg with
          | Some err =>
              log_ ("Failed sending slack message to CICD team: " +:+ err)
          | None => ret tt
          end
      end;;
      return_ tt
    else
      (* open an alert for each failing test *)
      forM failingTests tt (fun _ name =>
        openAlertFor pw IntegrationKey jobName jobDetails name);;
      return_ tt.

(** ** The counting loop of runTestsInPhase *)

(** The loop over one file's suites that updates [numTests] and
    [numPassingTests]; both are Go [int]s that count test cases held in
    memory, far below the 64-bit range. *)
Definition countTests (counts : Z * Z) (suites : list junit.Suite) : Z * Z :=
  foldl (fun counts testSuite =>
           foldl (fun '(numTests, numPassingTests) testcase =>
                    let isSkipped :=
                      bool_decide (junit.Status_ testcase = junit.StatusSkipped) in
                    let isFail :=
                      bool_decide (junit.Status_ testcase = junit.StatusFailed) in
                    let numTests :=
                      if negb isSkipped then numTests + 1 else numTests in
                    let numPassingTests :=
                      if negb isFail && negb isSkipped
                      then numPassingTests + 1 else numPassingTests in
                    (numTests, numPassingTests))
                 counts (junit.Tests testSuite))
        counts suites.

(** ** Cluster set-up: getLogs, installAddons, beforeSuite *)

(** [os.Getenv]: the empty string when the variable is unset. *)
Definition os_Getenv (w : World) (k : string) : string :=
  default "" (environ w !! k).

Definition writeLogs (w : World) (m : list (string * string)) : M unit unit :=
  forM m tt (fun _ kv =>
    let name := kv.1 +:+ "-log.txt" in
    reportDir ← GetString config_ReportDir;
    let filePath := filepath_Join reportDir name in
    emit (EvWriteFile filePath);;
    match writeLogs_WriteFile w filePath with
    | Some err => log_ ("Error writing log " +:+ filePath +:+ ": " +:+ err)
    | None => ret tt
    end).

Definition getLogs (w : World) : M unit unit :=
  clusterID ← GetString config_Cluster_ID;
  s ← get;
  if negb (provider s) then
    log_ "OSD was not configured. Skipping log collection..."
  else if decide (clusterID = "") then
    log_ "CLUSTER_ID is not set, likely due to a setup failure. Skipping log collection..."
  else
    emit (EvProviderLogs clusterID);;
    match provider_Logs w with
    | Bad err => log_ ("Error collecting cluster logs: " +:+ err)
    | Good logs => call (writeLogs w logs)
    end.

Definition installAddons (pw : PhaseWorld) : M error error :=
  clusterID ← GetString config_Cluster_ID;
  strParams ← GetString config_Addons_Parameters;
  match json_Unmarshal pw strParams with
  | Some err =>
      return_ (Some ("failed unmarshalling addon parameters " +:+ strParams
                       +:+ ": " +:+ err))
  | None =>
      ids ← GetString config_Addons_IDs;
      emit (EvInstallAddons clusterID ids);;
      match InstallAddons pw with
      | Bad err => return_ (Some ("could not install addons: " +:+ err))
      | Good num =>
          (if (0 <? num)%Z then
             emit (EvWaitForClusterReadyPostInstall clusterID);;
             match addons_WaitForClusterReadyPostInstall pw with
             | Some err =>
                 return_ (Some ("failed waiting for cluster ready: " +:+ err))
             | None => ret tt
             end
           else ret tt);;
          return_ None
      end
  end.

(** [beforeSuite] populates the cluster fields, by provisioning a cluster or
    re-using one; it answers [false] when provisioning, the health check,
    the kubeconfig or the addons fail. *)
Definition beforeSuite (w : World) (pw : PhaseWorld) : M bool bool :=
  (* Skip provisioning if we already have a kubeconfig *)
  kubeconfigPath ← GetString config_Kubeconfig_Path;
  (if decide (kubeconfigPath ≠ "") then
     emit (EvReadFile kubeconfigPath);;
     match ioutil_ReadFile pw kubeconfigPath with
     | Bad err =>
         log_ ("failed reading '" +:+ kubeconfigPath
                 +:+ "' which has been set as the TEST_KUBECONFIG: " +:+ err);;
         return_ false
     | Good kubeconfigBytes =>
         Set_ config_Kubeconfig_Contents (VString kubeconfigBytes)
     end
   else ret tt);;
  contents ← GetString config_Kubeconfig_Contents;
  (if decide (contents = "") then
     emit EvProvisionCluster;;
     match ProvisionCluster pw with
     | Bad err =>
         emit (EvHandleErrorWithEvents (Some err) "InstallSuccessful" "InstallFailed");;
         log_ ("Failed to set up or retrieve cluster: " +:+ err);;
         call (getLogs w);;
         return_ false
     | Good cluster =>
         emit (EvHandleErrorWithEvents None "InstallSuccessful" "InstallFailed");;
         Set_ config_Cluster_ID (VString (spi.ID cluster));;
         log_ ("CLUSTER_ID set to " +:+ spi.ID cluster +:+ " from OCM.");;
         Set_ config_Cluster_Name (VString (spi.Name cluster));;
         log_ ("CLUSTER_NAME set to " +:+ spi.Name cluster +:+ " from OCM.");;
         Set_ config_Cluster_Version (VString (spi.Version cluster));;
         log_ ("CLUSTER_VERSION set to " +:+ spi.Version cluster +:+ " from OCM.");;
         Set_ config_CloudProvider_CloudProviderID (VString (spi.CloudProvider cluster));;
         log_ ("CLOUD_PROVIDER_ID set to " +:+ spi.CloudProvider cluster +:+ " from OCM.");;
         Set_ config_CloudProvider_Region (VString (spi.Region cluster));;
         log_ ("CLOUD_PROVIDER_REGION set to " +:+ spi.Region cluster +:+ " from OCM.");;
         skipAddonList ← GetBool config_Addons_SkipAddonList;
         providerCfg ← GetString config_Provider;
         when (negb skipAddonList || bool_decide (providerCfg ≠ "mock"))
           (log_ ("Found addons: " +:+ String.concat "," (spi.Addons cluster)));;
         emit (EvMetadataSet "ClusterName" (spi.Name cluster));;
         emit (EvMetadataSet "ClusterID" (spi.ID cluster));;
         emit (EvMetadataSet "Region" (spi.Region cluster));;
         releaseName ← GetString config_Upgrade_ReleaseName;
         emit (EvAddProperty "UpgradeVersion" releaseName);;
         match AddProperty pw with
         | Some err =>
             log_ ("Error while adding upgrade version property to cluster via OCM: " +:+ err)
         | None => ret tt
         end;;
         skipHealth ← GetString config_Tests_SkipClusterHealthChecks;
         (if decide (skipHealth ≠ "true") then
            reused ← GetBool config_Cluster_Reused;
            err ← (if reused then
                     (* the cluster is waking up *)
                     emit (EvWaitForClusterReadyPostWake (spi.ID cluster));;
                     ret (WaitForClusterReadyPostWake pw)
                   else
                     (* a new cluster *)
                     emit (EvWaitForClusterReadyPostInstall (spi.ID cluster));;
                     ret (WaitForClusterReadyPostInstall pw));
            match err with
            | Some err =>
                log_ ("Cluster failed health check: " +:+ err);;
                call (getLogs w);;
                return_ false
            | None => ret tt
            end
          else ret tt);;
         log_ "Cluster is healthy and ready for testing";;
         clusterID ← GetString config_Cluster_ID;
         emit (EvClusterKubeconfig clusterID);;
         match ClusterKubeconfig pw clusterID with
         | Bad err =>
             emit (EvHandleErrorWithEvents (Some err)
                     "InstallKubeconfigRetrievalSuccess"
                     "InstallKubeconfigRetrievalFailure");;
             log_ ("Failed retrieving kubeconfig: " +:+ err);;
             call (getLogs w);;
             return_ false
         | Good kubeconfigBytes =>
             Set_ config_Kubeconfig_Contents (VString kubeconfigBytes);;
             contents ← GetString config_Kubeconfig_Contents;
             (if decide (String.length contents = 0%nat) then
                log_ "OSD cluster installed. Sleeping for 600s.";;
                emit (EvSleep 600)
              else
                log_ "No kubeconfig contents found, but there should be some by now.");;
             call (getLogs w)
         end
     end
   else log_ "Skipping health checks as requested");;
  addonIDs ← GetString config_Addons_IDs;
  (if decide (0 < String.length addonIDs)%nat then
     providerCfg ← GetString config_Provider;
     if decide (providerCfg ≠ "mock") then
       err ← call (installAddons pw);
       emit (EvHandleErrorWithEvents err "InstallAddonsSuccessful" "InstallAddonsFailed");;
       match err with
       | Some err =>
           log_ ("Cluster failed installing addons: " +:+ err);;
           call (getLogs w);;
           return_ false
       | None => ret tt
       end
     else
       log_ "Skipping addon installation due to mock provider.";;
       log_ "If you are running local addon tests, please ensure the addon components are already installed."
   else ret tt);;
  (* secrets for the test harnesses; what the helper does is not looked at *)
  testHarnesses ← GetString config_Addons_TestHarnesses;
  (if decide (testHarnesses ≠ "") then
     let secretsNamespace := "ci-secrets" in
     emit EvNewOutsideGinkgo;;
     emit (EvCreateProject secretsNamespace);;
     emit (EvCreateSecret ("osde2e-" +:+ secretsNamespace));;
     match CreateSecret pw with
     | Some err => log_ ("Error creating Prow secrets in-cluster: " +:+ err)
     | None => ret tt
     end
   else ret tt);;
  return_ true.

(** ** runTestsInPhase *)

Module phase.
(** Modelled from the spec: the constants of package [phase] are not part
    of these sources; the spec names the two stages [install] and
    [upgrade]. *)
Definition InstallPhase : string := "install".
Definition UpgradePhase : string := "upgrade".
End phase.

Abbreviation PhaseResult := (bool * list db.CreateTestcaseParams)%type.

(** The closure that maps a [junit.Status] to a [db.TestResult]. *)
Definition testResultOf (s : junit.Status) : db.TestResult :=
  if decide (s = "passed") then db.TestResultPassed
  else if decide (s = "failure") then db.TestResultFailure
  else if decide (s = "skipped") then db.TestResultSkipped
  else (* case "error": fallthrough; default: *) db.TestResultError.

(** The closure that fills in [Error] of a test-case record.  [err] is the
    variable of the enclosing block, the one [junit.IngestFile] assigned. *)
Definition testcaseError {R} (err : error) (test : junit.Test) : M R string :=
  match junit.Error test with
  | Some _ => Error_ err
  | None => ret ""
  end.

(** The body of the loops that record each test case: one record is
    appended to [testCaseData]. *)
Definition recordTestcase {R} (err : error)
    (testCaseData : list db.CreateTestcaseParams) (test : junit.Test)
  : M R (list db.CreateTestcaseParams) :=
  errorText ← testcaseError err test;
  ret (testCaseData ++
         [db.mkTestcase 0 (testResultOf (junit.Status_ test))
            (junit.Name test) (junit.Duration test) errorText
            (junit.SystemOut test) (junit.SystemErr test)]).

(** "record each test case": the loops over the suites and their tests. *)
Definition recordTestcases {R} (err : error)
    (testCaseData : list db.CreateTestcaseParams) (suites : list junit.Suite)
  : M R (list db.CreateTestcaseParams) :=
  forM suites testCaseData (fun testCaseData suite =>
    forM (junit.Tests suite) testCaseData (recordTestcase err)).

(** The local variables of the loop over the phase directory. *)
Record Collected : Type := mkCollected {
  numTests : Z;
  numPassingTests : Z;
  testCaseData : list db.CreateTestcaseParams;
}.

(** The body of the loop over the files of the phase directory.  The entries
    [ioutil.ReadDir] lists are never nil, so the nil guard is left out. *)
Definition collectFile (w : World) (pw : PhaseWorld) (phaseDirectory : string)
    (c : Collected) (file : string) : M PhaseResult Collected :=
  (* Process the jUnit XML result files *)
  if junitFileRegex w file then
    let path := filepath_Join phaseDirectory file in
    emit (EvIngestFile path);;
    match IngestFile pw path with
    | Bad msg =>
        log_ ("error reading junit xml file " +:+ file +:+ ": " +:+ msg);;
        return_ (false, testCaseData c)
    | Good suites =>
        let err : error := None in
        let counts := countTests (numTests c, numPassingTests c) suites in
        (* fire PD incident if JOB_TYPE==periodic *)
        (if decide (os_Getenv w "JOB_TYPE" = "periodic") then
           jobType ← GetString config_JobType;
           let url := (prow.JobURL jobType (environ w)).1 in
           let jobName := os_Getenv w "JOB_NAME" in
           call (openPDAlerts pw suites jobName url)
         else ret tt);;
        (* record each test case *)
        tcd ← recordTestcases err (testCaseData c) suites;
        ret (mkCollected counts.1 counts.2 tcd)
    end
  else ret c.

(** The pass rate of the phase: logged when it is NaN, recorded otherwise. *)
Definition recordPassRate {R} (phase : string) (c : Collected) : M R unit :=
  let passRate := float_div (numPassingTests c) (numTests c) in
  if math_IsNaN passRate then
    log_ ("Pass rate is NaN: numPassingTests = " +:+ pretty (numPassingTests c)
            +:+ ", numTests = " +:+ pretty (numTests c))
  else
    modify (fun s =>
      with_Instance s (metadata.SetPassRate (Instance_ s) phase passRate)).

Definition IncrementLogMetric {R} (k : string) (v : Z) : M R unit :=
  modify (fun s =>
    with_Instance s (metadata.IncrementLogMetric (Instance_ s) k v)).

Definition IncrementBeforeSuiteMetric {R} (k : string) (v : Z) : M R unit :=
  modify (fun s =>
    with_Instance s (metadata.IncrementBeforeSuiteMetric (Instance_ s) k v)).

(** The body of the loop over the log files of the report directory. *)
Definition countLogFile (w : World) (pw : PhaseWorld) (reportDir : string)
    (tcd : list db.CreateTestcaseParams) (file : string)
  : M PhaseResult unit :=
  if logFileRegex w file then
    let path := filepath_Join reportDir file in
    emit (EvReadFile path);;
    match ioutil_ReadFile pw path with
    | Bad err =>
        log_ ("error opening log file " +:+ file +:+ ": " +:+ err);;
        return_ (false, tcd)
    | Good data =>
        forM (GetLogMetrics w) tt (fun _ metric =>
          IncrementLogMetric (config.Name metric)
                             (config.HasMatches metric data));;
        forM (GetBeforeSuiteMetrics w) tt (fun _ metric =>
          IncrementBeforeSuiteMetric (config.Name metric)
                                     (config.HasMatches metric data))
    end
  else ret tt.

(** The log-metric counting pass: both families of counters are zeroed, then
    every log file of the report directory is counted. *)
Definition countLogMetrics (w : World) (pw : PhaseWorld) (reportDir : string)
    (tcd : list db.CreateTestcaseParams) (files : list string)
  : M PhaseResult unit :=
  (* Ensure all log metrics are zeroed out before running again *)
  modify (fun s => with_Instance s (metadata.ResetLogMetrics (Instance_ s)));;
  (* Ensure all before suite metrics are zeroed out before running again *)
  modify (fun s =>
    with_Instance s (metadata.ResetBeforeSuiteMetrics (Instance_ s)));;
  forM files tt (fun _ file => countLogFile w pw reportDir tcd file).

Definition runTestsInPhase (w : World) (phase description : string)
    (dryrun : bool) : M PhaseResult PhaseResult :=
  let pw := during w phase in
  let testCaseData0 : list db.CreateTestcaseParams := [] in
  Set_ config_Phase (VString phase);;
  reportDir ← GetString config_ReportDir;
  let phaseDirectory := filepath_Join reportDir phase in
  emit (EvStat phaseDirectory);;
  (if os_Stat_IsNotExist pw phaseDirectory then
     emit (EvMkdir phaseDirectory);;
     match os_Mkdir pw phaseDirectory with
     | Some _ =>
         log_ ("error while creating phase directory " +:+ phaseDirectory);;
         return_ (false, testCaseData0)
     | None => ret tt
     end
   else ret tt);;
  suffix ← GetString config_Suffix;
  let phaseReportPath :=
    filepath_Join phaseDirectory ("junit_" +:+ suffix +:+ ".xml") in
  s ← get;
  (if negb dryrun || negb (DryRun s) then
     ok ← call (beforeSuite w pw);
     if negb ok then
       log_ "Error getting kubeconfig from beforeSuite function";;
       return_ (false, testCaseData0)
     else ret tt
   else ret tt);;
  (* the Ginkgo run, under GinkgoRecover *)
  emit (EvRunSpecs description phase phaseReportPath);;
  let ginkgoPassed := RunSpecs pw description in
  emit (EvReadDir phaseDirectory);;
  match ioutil_ReadDir pw phaseDirectory with
  | Bad err =>
      log_ ("error reading phase directory: " +:+ err);;
      return_ (false, testCaseData0)
  | Good files =>
      c ← forM files (mkCollected 0 0 testCaseData0)
             (collectFile w pw phaseDirectory);
      let tcd := testCaseData c in
      (* If we could have opened new alerts, consolidate them *)
      (if decide (os_Getenv w "JOB_TYPE" = "periodic") then
         userToken ← GetString config_Alert_PagerDutyUserToken;
         emit (EvProcessCICDIncidents userToken);;
         match ProcessCICDIncidents pw with
         | Some err => log_ ("Failed merging PD incidents: " +:+ err)
         | None => ret tt
         end
       else ret tt);;
      recordPassRate phase c;;
      emit (EvReadDir reportDir);;
      match ioutil_ReadDir pw reportDir with
      | Bad err =>
          log_ ("error reading phase directory: " +:+ err);;
          return_ (false, tcd)
      | Good files =>
          countLogMetrics w pw reportDir tcd files;;
          (* the two synthetic suites built from the counters; their XML
             text is not looked at *)
          let logmetrics := filepath_Join phaseDirectory "junit_logmetrics.xml" in
          emit (EvWriteFile logmetrics);;
          match ioutil_WriteFile pw logmetrics with
          | Some err =>
              log_ ("error writing to junit file: " +:+ err);;
              return_ (false, tcd)
          | None => ret tt
          end;;
          let beforesuite := filepath_Join phaseDirectory "junit_beforesuite.xml" in
          emit (EvWriteFile beforesuite);;
          match ioutil_WriteFile pw beforesuite with
          | Some err =>
              log_ ("error writing to junit file: " +:+ err);;
              return_ (false, tcd)
          | None => ret tt
          end;;
          clusterID ← GetString config_Cluster_ID;
          clusterState ←
            (if decide (clusterID ≠ "") then
               emit (EvGetCluster clusterID);;
               match GetCluster pw clusterID with
               | Bad err =>
                   log_ ("error getting cluster state after a test run: " +:+ err);;
                   return_ (false, tcd)
               | Good state => ret state
               end
             else ret spi.ClusterStateUnknown);
          (if negb dryrun && bool_decide (clusterState = spi.ClusterStateReady) then
             emit EvNewOutsideGinkgo;;
             if NewOutsideGinkgo_nil pw then
               log_ "Unable to generate helper outside of ginkgo";;
               return_ (ginkgoPassed, tcd)
             else
               emit EvGenerateDependencies;;
               match GenerateDependencies pw with
               | Bad err => log_ ("Error generating dependencies: " +:+ err)
               | Good dependencies =>
                   let deps := filepath_Join phaseDirectory "dependencies.txt" in
                   emit (EvWriteFile deps);;
                   match ioutil_WriteFile pw deps with
                   | Some err => log_ ("Error writing dependencies.txt: " +:+ err)
                   | None => ret tt
                   end;;
                   emit (EvGenerateDiff phase);;
                   match GenerateDiff pw with
                   | Some err => log_ ("Error generating diff: " +:+ err)
                   | None => ret tt
                   end
               end
           else ret tt);;
          return_ (ginkgoPassed, tcd)
      end
  end.

(** ** runGinkgoTests *)

Definition buildLog : string := "test_output.log".

Definition Success : Z := 0.
Definition Failure : Z := 1.
Definition Aborted : Z := 130.

(** [setupRouteMonitors]: the goroutine is started and the stop channel
    handed back.  What the goroutine does before it blocks on the stop
    channel is placed at its start. *)
Definition setupRouteMonitors {R} (w : World) : M R unit :=
  emit EvGoRouteMonitors;;
  match routemonitors_Create w with
  | Some err =>
      log_ ("Error creating route monitors: " +:+ err);;
      (* close(closeChannel); return *)
      modify (fun s => with_monitors s MonitorsCreateFailed)
  | None =>
      (* routeMonitors.Start() and the fan-in of the monitors' results *)
      modify (fun s => with_monitors s MonitorsRunning)
  end.

(** "close route monitors": [close(routeMonitorChan)] followed by the
    receive on [closeMonitorChan].  A serving goroutine answers the stop
    signal by ending the monitors and saving reports, plots, data and
    metadata before it closes [closeMonitorChan]. *)
Definition closeRouteMonitors {R} : M R unit :=
  s ← get;
  match monitors s with
  | MonitorsNone => panic "close of nil channel"
  | MonitorsRunning =>
      emit EvCloseRouteMonitorChan;;
      log_ "Closing route monitors...";;
      emit EvRouteMonitorsFlush;;
      modify (fun s => with_monitors s MonitorsStopped);;
      emit EvRecvCloseMonitorChan
  | MonitorsCreateFailed =>
      emit EvCloseRouteMonitorChan;;
      emit EvRecvCloseMonitorChan
  | MonitorsStopped => panic "close of closed channel"
  end.

(** The function handed to [db.WithDB]: migrate, insert the job, insert its
    test cases. *)
Definition storeJob (w : World) (testsPassed upgradeTestsPassed : bool)
    (testcases : list db.CreateTestcaseParams) : M error error :=
  log_ "We're storing data in the database!";;
  (* ensure it's on the latest schema *)
  emit EvMigrateUp;;
  match migrate_Up w with
  | Some err => return_ (Some err)
  | None =>
      (* insert this job's info *)
      let result :=
        if upgradeTestsPassed && testsPassed
        then db.JobResultPassed else db.JobResultFailed in
      emit (EvCreateJob result);;
      match CreateJob w with
      | Bad err => return_ (Some ("failed creating job: " +:+ err))
      | Good jobID =>
          forM testcases tt (fun _ tc =>
            let tc := db.with_JobID tc jobID in
            emit (EvCreateTestcase tc);;
            match CreateTestcase w tc with
            | Some err => return_ (Some ("failed creating test case: " +:+ err))
            | None => ret tt
            end);;
          return_ None
      end
  end.

Abbreviation RunResult := (Z * error)%type.

(** [runGinkgoTests], first part: the reporter, the build log, the cluster
    provider and the versions, up to the choice of the suffix.  It hands on
    the locals [reportDir] and [clusterID]. *)
Definition setUpRun (w : World) : M RunResult (string * string) :=
  Set_ config_Cluster_Passing (VBool false);;
  (* of the Ginkgo settings only DryRun is read again later *)
  dry ← GetBool config_DryRun;
  modify (fun s => with_DryRun s dry);;
  when dry
    (log_ "WARNING! This is a DRY RUN. Review this state if outcome is unexpected.");;
  (* setup reporter *)
  reportDir ← GetString config_ReportDir;
  reportDir ←
    (if decide (reportDir = "") then
       emit EvTempDir;;
       match ioutil_TempDir w with
       | Bad err =>
           return_ (Failure, Some ("error creating temporary directory: " +:+ err))
       | Good reportDir =>
           log_ ("Writing files to temporary directory " +:+ reportDir);;
           Set_ config_ReportDir (VString reportDir);;
           ret reportDir
       end
     else
       emit (EvMkdir reportDir);;
       match os_Mkdir_reportDir w with
       | Some err => log_ ("Could not create reporter directory: " +:+ err)
       | None => ret tt
       end;;
       ret reportDir);
  (* Redirect stdout to where we want it to go *)
  let buildLogPath := filepath_Join reportDir buildLog in
  emit (EvCreate buildLogPath);;
  match os_Create w buildLogPath with
  | Some err =>
      return_ (Failure, Some ("unable to create build log in report directory: " +:+ err))
  | None => ret tt
  end;;
  log_ ("Outputting log to build log at " +:+ buildLogPath);;
  (* Get the cluster ID now to test against later *)
  clusterID ← GetString config_Cluster_ID;
  providerCfg ← GetString config_Provider;
  kubeconfigPath ← GetString config_Kubeconfig_Path;
  (* setup OSD unless Kubeconfig is present *)
  (if bool_decide (0 < String.length kubeconfigPath)%nat
      && bool_decide (providerCfg = "mock") then
     log_ "Found an existing Kubeconfig!";;
     emit EvClusterProvider;;
     match ClusterProvider w with
     | Bad err =>
         modify (fun s => with_provider s false);;
         return_ (Failure, Some ("could not setup cluster provider: " +:+ err))
     | Good environment =>
         modify (fun s => with_provider s true);;
         emit (EvMetadataSet "Environment" environment)
     end
   else
     emit EvClusterProvider;;
     match ClusterProvider w with
     | Bad err =>
         modify (fun s => with_provider s false);;
         return_ (Failure, Some ("could not setup cluster provider: " +:+ err))
     | Good environment =>
         modify (fun s => with_provider s true);;
         emit (EvMetadataSet "Environment" environment)
     end;;
     (* configure cluster and upgrade versions *)
     emit EvChooseVersions;;
     s ← get;
     let chosen := ChooseVersions w (cfg s) in
     modify (fun s => with_cfg s chosen.2);;
     match chosen.1 with
     | Some err => return_ (Failure, Some err)
     | None => ret tt
     end;;
     enough ← GetBool config_Cluster_EnoughVersionsForOldestOrMiddleTest;
     previous ← GetBool config_Cluster_PreviousVersionFromDefaultFound;
     equal ← GetBool config_Upgrade_UpgradeVersionEqualToInstallVersion;
     releaseName ← GetString config_Upgrade_ReleaseName;
     image ← GetString config_Upgrade_Image;
     managed ← GetBool config_Upgrade_ManagedUpgrade;
     version ← GetString config_Cluster_Version;
     if negb enough then
       return_ (Aborted, Some "there were not enough available cluster image sets to choose and oldest or middle cluster image set to test against -- skipping tests")
     else if negb previous then
       return_ (Aborted, Some "no previous version from default found with the given arguments")
     else if equal then
       return_ (Aborted, Some "install version and upgrade version are the same -- skipping tests")
     else if decide (releaseName = NoVersionFound w) then
       return_ (Aborted, Some "no valid upgrade versions were found. Skipping tests")
     else if bool_decide (image ≠ "") && managed then
       return_ (Aborted, Some ("image-based managed upgrades are unsupported: " +:+ image))
     else if decide (version = "") then
       return_ (Aborted, Some "no valid install version found")
     else ret tt);;
  (* Update the metadata object to use the report directory. *)
  emit (EvMetadataSet "ReportDir" reportDir);;
  log_ "Running e2e tests...";;
  suffix ← GetString config_Suffix;
  when (bool_decide (suffix = ""))
    (Set_ config_Suffix (VString (RandomStr w)));;
  ret (reportDir, clusterID).

(** [runGinkgoTests], second part: the install phase. *)
Definition runInstallPhase (w : World) : M RunResult PhaseResult :=
  s ← get;
  install ← call (runTestsInPhase w phase.InstallPhase "OSD e2e suite" (DryRun s));
  let testsPassed := install.1 in
  let installTestCaseData := install.2 in
  call (getLogs w);;
  Set_ config_Cluster_Passing (VBool testsPassed);;
  ret install.

(** [runGinkgoTests], third part: "upgrade cluster if requested".  It hands
    on [upgradeTestsPassed] and [upgradeTestCaseData], which start as [true]
    and nil. *)
Definition upgradeCluster (w : World) : M RunResult PhaseResult :=
  image ← GetString config_Upgrade_Image;
  releaseName ← GetString config_Upgrade_ReleaseName;
  if bool_decide (image ≠ "") || bool_decide (releaseName ≠ "") then
    contents ← GetString config_Kubeconfig_Contents;
    if decide (0 < String.length contents)%nat then
      (* create route monitors for the upgrade *)
      monitor ← GetBool config_Upgrade_MonitorRoutesDuringUpgrade;
      s ← get;
      when (monitor && negb (DryRun s))
        (setupRouteMonitors w;;
         log_ "Route Monitors created.");;
      (* run the upgrade *)
      emit EvRunUpgrade;;
      match RunUpgrade w with
      | Some err =>
          emit (EvRecordEvent "UpgradeFailed");;
          return_ (Failure, Some ("error performing upgrade: " +:+ err))
      | None => ret tt
      end;;
      emit (EvRecordEvent "UpgradeSuccessful");;
      (* test upgrade rescheduling if desired *)
      rescheduled ← GetBool config_Upgrade_ManagedUpgradeRescheduled;
      upgraded ←
        (if negb rescheduled then
           log_ "Running e2e tests POST-UPGRADE...";;
           Set_ config_Cluster_Passing (VBool false);;
           s ← get;
           upgrade ← call (runTestsInPhase w phase.UpgradePhase
                             "OSD e2e suite post-upgrade" (DryRun s));
           Set_ config_Cluster_Passing (VBool upgrade.1);;
           ret upgrade
         else ret (true, []));
      log_ "Upgrade rescheduled, skip the POST-UPGRADE testing";;
      (* close route monitors *)
      monitor ← GetBool config_Upgrade_MonitorRoutesDuringUpgrade;
      s ← get;
      when (monitor && negb (DryRun s))
        (closeRouteMonitors;;
         log_ "Route monitors reconciled");;
      ret upgraded
    else
      log_ "No Kubeconfig found from initial cluster setup. Unable to run upgrade.";;
      ret (true, [])
  else ret (true, []).

(** [runGinkgoTests], last part: the database, the metadata and metrics
    files, the cluster's end and the verdict. *)
Definition finishRun (w : World) (reportDir clusterID : string)
    (install upgraded : PhaseResult) : M RunResult RunResult :=
  let testsPassed := install.1 in
  let installTestCaseData := install.2 in
  let upgradeTestsPassed : bool := upgraded.1 in
  let upgradeTestCaseData : list db.CreateTestcaseParams := upgraded.2 in
  user ← GetString config_Database_User;
  pass ← GetString config_Database_Pass;
  host ← GetString config_Database_Host;
  port ← GetString config_Database_Port;
  databaseName ← GetString config_Database_DatabaseName;
  let dbURL := "postgres://" +:+ user +:+ ":" +:+ pass +:+ "@" +:+ host
                 +:+ ":" +:+ port +:+ "/" +:+ databaseName in
  (* connect to the db *)
  jobID ← GetString config_JobID;
  (if decide (jobID ≠ "") then
     log_ ("Storing data for Job ID: " +:+ jobID);;
     emit (EvWithDB dbURL);;
     err ← (match WithDB w with
            | Some err => ret (Some err)
            | None =>
                call (storeJob w testsPassed upgradeTestsPassed
                        (installTestCaseData ++ upgradeTestCaseData)%list)
            end);
     match err with
     | Some err => log_ ("failed creating job entry in db: " +:+ err)
     | None => ret tt
     end
   else ret tt);;
  (if decide (reportDir ≠ "") then
     emit (EvWriteToJSON reportDir);;
     match WriteToJSON w with
     | Some err =>
         return_ (Failure, Some ("error while writing the custom metadata: " +:+ err))
     | None => ret tt
     end;;
     emit EvNewMetrics;;
     (if NewMetrics_nil w then
        return_ (Failure, Some "error getting new metrics provider")
      else ret tt);;
     emit (EvWritePrometheusFile reportDir);;
     match WritePrometheusFile w with
     | Bad err =>
         return_ (Failure, Some ("error while writing prometheus metrics: " +:+ err))
     | Good prometheusFilename =>
         jobName ← GetString config_JobName;
         if decide (jobName = "") then
           log_ "Skipping metrics upload for local osde2e run."
         else if Strings.HasPrefix jobName "rehearse-" then
           log_ ("Job " +:+ jobName +:+ " is a rehearsal, so metrics upload is being skipped.")
         else
           emit (EvUploadFileToMetricsBucket
                   (filepath_Join reportDir prometheusFilename));;
           match uploadFileToMetricsBucket w with
           | Some err =>
               return_ (Failure, Some ("error while uploading prometheus metrics: " +:+ err))
           | None => ret tt
           end
     end
   else ret tt);;
  destroy ← GetBool config_Cluster_DestroyAfterTest;
  (if destroy then
     log_ ("Destroying cluster '" +:+ clusterID +:+ "'...");;
     emit (EvDeleteCluster clusterID);;
     match DeleteCluster w with
     | Some err => return_ (Failure, Some ("error deleting cluster: " +:+ err))
     | None => ret tt
     end
   else
     (* When using a local kubeconfig, provider might not be set *)
     s ← get;
     when (provider s)
       (id ← GetString config_Cluster_ID;
        log_ ("For debugging, please look for cluster ID " +:+ id)));;
  s ← get;
  (if negb (DryRun s) then
     call (getLogs w);;
     emit EvNewOutsideGinkgo;;
     (if cleanup_NewOutsideGinkgo_nil w then
        return_ (Failure, Some "Unable to generate helper object for cleanup")
      else ret tt);;
     emit EvCleanupAfterE2E
   else ret tt);;
  (if negb testsPassed || negb upgradeTestsPassed then
     Set_ config_Cluster_Passing (VBool false);;
     return_ (Failure, Some "please inspect logs for more details")
   else ret tt);;
  return_ (Success, None).


(** [runGinkgoTests] runs the osde2e test suite using Ginkgo. *)
Definition runGinkgoTests (w : World) : M RunResult RunResult :=
  dirs ← setUpRun w;
  install ← runInstallPhase w;
  upgraded ← upgradeCluster w;
  finishRun w dirs.1 dirs.2 install upgraded.

(** [RunTests]: the exit code of the process. *)
Definition RunTests (w : World) : M Z Z :=
  r ← call (runGinkgoTests w);
  match r.2 with
  | Some err => log_ ("Tests failed: " +:+ err)
  | None => ret tt
  end;;
  return_ r.1.

(** ** Reading a run *)

(** The payloads of the incidents a run fired, in order. *)
Definition alertsFired (l : list Event) : list V2Payload :=
  omap (fun e => match e with EvFireAlert _ p => Some p | _ => None end) l.

(** The Slack notifications a run sent, in order. *)
Definition slackSent (l : list Event) : list (string * string) :=
  omap (fun e => match e with
                 | EvSendSlackMessage c m => Some (c, m)
                 | _ => None
                 end) l.

Definition isAddonJob (jobName : string) : bool :=
  Strings.Contains (Strings.ToLower jobName) "addon".

Definition isInforming (name : string) : bool :=
  Strings.Contains name "informing".

(** The detail map [openPDAlerts] attaches to every incident. *)
Definition jobDetailsOf (s : State) (jobURL : string) : gmap string string :=
  <["expiration" := "clusters expire 6 hours after creation"]>
  (<["clusterVersion" := viper.GetString (cfg s) config_Cluster_Version]>
  (<["clusterName" := viper.GetString (cfg s) config_Cluster_Name]>
  (<["clusterID" := viper.GetString (cfg s) config_Cluster_ID]>
  (<["details" := jobURL]> ∅)))).

(** The one incident of a bulk failure. *)
Definition bulkIncident (s : State) (jobName jobURL : string) : V2Payload :=
  mkPayload "A lot of tests failed together" "info" jobName ""
            (<["help" := manyFailedHelp]> (jobDetailsOf s jobURL)).

(** The incident of one failing test. *)
Definition testIncident (s : State) (jobName jobURL name : string) : V2Payload :=
  mkPayload (name +:+ " failed") "info" jobName name (jobDetailsOf s jobURL).

(** ** Sample worlds *)

(** A phase in which every collaborator succeeds, except for what is given:
    the answer of [ProvisionCluster], of PagerDuty, and the directories and
    files found. *)
Definition phaseWith (provision : Result spi.Cluster)
    (fire : V2Payload -> Result string)
    (readDir : string -> Result (list string))
    (ingest : string -> Result (list junit.Suite))
    (readFile : string -> Result string) : PhaseWorld := {|
  os_Stat_IsNotExist := fun _ => true;
  os_Mkdir := fun _ => None;
  ioutil_ReadFile := readFile;
  ioutil_ReadDir := readDir;
  ioutil_WriteFile := fun _ => None;
  ProvisionCluster := provision;
  AddProperty := None;
  WaitForClusterReadyPostWake := None;
  WaitForClusterReadyPostInstall := None;
  ClusterKubeconfig := fun _ => Good "kubeconfig";
  json_Unmarshal := fun _ => None;
  InstallAddons := Good 0;
  addons_WaitForClusterReadyPostInstall := None;
  CreateSecret := None;
  RunSpecs := fun _ => true;
  IngestFile := ingest;
  FireAlert := fire;
  SendSlackMessage := fun _ _ => None;
  ProcessCICDIncidents := None;
  GetCluster := fun _ => Good spi.ClusterStateReady;
  NewOutsideGinkgo_nil := false;
  GenerateDependencies := Good "deps";
  GenerateDiff := None;
|}.

Definition aCluster : spi.Cluster :=
  spi.mkCluster "id-1" "c1" "4.8.0" "aws" "us-east-1" [].

(** A phase with empty directories. *)
Definition quietPhase : PhaseWorld :=
  phaseWith (Good aCluster) (fun _ => Good "event") (fun _ => Good [])
            (fun _ => Good []) (fun _ => Good "").

(** A run in which every collaborator succeeds, except for what is given:
    the process environment, the configured log metrics, the answer of the
    upgrade and the phases. *)
Definition worldWith (env : gmap string string)
    (logMetrics beforeSuiteMetrics : list config.LogMetric)
    (upgrade : error) (phases : string -> PhaseWorld) : World := {|
  environ := env;
  junitFileRegex := fun f => Strings.HasPrefix f "junit";
  logFileRegex := fun f => Strings.Contains f ".log";
  GetLogMetrics := logMetrics;
  GetBeforeSuiteMetrics := beforeSuiteMetrics;
  NoVersionFound := "NoVersionFound";
  RandomStr := "abcde";
  ioutil_TempDir := Good "/tmp/report";
  os_Mkdir_reportDir := None;
  os_Create := fun _ => None;
  ClusterProvider := Good "stage";
  ChooseVersions := fun c => (None, c);
  provider_Logs := Good [];
  writeLogs_WriteFile := fun _ => None;
  routemonitors_Create := None;
  RunUpgrade := upgrade;
  WithDB := None;
  migrate_Up := None;
  CreateJob := Good 1;
  CreateTestcase := fun _ => None;
  WriteToJSON := None;
  NewMetrics_nil := false;
  WritePrometheusFile := Good "metrics.prom";
  uploadFileToMetricsBucket := None;
  DeleteCluster := None;
  cleanup_NewOutsideGinkgo_nil := false;
  during := phases;
|}.

Definition quietWorld : World :=
  worldWith ∅ [] [] None (fun _ => quietPhase).

(** The state of a fresh process: nothing configured. *)
Definition freshState : State :=
  mkState viper.empty false false metadata.empty MonitorsNone.

Definition configure (kvs : list (Key * Value)) (s : State) : State :=
  with_cfg s (foldl (fun c kv => viper.Set_ c kv.1 kv.2) (cfg s) kvs).

Definition failedTest (name : string) : junit.Test :=
  junit.mkTest name 1000 junit.StatusFailed None "" "".

Definition suiteOf (tests : list junit.Test) : junit.Suite :=
  junit.mkSuite "e2e" tests.

Definition erroredTest (name : string) : junit.Test :=
  junit.mkTest name 1000 junit.StatusError (Some "boom") "" "".

Definition skippedTest (name : string) : junit.Test :=
  junit.mkTest name 0 junit.StatusSkipped None "" "".

Definition passedTest (name : string) : junit.Test :=
  junit.mkTest name 1000 junit.StatusPassed None "" "".

(** One test case moves the two counters as the loop body says. *)
Definition countTest (counts : Z * Z) (testcase : junit.Test) : Z * Z :=
  let isSkipped := bool_decide (junit.Status_ testcase = junit.StatusSkipped) in
  let isFail := bool_decide (junit.Status_ testcase = junit.StatusFailed) in
  (if negb isSkipped then counts.1 + 1 else counts.1,
   if negb isFail && negb isSkipped then counts.2 + 1 else counts.2).

Definition isFailed (t : junit.Test) : bool :=
  bool_decide (junit.Status_ t = junit.StatusFailed).

(** The suites with the test cases named "informing" taken out. *)
Definition dropInforming (suites : list junit.Suite) : list junit.Suite :=
  map (fun suite =>
         junit.mkSuite (junit.SuiteName suite)
           (List.filter (fun t => negb (isInforming (junit.Name t)))
                        (junit.Tests suite)))
      suites.

(** The reading of the informing rule as the specification words it: a test
    named "informing" is left out of escalation entirely, so the incidents
    fired are those fired without it. *)
Definition informing_excluded_entirely (pw : PhaseWorld)
    (suites : list junit.Suite) (jobName jobURL : string) (s : State) : Prop :=
  alertsFired (evs (openPDAlerts pw suites jobName jobURL s)) =
  alertsFired (evs (openPDAlerts pw (dropInforming suites) jobName jobURL s)).

(** The reading of the escalation policy as the specification words it: more
    than ten distinct failing names give one ungrouped incident and one
    notification; otherwise every failing test gets one incident whose
    summary and grouping key are the test name. *)
Definition escalation_as_specified (pw : PhaseWorld)
    (suites : list junit.Suite) (jobName jobURL : string) (s : State) : Prop :=
  let o := openPDAlerts pw suites jobName jobURL s in
  let failing := failingTestsOf suites in
  if (10 <? Z.of_nat (length (remove_dups failing)))%Z then
    (exists p, alertsFired (evs o) = [p] /\ Group p = "" /\
               Summary p = "A lot of tests failed together") /\
    length (slackSent (evs o)) = 1%nat
  else
    map (fun p => (Summary p, Group p)) (alertsFired (evs o)) =
    map (fun name => (name, name)) failing.

Definition tenFailed : list junit.Test :=
  map failedTest ["t01"; "t02"; "t03"; "t04"; "t05";
                  "t06"; "t07"; "t08"; "t09"; "t10"].

(** ** Invariants of a run *)

(** [triple p J Qn Qr m]: started in a state that satisfies [J], the
    computation [m] only emits events that [p] accepts, ends in a state that
    satisfies [J], and its value satisfies [Qn] when it falls through and
    [Qr] when it returns. *)
Definition triple {R A} (p : Event -> bool) (J : State -> Prop)
    (Qn : A -> Prop) (Qr : R -> Prop) (m : M R A) : Prop :=
  forall s, J s ->
    forallb p (evs (m s)) = true /\ J (st (m s)) /\
    match res (m s) with
    | Next a => Qn a
    | Return r => Qr r
    | Panic _ => True
    end.

Definition any {A} : A -> Prop := fun _ => True.

(** Every event but a Ginkgo run. *)
Definition notRunSpecs (e : Event) : bool :=
  match e with EvRunSpecs _ _ _ => false | _ => true end.

(** A world in which provisioning a cluster fails in every phase. *)
Definition provisionFails : World :=
  worldWith ∅ [] [] None
    (fun _ => phaseWith (Bad "quota exceeded") (fun _ => Good "event")
                        (fun _ => Good []) (fun _ => Good [])
                        (fun _ => Good "")).

(** The record the loop appends for a test case when [errText] is what the
    enclosing [err] says: a test case with an error of its own gets
    [errText], any other the empty string. *)
Definition recordOf (errText : string) (test : junit.Test)
  : db.CreateTestcaseParams :=
  db.mkTestcase 0 (testResultOf (junit.Status_ test)) (junit.Name test)
    (junit.Duration test)
    (match junit.Error test with Some _ => errText | None => "" end)
    (junit.SystemOut test) (junit.SystemErr test).

Definition hasError (test : junit.Test) : bool :=
  match junit.Error test with Some _ => true | None => false end.

Definition allEvents : Event -> bool := fun _ => true.

Definition errorsEmpty (tcd : list db.CreateTestcaseParams) : Prop :=
  Forall (fun tc => db.Error tc = "") tcd.

(** A phase whose directory holds one result file with the given suites. *)
Definition phaseWithResults (suites : list junit.Suite) : PhaseWorld :=
  phaseWith (Good aCluster) (fun _ => Good "event")
            (fun _ => Good ["junit_abcde.xml"])
            (fun _ => Good suites) (fun _ => Good "").

Definition assertionFailed : junit.Test :=
  junit.mkTest "t" 1000 junit.StatusFailed (Some "expected 3, got 4") "" "".





(** An invariant that only reads [metadata.Instance]. *)
Definition instanceOnly (J : State -> Prop) : Prop :=
  forall s s', Instance_ s = Instance_ s' -> J s -> J s'.

(** How often the metrics named [name] match one log file. *)
Definition fileCount (metrics : list config.LogMetric) (name data : string) : Z :=
  foldr (fun metric n =>
           if decide (config.Name metric = name)
           then config.HasMatches metric data + n else n)
        0 metrics.

(** How often the metrics named [name] match in the log files of the report
    directory, as one phase finds them. *)
Definition logCount (w : World) (pw : PhaseWorld) (reportDir : string)
    (metrics : list config.LogMetric) (name : string) (files : list string) : Z :=
  foldr (fun file n =>
           if logFileRegex w file then
             match ioutil_ReadFile pw (filepath_Join reportDir file) with
             | Good data => fileCount metrics name data + n
             | Bad _ => n
             end
           else n)
        0 files.

(** The counters after the metrics were incremented for one log file. *)
Definition incrementAll (metrics : list config.LogMetric) (data : string)
    (c : gmap string Z) : gmap string Z :=
  foldl (fun c metric =>
           metadata.increment (config.Name metric)
                              (config.HasMatches metric data) c)
        c metrics.

(** The state in which the loop over the log files starts. *)
Definition countingStart (s : State) : State :=
  with_Instance
    (with_Instance s (metadata.ResetLogMetrics (Instance_ s)))
    (metadata.ResetBeforeSuiteMetrics
       (metadata.ResetLogMetrics (Instance_ s))).

Definition allZero (c : gmap string Z) : Prop :=
  forall name v, c !! name = Some v -> v = 0.

(** What a counter reads: an absent counter reads as zero. *)
Definition counter (c : gmap string Z) (name : string) : Z :=
  default 0 (c !! name).

(** A metric that matches when the log holds "panic". *)
Definition panicMetric : config.LogMetric :=
  config.mkLogMetric "panics"
    (fun data => if Strings.Contains data "panic" then 1 else 0)
    (fun n => (n <=? 0)%Z).

(** A state in which an earlier phase counted three matches. *)
Definition afterEarlierPhase : State :=
  with_Instance freshState
    (metadata.mkMetadata ∅ {["panics" := 3]} {["panics" := 2]}).

Definition oneLogPhase : PhaseWorld :=
  phaseWith (Good aCluster) (fun _ => Good "event")
            (fun _ => Good ["build.log"]) (fun _ => Good [])
            (fun _ => Good "goroutine 1: panic: oh no").

Definition oneLogWorld : World :=
  worldWith ∅ [panicMetric] [panicMetric] None (fun _ => oneLogPhase).

(** ** Reading an upgrade *)

Definition isRunUpgrade (e : Event) : bool :=
  match e with EvRunUpgrade => true | _ => false end.

(** Every event but those of a run that got past the upgrade: the Ginkgo run
    of the upgrade phase, the record of a successful upgrade, and the job
    and test-case rows written to the database. *)
Definition notPostUpgrade (e : Event) : bool :=
  match e with
  | EvRunSpecs _ ph _ => negb (String.eqb ph phase.UpgradePhase)
  | EvRecordEvent name => negb (String.eqb name "UpgradeSuccessful")
  | EvCreateJob _ => false
  | EvCreateTestcase _ => false
  | _ => true
  end.

(** The events of a run that has not reached the upgrade. *)
Definition beforeUpgrade (e : Event) : bool :=
  notPostUpgrade e && negb (isRunUpgrade e).

(** The pass rate on record for the upgrade phase is [v]. *)
Definition upgradeRateIs (v : option float64) (s : State) : Prop :=
  metadata.PassRates (Instance_ s) !! phase.UpgradePhase = v.

Definition isStopSignal (e : Event) : bool :=
  match e with
  | EvCloseRouteMonitorChan | EvRouteMonitorsFlush | EvRecvCloseMonitorChan =>
      true
  | _ => false
  end.

Definition isGoRouteMonitors (e : Event) : bool :=
  match e with EvGoRouteMonitors => true | _ => false end.

(** A run with an upgrade target and route monitoring configured. *)
Definition monitoredUpgrade : State :=
  configure [(config_Upgrade_ReleaseName, VString "4.9.0");
             (config_Cluster_Version, VString "4.8.0");
             (config_Cluster_EnoughVersionsForOldestOrMiddleTest, VBool true);
             (config_Cluster_PreviousVersionFromDefaultFound, VBool true);
             (config_Upgrade_MonitorRoutesDuringUpgrade, VBool true)]
            freshState.

(** A world in which the upgrade fails. *)
Definition upgradeFails : World :=
  worldWith ∅ [] [] (Some "timeout") (fun _ => quietPhase).

(** Where the counters stand, in a state the loop over the log files has
    reached from [s0] by counting [files]. *)
Definition countedFrom (w : World) (pw : PhaseWorld) (reportDir : string)
    (files : list string) (s0 s : State) : Prop :=
  (forall name,
      counter (metadata.LogMetrics (Instance_ s)) name =
      counter (metadata.LogMetrics (Instance_ s0)) name
      + logCount w pw reportDir (GetLogMetrics w) name files) /\
  (forall name,
      counter (metadata.BeforeSuiteMetrics (Instance_ s)) name =
      counter (metadata.BeforeSuiteMetrics (Instance_ s0)) name
      + logCount w pw reportDir (GetBeforeSuiteMetrics w) name files).

(** A run whose install and upgrade phases each find one result file, with
    one failed test case as go-junit reads it. *)
Definition oneAssertionFailed : World :=
  worldWith ∅ [] [] None
    (fun _ => phaseWithResults [suiteOf [assertionFailed]]).

(** The reading of the record's error text as the specification words it:
    the phase records the test case, and the [Error] of its record is the
    text of an error assigned earlier in the enclosing block. *)
Definition error_from_stale_err_as_specified (w : World)
    (phase description : string) (dryrun : bool) (s : State)
    (test : junit.Test) : Prop :=
  exists passed tcd stale,
    res (runTestsInPhase w phase description dryrun s) = Return (passed, tcd) /\
    In (recordOf stale test) tcd.

(** ** Further readings of a run *)

(** A test case that counts: its status is not "skipped". *)
Definition isCounted (t : junit.Test) : bool :=
  negb (bool_decide (junit.Status_ t = junit.StatusSkipped)).

(** A test case that counts as passing: its status is neither "failed" nor
    "skipped". *)
Definition isCountedPassing (t : junit.Test) : bool :=
  negb (bool_decide (junit.Status_ t = junit.StatusFailed))
  && negb (bool_decide (junit.Status_ t = junit.StatusSkipped)).

(** Every event but those of acquiring a cluster in [beforeSuite]. *)
Definition notAcquisition (e : Event) : bool :=
  match e with
  | EvProvisionCluster | EvHandleErrorWithEvents _ _ _ | EvAddProperty _ _
  | EvWaitForClusterReadyPostWake _ | EvWaitForClusterReadyPostInstall _
  | EvClusterKubeconfig _ | EvSleep _ | EvInstallAddons _ _
  | EvCreateProject _ | EvCreateSecret _ | EvMetadataSet _ _ => false
  | _ => true
  end.

(** A world whose phase directories cannot be created. *)
Definition noPhaseDirectory : World :=
  worldWith ∅ [] [] None
    (fun _ => {|
       os_Stat_IsNotExist := fun _ => true;
       os_Mkdir := fun _ => Some "permission denied";
       ioutil_ReadFile := ioutil_ReadFile quietPhase;
       ioutil_ReadDir := ioutil_ReadDir quietPhase;
       ioutil_WriteFile := ioutil_WriteFile quietPhase;
       ProvisionCluster := ProvisionCluster quietPhase;
       AddProperty := AddProperty quietPhase;
       WaitForClusterReadyPostWake := WaitForClusterReadyPostWake quietPhase;
       WaitForClusterReadyPostInstall :=
         WaitForClusterReadyPostInstall quietPhase;
       ClusterKubeconfig := ClusterKubeconfig quietPhase;
       json_Unmarshal := json_Unmarshal quietPhase;
       InstallAddons := InstallAddons quietPhase;
       addons_WaitForClusterReadyPostInstall :=
         addons_WaitForClusterReadyPostInstall quietPhase;
       CreateSecret := CreateSecret quietPhase;
       RunSpecs := RunSpecs quietPhase;
       IngestFile := IngestFile quietPhase;
       FireAlert := FireAlert quietPhase;
       SendSlackMessage := SendSlackMessage quietPhase;
       ProcessCICDIncidents := ProcessCICDIncidents quietPhase;
       GetCluster := GetCluster quietPhase;
       NewOutsideGinkgo_nil := NewOutsideGinkgo_nil quietPhase;
       GenerateDependencies := GenerateDependencies quietPhase;
       GenerateDiff := GenerateDiff quietPhase;
     |}).

(** The state of a dry run. *)
Definition dryState : State := with_DryRun freshState true.

(** The invariant "Ginkgo is in dry-run mode". *)
Definition isDry (s : State) : Prop := DryRun s = true.





(** ** Further readings: log collection, addons, the database *)

(** What one pass of [writeLogs] over the provider's logs does, with the
    report directory [reportDir]: one write per entry, and one log line for
    each write that fails. *)
Definition logWrites (w : World) (reportDir : string)
    (logs : list (string * string)) : list Event :=
  flat_map (fun kv =>
    let filePath := filepath_Join reportDir (kv.1 +:+ "-log.txt") in
    EvWriteFile filePath ::
    match writeLogs_WriteFile w filePath with
    | Some err =>
        [EvLog ("Error writing log " +:+ filePath +:+ ": " +:+ err)]
    | None => []
    end) logs.

(** A world like [w] whose provider answers [logs] and in which the files
    [unwritable] accepts cannot be written. *)
Definition withLogs (w : World) (logs : Result (list (string * string)))
    (unwritable : string -> bool) : World := {|
  environ := environ w;
  junitFileRegex := junitFileRegex w;
  logFileRegex := logFileRegex w;
  GetLogMetrics := GetLogMetrics w;
  GetBeforeSuiteMetrics := GetBeforeSuiteMetrics w;
  NoVersionFound := NoVersionFound w;
  RandomStr := RandomStr w;
  ioutil_TempDir := ioutil_TempDir w;
  os_Mkdir_reportDir := os_Mkdir_reportDir w;
  os_Create := os_Create w;
  ClusterProvider := ClusterProvider w;
  ChooseVersions := ChooseVersions w;
  provider_Logs := logs;
  writeLogs_WriteFile :=
    fun f => if unwritable f then Some "disk full" else None;
  routemonitors_Create := routemonitors_Create w;
  RunUpgrade := RunUpgrade w;
  WithDB := WithDB w;
  migrate_Up := migrate_Up w;
  CreateJob := CreateJob w;
  CreateTestcase := CreateTestcase w;
  WriteToJSON := WriteToJSON w;
  NewMetrics_nil := NewMetrics_nil w;
  WritePrometheusFile := WritePrometheusFile w;
  uploadFileToMetricsBucket := uploadFileToMetricsBucket w;
  DeleteCluster := DeleteCluster w;
  cleanup_NewOutsideGinkgo_nil := cleanup_NewOutsideGinkgo_nil w;
  during := during w;
|}.

(** A state with a provider and a cluster id, as after a provisioning. *)
Definition provisionedState : State :=
  configure [(config_Cluster_ID, VString "id-1");
             (config_ReportDir, VString "/tmp/report")]
            (with_provider freshState true).

(** A world like [w] whose database refuses the test cases [refused]
    accepts. *)
Definition withCreateTestcase (w : World)
    (refused : db.CreateTestcaseParams -> bool) : World := {|
  environ := environ w;
  junitFileRegex := junitFileRegex w;
  logFileRegex := logFileRegex w;
  GetLogMetrics := GetLogMetrics w;
  GetBeforeSuiteMetrics := GetBeforeSuiteMetrics w;
  NoVersionFound := NoVersionFound w;
  RandomStr := RandomStr w;
  ioutil_TempDir := ioutil_TempDir w;
  os_Mkdir_reportDir := os_Mkdir_reportDir w;
  os_Create := os_Create w;
  ClusterProvider := ClusterProvider w;
  ChooseVersions := ChooseVersions w;
  provider_Logs := provider_Logs w;
  writeLogs_WriteFile := writeLogs_WriteFile w;
  routemonitors_Create := routemonitors_Create w;
  RunUpgrade := RunUpgrade w;
  WithDB := WithDB w;
  migrate_Up := migrate_Up w;
  CreateJob := CreateJob w;
  CreateTestcase :=
    fun tc => if refused tc then Some "duplicate key" else None;
  WriteToJSON := WriteToJSON w;
  NewMetrics_nil := NewMetrics_nil w;
  WritePrometheusFile := WritePrometheusFile w;
  uploadFileToMetricsBucket := uploadFileToMetricsBucket w;
  DeleteCluster := DeleteCluster w;
  cleanup_NewOutsideGinkgo_nil := cleanup_NewOutsideGinkgo_nil w;
  during := during w;
|}.

(** The record of a test case that passed, before it has a job. *)
Definition passedRecord (name : string) : db.CreateTestcaseParams :=
  db.mkTestcase 0 db.TestResultPassed name 1000 "" "" "".

(** The verdict [storeJob] files the job under. *)
Definition jobResultOf (testsPassed upgradeTestsPassed : bool)
  : db.JobResult :=
  if upgradeTestsPassed && testsPassed
  then db.JobResultPassed else db.JobResultFailed.

(** ** Weakest preconditions *)

(** [wp m Qn Qr Qp s l]: run from the state [s] after the events [l], the
    computation [m] ends in a state and with a trace that satisfy [Qn] when
    it falls through and [Qr] when it returns; when it panics the message
    satisfies [Qp]. *)
Definition wp {R A} (m : M R A)
    (Qn : A -> State -> list Event -> Prop)
    (Qr : R -> State -> list Event -> Prop)
    (Qp : string -> Prop) (s : State) (l : list Event) : Prop :=
  match res (m s) with
  | Next a => Qn a (st (m s)) (l ++ evs (m s))
  | Return r => Qr r (st (m s)) (l ++ evs (m s))
  | Panic msg => Qp msg
  end.

(** [ptriple Pp p J Qn Qr m]: as [triple p J Qn Qr m], and when [m] panics
    the message satisfies [Pp]. *)
Definition ptriple {R A} (Pp : string -> Prop) (p : Event -> bool)
    (J : State -> Prop) (Qn : A -> Prop) (Qr : R -> Prop) (m : M R A)
  : Prop :=
  forall s, J s ->
    forallb p (evs (m s)) = true /\ J (st (m s)) /\
    match res (m s) with
    | Next a => Qn a
    | Return r => Qr r
    | Panic msg => Pp msg
    end.

Definition never {A} : A -> Prop := fun _ => False.

(** ** Further readings: cluster acquisition *)

(** The configuration keys [beforeSuite] writes. *)
Definition isClusterKey (k : Key) : bool :=
  match k with
  | config_Kubeconfig_Contents | config_Cluster_ID | config_Cluster_Name
  | config_Cluster_Version | config_CloudProvider_CloudProviderID
  | config_CloudProvider_Region => true
  | _ => false
  end.


(** Every event but those of provisioning a cluster and fetching its
    kubeconfig. *)
Definition notProvisioning (e : Event) : bool :=
  match e with
  | EvProvisionCluster | EvHandleErrorWithEvents _ "InstallSuccessful" _
  | EvAddProperty _ _ | EvWaitForClusterReadyPostWake _
  | EvClusterKubeconfig _ | EvSleep _ | EvMetadataSet _ _ => false
  | _ => true
  end.

(** There is a kubeconfig without provisioning: the configured file holds
    one or, when no file is configured, the configuration does. *)
Definition kubeconfigAtHand (pw : PhaseWorld) (s : State) : Prop :=
  let kubeconfigPath := viper.GetString (cfg s) config_Kubeconfig_Path in
  if decide (kubeconfigPath = "")
  then viper.GetString (cfg s) config_Kubeconfig_Contents <> ""
  else exists kubeconfigBytes,
         ioutil_ReadFile pw kubeconfigPath = Good kubeconfigBytes /\
         kubeconfigBytes <> "".

(** A phase in which no file can be read. *)
Definition unreadable : PhaseWorld :=
  phaseWith (Good aCluster) (fun _ => Good "event") (fun _ => Good [])
            (fun _ => Good []) (fun _ => Bad "no such file").

(** A phase in which every file holds a kubeconfig. *)
Definition readable : PhaseWorld :=
  phaseWith (Good aCluster) (fun _ => Good "event") (fun _ => Good [])
            (fun _ => Good []) (fun _ => Good "kubeconfig").

(** A state with TEST_KUBECONFIG set. *)
Definition kubeconfigState : State :=
  configure [(config_Kubeconfig_Path, VString "/home/ci/kubeconfig")]
            freshState.

(** Every event but a sleep. *)
Definition notSleep (e : Event) : bool :=
  match e with EvSleep _ => false | _ => true end.

(** A phase whose provider hands out an empty kubeconfig. *)
Definition emptyKubeconfig : PhaseWorld := {|
  os_Stat_IsNotExist := os_Stat_IsNotExist quietPhase;
  os_Mkdir := os_Mkdir quietPhase;
  ioutil_ReadFile := ioutil_ReadFile quietPhase;
  ioutil_ReadDir := ioutil_ReadDir quietPhase;
  ioutil_WriteFile := ioutil_WriteFile quietPhase;
  ProvisionCluster := ProvisionCluster quietPhase;
  AddProperty := AddProperty quietPhase;
  WaitForClusterReadyPostWake := WaitForClusterReadyPostWake quietPhase;
  WaitForClusterReadyPostInstall := WaitForClusterReadyPostInstall quietPhase;
  ClusterKubeconfig := fun _ => Good "";
  json_Unmarshal := json_Unmarshal quietPhase;
  InstallAddons := InstallAddons quietPhase;
  addons_WaitForClusterReadyPostInstall :=
    addons_WaitForClusterReadyPostInstall quietPhase;
  CreateSecret := CreateSecret quietPhase;
  RunSpecs := RunSpecs quietPhase;
  IngestFile := IngestFile quietPhase;
  FireAlert := FireAlert quietPhase;
  SendSlackMessage := SendSlackMessage quietPhase;
  ProcessCICDIncidents := ProcessCICDIncidents quietPhase;
  GetCluster := GetCluster quietPhase;
  NewOutsideGinkgo_nil := NewOutsideGinkgo_nil quietPhase;
  GenerateDependencies := GenerateDependencies quietPhase;
  GenerateDiff := GenerateDiff quietPhase;
|}.

(** ** Further readings: a phase and a run *)

(** No test case of any result file of the phase carries an error element. *)
Definition noErrorElements (pw : PhaseWorld) : Prop :=
  forall path suites suite test,
    IngestFile pw path = Good suites ->
    In suite suites -> In test (junit.Tests suite) ->
    junit.Error test = None.

(** The configuration keys [runTestsInPhase] writes. *)
Definition isPhaseKey (k : Key) : bool :=
  match k with
  | config_Phase => true
  | _ => isClusterKey k
  end.

(** [s] differs from [s0] in the metadata and in the phase keys of the
    configuration at most. *)
Definition sameButPhase (s0 s : State) : Prop :=
  provider s = provider s0 /\ DryRun s = DryRun s0 /\
  monitors s = monitors s0 /\
  forall k, isPhaseKey k = false -> cfg s k = cfg s0 k.

(** The events of the route monitors: the goroutine is started, the stop
    signal is sent, the monitors save what they gathered, the goroutine's
    answer is received. *)
Definition isMonitorEvent (e : Event) : bool :=
  match e with
  | EvGoRouteMonitors | EvCloseRouteMonitorChan | EvRouteMonitorsFlush
  | EvRecvCloseMonitorChan => true
  | _ => false
  end.

Definition notMonitorEvent (e : Event) : bool := negb (isMonitorEvent e).

Definition monitorEvents (l : list Event) : list Event :=
  List.filter isMonitorEvent l.

(** The events a phase may emit: no event of the route monitors, and no
    Ginkgo run but its own. *)
Definition phaseEvent (phase : string) (e : Event) : bool :=
  match e with
  | EvRunSpecs _ ph _ => String.eqb ph phase
  | _ => notMonitorEvent e
  end.

(** How [upgradeCluster] leaves the route monitors when it falls through:
    never started; started, served and stopped; or started, failed to come
    up and released. *)
Definition monitorsReconciled (w : World) (s : State) (l : list Event)
  : Prop :=
  (monitors s = MonitorsNone /\ monitorEvents l = []) \/
  (routemonitors_Create w = None /\ monitors s = MonitorsStopped /\
   monitorEvents l =
     [EvGoRouteMonitors; EvCloseRouteMonitorChan; EvRouteMonitorsFlush;
      EvRecvCloseMonitorChan]) \/
  (routemonitors_Create w <> None /\ monitors s = MonitorsCreateFailed /\
   monitorEvents l =
     [EvGoRouteMonitors; EvCloseRouteMonitorChan; EvRecvCloseMonitorChan]).

(** A run with an upgrade target, route monitoring and a kubeconfig. *)
Definition upgradeReady : State :=
  configure [(config_Kubeconfig_Contents, VString "kubeconfig")]
            monitoredUpgrade.

(** ** Further readings: the verdict of a run *)

(** What [runGinkgoTests] returns: [Success] with no error, or [Failure] or
    [Aborted] with one. *)
Definition verdict (r : RunResult) : Prop :=
  (r.1 = Success /\ r.2 = None) \/
  ((r.1 = Failure \/ r.1 = Aborted) /\ r.2 <> None).

(** The verdict is not [Aborted]. *)
Definition notAborted (r : RunResult) : Prop := r.1 <> Aborted.

(** The events of setting a run up: the report directory, the build log,
    the cluster provider, the versions. *)
Definition isSetUpEvent (e : Event) : bool :=
  match e with
  | EvLog _ | EvTempDir | EvMkdir _ | EvCreate _ | EvClusterProvider
  | EvChooseVersions | EvMetadataSet _ _ => true
  | _ => false
  end.

(** A world whose version selection finds that install and upgrade versions
    are the same. *)
Definition sameVersions : State :=
  configure [(config_Cluster_EnoughVersionsForOldestOrMiddleTest, VBool true);
             (config_Cluster_PreviousVersionFromDefaultFound, VBool true);
             (config_Upgrade_UpgradeVersionEqualToInstallVersion, VBool true)]
            freshState.

(** ** Further readings: what a success stands for *)

(** Every event but a Ginkgo run of the upgrade phase. *)
Definition notUpgradeSpecs (e : Event) : bool :=
  match e with
  | EvRunSpecs _ ph _ => negb (String.eqb ph phase.UpgradePhase)
  | _ => true
  end.

(** Ginkgo ran the upgrade phase. *)
Definition upgradeTested (l : list Event) : Prop :=
  exists e, In e l /\ notUpgradeSpecs e = false.

Definition installPassed (w : World) : Prop :=
  RunSpecs (during w phase.InstallPhase) "OSD e2e suite" = true.

Definition upgradePassed (w : World) : Prop :=
  RunSpecs (during w phase.UpgradePhase) "OSD e2e suite post-upgrade" = true.

Definition succeeded (r : RunResult) : Prop := r.1 = Success.

(** ** The BeforeEach hook *)

(** The loop of the [BeforeEach] hook over [testsToRun]: [shouldRun] starts
    as [false] and the loop breaks at the first entry that is a prefix of
    the test's context. *)
Fixpoint shouldRun (testContext : string) (testsToRun : list string) : bool :=
  match testsToRun with
  | [] => false
  | testToRun :: testsToRun' =>
      if Strings.HasPrefix testContext testToRun then true
      else shouldRun testContext testsToRun'
  end.

(** The hook: [fullTestText] and [testContext] come from Ginkgo's
    description of the current test and [testsToRun] from the
    configuration; the answer is the message of [ginkgo.Skip] when the test
    is skipped. *)
Definition BeforeEach (fullTestText testContext : string)
    (testsToRun : list string) : option string :=
  if negb (shouldRun testContext testsToRun) then
    Some ("test " +:+ fullTestText
            +:+ " will not be run as its context (" +:+ testContext
            +:+ ") is not specified as part of the tests to run")
  else None.

(** ** Further readings: the end of a run *)

(** Every event but an upload to the metrics bucket. *)
Definition notUpload (e : Event) : bool :=
  match e with EvUploadFileToMetricsBucket _ => false | _ => true end.

(** The job name is the one configured in [s0]. *)
Definition jobNameOf (s0 s : State) : Prop :=
  viper.GetString (cfg s) config_JobName =
  viper.GetString (cfg s0) config_JobName.

(** A job that uploads no metrics: a local run or a rehearsal. *)
Definition uploadsNothing (jobName : string) : Prop :=
  jobName = "" \/ Strings.HasPrefix jobName "rehearse-" = true.

(** A rehearsal of a pull request's job. *)
Definition rehearsal : State :=
  configure [(config_JobName, VString "rehearse-1234-osde2e-aws")]
            freshState.

(** * Properties *)

(** ** The monad *)

Lemma bind_next {R A B} (m : M R A) (k : A -> M R B) s a :
  res (m s) = Next a ->
  bind m k s =
    mkOut (res (k a (st (m s)))) (st (k a (st (m s))))
          (evs (m s) ++ evs (k a (st (m s)))).
Proof. intros H. unfold bind. now rewrite H. Qed.

Lemma bind_return {R A B} (m : M R A) (k : A -> M R B) s r :
  res (m s) = Return r ->
  bind m k s = mkOut (Return r) (st (m s)) (evs (m s)).
Proof. intros H. unfold bind. now rewrite H. Qed.

Lemma bind_panic {R A B} (m : M R A) (k : A -> M R B) s msg :
  res (m s) = Panic msg ->
  bind m k s = mkOut (Panic msg) (st (m s)) (evs (m s)).
Proof. intros H. unfold bind. now rewrite H. Qed.

Lemma bind_ret {R A B} (a : A) (k : A -> M R B) s : bind (ret a) k s = k a s.
Proof. unfold bind, ret. cbn. now destruct (k a s). Qed.

Lemma bind_emit {R B} e (k : unit -> M R B) s :
  bind (emit e) k s =
  mkOut (res (k tt s)) (st (k tt s)) (e :: evs (k tt s)).
Proof. reflexivity. Qed.

Lemma bind_log {R B} msg (k : unit -> M R B) s :
  bind (log_ msg) k s =
  mkOut (res (k tt s)) (st (k tt s)) (EvLog msg :: evs (k tt s)).
Proof. reflexivity. Qed.

Lemma bind_get {R B} (k : State -> M R B) s : bind get k s = k s s.
Proof. unfold bind, get. cbn. now destruct (k s s). Qed.

Lemma bind_modify {R B} f (k : unit -> M R B) s :
  bind (modify f) k s = k tt (f s).
Proof. unfold bind, modify. cbn. now destruct (k tt (f s)). Qed.

Lemma bind_Set {R B} key v (k : unit -> M R B) s :
  bind (Set_ key v) k s = k tt (with_cfg s (viper.Set_ (cfg s) key v)).
Proof. unfold Set_. apply bind_modify. Qed.

Lemma bind_GetString {R B} key (k : string -> M R B) s :
  bind (GetString key) k s = k (viper.GetString (cfg s) key) s.
Proof. unfold bind, GetString. cbn. now destruct (k _ s). Qed.

Lemma bind_GetBool {R B} key (k : bool -> M R B) s :
  bind (GetBool key) k s = k (viper.GetBool (cfg s) key) s.
Proof. unfold bind, GetBool. cbn. now destruct (k _ s). Qed.

Lemma bind_return_ {R A B} (r : R) (k : A -> M R B) s :
  bind (return_ r) k s = mkOut (Return r) s [].
Proof. reflexivity. Qed.

Lemma bind_panic_ {R A B} msg (k : A -> M R B) s :
  bind (panic msg) k s = mkOut (Panic msg) s [].
Proof. reflexivity. Qed.

Lemma bind_bind {R A B C} (m : M R A) (f : A -> M R B) (g : B -> M R C) s :
  bind (bind m f) g s = bind m (fun a => bind (f a) g) s.
Proof.
  unfold bind. destruct (res (m s)) as [a| |]; cbn; [|reflexivity..].
  destruct (res (f a (st (m s)))); cbn; [|reflexivity..].
  now rewrite app_assoc.
Qed.

Lemma out_eta {R A} (o : Out R A) : mkOut (res o) (st o) (evs o) = o.
Proof. now destruct o. Qed.

Create Rewrite HintDb go.
#[local] Hint Rewrite @bind_ret @bind_emit @bind_log @bind_get @bind_modify
  @bind_Set @bind_GetString @bind_GetBool @bind_return_ @bind_panic_
  @bind_bind : go.

Ltac go := repeat (autorewrite with go; cbn [res st evs]).

Lemma alertsFired_app l1 l2 :
  alertsFired (l1 ++ l2) = alertsFired l1 ++ alertsFired l2.
Proof. unfold alertsFired. apply omap_app. Qed.

Lemma slackSent_app l1 l2 :
  slackSent (l1 ++ l2) = slackSent l1 ++ slackSent l2.
Proof. unfold slackSent. apply omap_app. Qed.

(** ** prow.JobURL *)

(** C10: [JobURL] answers [(url, true)] exactly when the configured job type
    is "periodic" and both BUILD_ID and JOB_NAME are set, and then [url] is
    the Prow view URL built from JOB_NAME and BUILD_ID in that order; in
    every other case it answers the empty string and [false]. *)
Theorem JobURL_periodic_iff (jobType : string) (env : gmap string string) :
  (forall url,
      prow.JobURL jobType env = (url, true) <->
      (jobType = "periodic" /\
       exists jobID jobName,
         env !! "BUILD_ID" = Some jobID /\
         env !! "JOB_NAME" = Some jobName /\
         url = "https://prow.ci.openshift.org/view/gs/origin-ci-test/logs/"
                 +:+ jobName +:+ "/" +:+ jobID)) /\
  ((prow.JobURL jobType env).2 = true \/
   prow.JobURL jobType env = ("", false)).
Proof.
  unfold prow.JobURL.
  destruct (bool_decide (jobType = "periodic")) eqn:Hty; cbn [negb].
  - apply bool_decide_eq_true in Hty.
    destruct (env !! "BUILD_ID") as [jobID|] eqn:Hid;
      [destruct (env !! "JOB_NAME") as [jobName|] eqn:Hname|].
    + split; [|left; reflexivity].
      intros url; split.
      * intros [= <-]. split; [assumption|]. now exists jobID, jobName.
      * intros [_ (i & n & [= <-] & [= <-] & ->)]. reflexivity.
    + split; [|right; reflexivity].
      intros url; split; [discriminate|].
      intros [_ (i & n & _ & Hn & _)]. discriminate.
    + split; [|right; reflexivity].
      intros url; split; [discriminate|].
      intros [_ (i & n & Hi & _)]. discriminate.
  - apply bool_decide_eq_false in Hty.
    split; [|right; reflexivity].
    intros url; split; [discriminate|]. intros [Hp _]. contradiction.
Qed.

(** ** The counting loop *)

Lemma countTests_flat counts suites :
  countTests counts suites =
  foldl countTest counts (flat_map junit.Tests suites).
Proof.
  unfold countTests. revert counts.
  induction suites as [|suite suites IH]; intros counts; [reflexivity|].
  cbn [foldl flat_map]. rewrite foldl_app, IH. f_equal.
  generalize (junit.Tests suite). clear. intros tests. revert counts.
  induction tests as [|t tests IH]; intros [n p]; [reflexivity|].
  cbn [foldl]. rewrite IH. reflexivity.
Qed.

Lemma countTest_skipped counts t :
  junit.Status_ t = junit.StatusSkipped -> countTest counts t = counts.
Proof.
  intros H. unfold countTest. rewrite H. destruct counts. reflexivity.
Qed.

Lemma countTest_failed counts t :
  junit.Status_ t = junit.StatusFailed ->
  countTest counts t = (counts.1 + 1, counts.2).
Proof. intros H. unfold countTest. rewrite H. reflexivity. Qed.

Lemma countTest_le counts t :
  0 <= counts.2 <= counts.1 ->
  0 <= (countTest counts t).2 <= (countTest counts t).1.
Proof.
  intros H. unfold countTest. cbn [fst snd].
  destruct (bool_decide (junit.Status_ t = junit.StatusSkipped));
    destruct (bool_decide (junit.Status_ t = junit.StatusFailed));
    cbn [negb andb]; lia.
Qed.

(** Whatever the result files hold, the loop keeps
    [0 <= numPassingTests <= numTests]. *)
Lemma countTests_le counts suites :
  0 <= counts.2 <= counts.1 ->
  0 <= (countTests counts suites).2 <= (countTests counts suites).1.
Proof.
  rewrite countTests_flat. generalize (flat_map junit.Tests suites).
  intros tests. revert counts.
  induction tests as [|t tests IH]; intros counts H; [exact H|].
  cbn [foldl]. apply IH, countTest_le, H.
Qed.

(** C1: a test case whose status is [junit.StatusError] is counted in
    [numTests] and also in [numPassingTests]: only "failed" and "skipped"
    are looked at, so an errored case passes for a passing one. *)
Theorem countTests_errored_counts_as_passing :
  countTests (0, 0) [suiteOf [erroredTest "t"]] = (1, 1) /\
  countTests (0, 0) [suiteOf [failedTest "t"]] = (1, 0) /\
  countTests (0, 0) [suiteOf [skippedTest "t"]] = (0, 0).
Proof. repeat split. Qed.

(** ** openPDAlerts *)

Lemma failingTests_inner acc tests :
  foldl (fun failingTests testcase =>
           if decide (junit.Status_ testcase ≠ junit.StatusFailed)
           then failingTests
           else failingTests ++ [junit.Name testcase])
        acc tests
  = acc ++ map junit.Name (List.filter isFailed tests).
Proof.
  revert acc. induction tests as [|t tests IH]; intros acc.
  - cbn. now rewrite app_nil_r.
  - cbn [foldl List.filter]. rewrite IH. unfold isFailed at 2.
    destruct (decide (junit.Status_ t ≠ junit.StatusFailed)) as [Hne|He].
    + rewrite bool_decide_eq_false_2 by exact Hne. reflexivity.
    + apply dec_stable in He. rewrite bool_decide_eq_true_2 by exact He.
      cbn [map]. now rewrite <- app_assoc.
Qed.

Lemma failingTests_outer acc suites :
  foldl (fun failingTests suite =>
           foldl (fun failingTests testcase =>
                    if decide (junit.Status_ testcase ≠ junit.StatusFailed)
                    then failingTests
                    else failingTests ++ [junit.Name testcase])
                 failingTests (junit.Tests suite))
        acc suites
  = acc ++ flat_map (fun suite => map junit.Name (List.filter isFailed (junit.Tests suite)))
                    suites.
Proof.
  revert acc. induction suites as [|suite suites IH]; intros acc.
  - cbn. now rewrite app_nil_r.
  - cbn [foldl flat_map]. rewrite IH, failingTests_inner, app_assoc.
    reflexivity.
Qed.

(** The names [openPDAlerts] collects are those of the failed test cases, in
    file order, one per test case. *)
Lemma failingTestsOf_flat suites :
  failingTestsOf suites =
  flat_map (fun suite => map junit.Name (List.filter isFailed (junit.Tests suite)))
           suites.
Proof. unfold failingTestsOf. now rewrite failingTests_outer. Qed.

(** The loop that opens one alert per failing test: it fires the incident of
    every name that does not contain "informing", in order, sends nothing to
    Slack, leaves the state alone and falls through. *)
Lemma openAlertFor_out {R} pw key jobName jobDetails name s :
  let o := @openAlertFor R pw key jobName jobDetails name s in
  res o = Next tt /\ st o = s /\
  alertsFired (evs o) =
    (if isInforming name then []
     else [mkPayload (name +:+ " failed") "info" jobName name jobDetails]) /\
  slackSent (evs o) = [].
Proof.
  unfold openAlertFor, isInforming.
  destruct (Strings.Contains name "informing"); [now cbn|].
  go. destruct (FireAlert pw _); now cbn.
Qed.

Lemma perTest_loop {R} pw key jobName jobDetails names s :
  let o := @forM R _ _ names tt (fun _ name =>
             openAlertFor pw key jobName jobDetails name) s in
  res o = Next tt /\ st o = s /\
  alertsFired (evs o) =
    map (fun name => mkPayload (name +:+ " failed") "info" jobName name jobDetails)
        (List.filter (fun name => negb (isInforming name)) names) /\
  slackSent (evs o) = [].
Proof.
  induction names as [|name names IH]; [now cbn|].
  cbn [forM List.filter].
  destruct (openAlertFor_out (R:=R) pw key jobName jobDetails name s)
    as (Hr & Hs & Hf & Hk).
  cbn zeta in IH. destruct IH as (Hr' & Hs' & Hf' & Hk').
  rewrite bind_next with (a := tt) by exact Hr. cbn [res st evs].
  rewrite Hs, alertsFired_app, slackSent_app, Hf, Hk, Hr', Hs', Hf', Hk'.
  repeat split.
  destruct (isInforming name); reflexivity.
Qed.

(** An addon job opens nothing. *)
Lemma openPDAlerts_addon pw suites jobName jobURL s :
  isAddonJob jobName = true ->
  openPDAlerts pw suites jobName jobURL s = mkOut (Return tt) s [].
Proof. unfold isAddonJob, openPDAlerts. now intros ->. Qed.

(** What [openPDAlerts] does for any other job. *)
Lemma openPDAlerts_out pw suites jobName jobURL s :
  isAddonJob jobName = false ->
  let o := openPDAlerts pw suites jobName jobURL s in
  let failing := failingTestsOf suites in
  res o = Return tt /\ st o = s /\
  if (10 <? Z.of_nat (length failing))%Z then
    alertsFired (evs o) = [bulkIncident s jobName jobURL] /\
    slackSent (evs o) =
      match FireAlert pw (bulkIncident s jobName jobURL) with
      | Good event => [("sd-cicd", slackText jobName jobURL event)]
      | Bad _ => []
      end
  else
    alertsFired (evs o) =
      map (testIncident s jobName jobURL)
          (List.filter (fun name => negb (isInforming name)) failing) /\
    slackSent (evs o) = [].
Proof.
  unfold isAddonJob, openPDAlerts. intros ->. cbn zeta. go.
  fold (jobDetailsOf s jobURL).
  destruct (10 <? Z.of_nat (length (failingTestsOf suites)))%Z.
  - fold (bulkIncident s jobName jobURL). go.
    destruct (FireAlert pw (bulkIncident s jobName jobURL)) as [event|err]; go.
    + destruct (SendSlackMessage pw _ _); go; now cbn.
    + now cbn.
  - destruct (perTest_loop (R:=unit) pw
                (viper.GetString (cfg s) config_Alert_PagerDutyAPIToken)
                jobName (jobDetailsOf s jobURL) (failingTestsOf suites) s)
      as (Hr & Hs & Hf & Hk).
    rewrite bind_next with (a := tt) by exact Hr. cbn [res st evs return_].
    rewrite Hs, !app_nil_r, Hf, Hk. repeat split.
Qed.

(** C4 (as the code has it): for a job that is not an addon job, more than
    ten failing test cases give exactly one incident, ungrouped and
    summarised as "A lot of tests failed together", no incident per test, and
    one Slack message to sd-cicd when (and only when) PagerDuty accepted the
    incident; ten or fewer give one incident per failing test whose name does
    not contain "informing", summarised as the name followed by " failed" and
    grouped by the name, and no Slack message. *)
Theorem openPDAlerts_policy pw suites jobName jobURL s :
  isAddonJob jobName = false ->
  let o := openPDAlerts pw suites jobName jobURL s in
  let failing := failingTestsOf suites in
  ((10 < length failing)%nat ->
     alertsFired (evs o) = [bulkIncident s jobName jobURL] /\
     Group (bulkIncident s jobName jobURL) = "" /\
     slackSent (evs o) =
       match FireAlert pw (bulkIncident s jobName jobURL) with
       | Good event => [("sd-cicd", slackText jobName jobURL event)]
       | Bad _ => []
       end) /\
  ((length failing <= 10)%nat ->
     alertsFired (evs o) =
       map (fun name =>
              mkPayload (name +:+ " failed") "info" jobName name
                        (jobDetailsOf s jobURL))
           (List.filter (fun name => negb (isInforming name)) failing) /\
     slackSent (evs o) = []).
Proof.
  intros Haddon. cbn zeta.
  destruct (openPDAlerts_out pw suites jobName jobURL s Haddon) as (_ & _ & H).
  cbn zeta in H.
  destruct (10 <? Z.of_nat (length (failingTestsOf suites)))%Z eqn:Hlen.
  - apply Z.ltb_lt in Hlen. split; [|lia].
    intros _. destruct H as [Hf Hk]. now rewrite Hf, Hk.
  - apply Z.ltb_ge in Hlen. split; [lia|].
    intros _. exact H.
Qed.

Lemma openPDAlerts_policy_witness :
  alertsFired (evs (openPDAlerts quietPhase
                      [suiteOf [failedTest "a"; failedTest "b"; failedTest "c"]]
                      "periodic-ci" "url" freshState)) =
  [testIncident freshState "periodic-ci" "url" "a";
   testIncident freshState "periodic-ci" "url" "b";
   testIncident freshState "periodic-ci" "url" "c"].
Proof.
  refine (proj1 (proj2 (openPDAlerts_policy quietPhase
            [suiteOf [failedTest "a"; failedTest "b"; failedTest "c"]]
            "periodic-ci" "url" freshState _) _)).
  - reflexivity.
  - vm_compute. lia.
Defined.

(** C4 as the specification words it fails on its own example: three failing
    tests, none informing, get incidents summarised "a failed", "b failed",
    "c failed", not by the bare test names. *)
Lemma escalation_as_specified_counterexample :
  ~ escalation_as_specified quietPhase
      [suiteOf [failedTest "a"; failedTest "b"; failedTest "c"]]
      "periodic-ci" "url" freshState.
Proof.
  unfold escalation_as_specified. vm_compute. intros H. discriminate H.
Qed.

(** C3 (as the code has it): no incident is ever fired whose grouping key is
    a name containing "informing"; when at most ten test cases failed the
    incidents fired are exactly those of the names without "informing"; the
    threshold of ten itself counts every failing test case, informing or
    not. *)
Theorem informing_never_alerted pw suites jobName jobURL s :
  let o := openPDAlerts pw suites jobName jobURL s in
  let failing := failingTestsOf suites in
  Forall (fun p => isInforming (Group p) = false) (alertsFired (evs o)) /\
  (isAddonJob jobName = false ->
   ((length failing <= 10)%nat ->
      map Group (alertsFired (evs o)) =
      List.filter (fun name => negb (isInforming name)) failing) /\
   ((10 < length failing)%nat -> map Group (alertsFired (evs o)) = [""])).
Proof.
  cbn zeta. destruct (isAddonJob jobName) eqn:Haddon.
  - rewrite openPDAlerts_addon by exact Haddon. cbn. split; [constructor|].
    discriminate.
  - destruct (openPDAlerts_out pw suites jobName jobURL s Haddon) as (_ & _ & H).
    cbn zeta in H.
    destruct (10 <? Z.of_nat (length (failingTestsOf suites)))%Z eqn:Hlen.
    + apply Z.ltb_lt in Hlen. destruct H as [-> _]. split.
      * repeat constructor.
      * intros _. split; [lia|]. reflexivity.
    + apply Z.ltb_ge in Hlen. destruct H as [-> _]. split.
      * apply Forall_forall. intros p Hp.
        apply list_elem_of_In, in_map_iff in Hp.
        destruct Hp as (name & <- & Hin). apply filter_In in Hin.
        destruct Hin as [_ Hin]. apply negb_true_iff in Hin. exact Hin.
      * intros _. split; [|lia]. intros _.
        rewrite map_map. cbn. apply map_id.
Qed.

(** Three failing names of which one is informing: exactly two incidents. *)
Lemma informing_never_alerted_witness :
  length (alertsFired (evs (openPDAlerts quietPhase
            [suiteOf [failedTest "a"; failedTest "informing b"; failedTest "c"]]
            "periodic-ci" "url" freshState))) = 2%nat.
Proof.
  rewrite <- (length_map Group).
  rewrite (proj1 (proj2 (informing_never_alerted quietPhase
            [suiteOf [failedTest "a"; failedTest "informing b"; failedTest "c"]]
            "periodic-ci" "url" freshState) eq_refl)).
  - reflexivity.
  - vm_compute. lia.
Defined.

(** C3 as the specification words it fails: with ten other failures, one
    failing informing test makes the difference between ten incidents and the
    single bulk incident, so it does take part in the decision. *)
Lemma informing_excluded_entirely_counterexample :
  ~ informing_excluded_entirely quietPhase
      [suiteOf (failedTest "informing t11" :: tenFailed)]
      "periodic-ci" "url" freshState.
Proof.
  unfold informing_excluded_entirely. vm_compute. intros H. discriminate H.
Qed.

(** ** Invariants of a run *)

Section Triples.
Context (p : Event -> bool) (J : State -> Prop).

Lemma triple_ret {R A} (Qn : A -> Prop) (Qr : R -> Prop) a :
  Qn a -> triple p J Qn Qr (ret a).
Proof. intros H s HJ. now cbn. Qed.

Lemma triple_return {R A} (Qn : A -> Prop) (Qr : R -> Prop) r :
  Qr r -> triple p J Qn Qr (return_ r).
Proof. intros H s HJ. now cbn. Qed.

Lemma triple_panic {R A} (Qn : A -> Prop) (Qr : R -> Prop) msg :
  triple p J Qn Qr (panic msg).
Proof. intros s HJ. now cbn. Qed.

Lemma triple_get {R} (Qn : State -> Prop) (Qr : R -> Prop) :
  (forall s, J s -> Qn s) -> triple p J Qn Qr get.
Proof. intros H s HJ. cbn. auto. Qed.

Lemma triple_GetString {R} (Qr : R -> Prop) k :
  triple p J any Qr (GetString k).
Proof. intros s HJ. now cbn. Qed.

Lemma triple_GetBool {R} (Qr : R -> Prop) k :
  triple p J any Qr (GetBool k).
Proof. intros s HJ. now cbn. Qed.

Lemma triple_emit {R} (Qr : R -> Prop) e :
  p e = true -> triple p J any Qr (emit e).
Proof. intros He s HJ. cbn. now rewrite He. Qed.

Lemma triple_log {R} (Qr : R -> Prop) msg :
  p (EvLog msg) = true -> triple p J any Qr (log_ msg).
Proof. apply triple_emit. Qed.

Lemma triple_modify {R} (Qr : R -> Prop) f :
  (forall s, J s -> J (f s)) -> triple p J any Qr (modify f).
Proof. intros Hf s HJ. cbn. unfold any. auto. Qed.

Lemma triple_Set {R} (Qr : R -> Prop) k v :
  (forall s, J s -> J (with_cfg s (viper.Set_ (cfg s) k v))) ->
  triple p J any Qr (Set_ k v).
Proof. intros Hc. apply triple_modify. auto. Qed.

Lemma triple_Error {R} (Qr : R -> Prop) err :
  triple p J any Qr (Error_ err).
Proof. destruct err; [now apply triple_ret|apply triple_panic]. Qed.

Lemma triple_bind {R A B} (Qa : A -> Prop) (Qn : B -> Prop) (Qr : R -> Prop)
    (m : M R A) (k : A -> M R B) :
  triple p J Qa Qr m ->
  (forall a, Qa a -> triple p J Qn Qr (k a)) ->
  triple p J Qn Qr (bind m k).
Proof.
  intros Hm Hk s HJ. destruct (Hm s HJ) as (Hp & HJ' & Hres). unfold bind.
  destruct (res (m s)) as [a| |]; cbn; auto.
  destruct (Hk a Hres _ HJ') as (Hp' & HJ'' & Hres').
  rewrite forallb_app, Hp, Hp'. auto.
Qed.

Lemma triple_call {R R'} (Q : R -> Prop) (Qr : R' -> Prop) (f : M R R) :
  triple p J Q Q f -> triple p J Q Qr (call f).
Proof.
  intros Hf s HJ. destruct (Hf s HJ) as (Hp & HJ' & Hres). unfold call.
  destruct (res (f s)); cbn; auto.
Qed.

Lemma triple_when {R} (Qr : R -> Prop) c (m : M R unit) :
  triple p J any Qr m -> triple p J any Qr (when c m).
Proof. intros Hm. destruct c; [exact Hm|now apply triple_ret]. Qed.

Lemma triple_forM {R A B} (I : B -> Prop) (Qr : R -> Prop)
    (l : list A) (b : B) (body : B -> A -> M R B) :
  I b ->
  (forall b x, I b -> In x l -> triple p J I Qr (body b x)) ->
  triple p J I Qr (forM l b body).
Proof.
  revert b. induction l as [|x l IH]; intros b Hb Hbody; cbn [forM].
  - now apply triple_ret.
  - apply triple_bind with (Qa := I).
    + apply Hbody; [exact Hb|now left].
    + intros b' Hb'. apply IH; [exact Hb'|].
      intros b0 y Hb0 Hy. apply Hbody; [exact Hb0|now right].
Qed.

Lemma triple_weaken {R A} (Qn Qn' : A -> Prop) (Qr Qr' : R -> Prop)
    (m : M R A) :
  triple p J Qn Qr m ->
  (forall a, Qn a -> Qn' a) -> (forall r, Qr r -> Qr' r) ->
  triple p J Qn' Qr' m.
Proof.
  intros Hm Hn Hr s HJ. destruct (Hm s HJ) as (Hp & HJ' & Hres).
  repeat split; [exact Hp|exact HJ'|].
  destruct (res (m s)); auto.
Qed.

Lemma triple_any {R A} (Qn : A -> Prop) (Qr : R -> Prop) (m : M R A) :
  triple p J Qn Qr m -> triple p J any Qr m.
Proof. intros Hm. apply (triple_weaken _ _ _ _ _ Hm); unfold any; auto. Qed.

End Triples.

(** One step of a proof that a function body satisfies a triple: the rule of
    the statement at hand, or a case split on what it branches on.  [side]
    closes the side conditions; [known] proves the triple of a loop or of a
    called function from a lemma. *)
Ltac triple_step side known :=
  lazymatch goal with
  | |- triple _ _ _ _ (bind _ _) =>
      first [ eapply triple_bind; [solve [known]|intros ? ?]
            | eapply triple_bind with (Qa := any); [|intros ? _] ]
  | |- triple _ _ _ _ (ret _) => apply triple_ret; side
  | |- triple _ _ _ _ (return_ _) => apply triple_return; side
  | |- triple _ _ _ _ (panic _) => apply triple_panic
  | |- triple _ _ _ _ get => apply triple_get; side
  | |- triple _ _ _ _ (GetString _) => apply triple_GetString
  | |- triple _ _ _ _ (GetBool _) => apply triple_GetBool
  | |- triple _ _ _ _ (Error_ _) => apply triple_Error
  | |- triple _ _ _ _ (emit _) => apply triple_emit; side
  | |- triple _ _ _ _ (log_ _) => apply triple_log; side
  | |- triple _ _ _ _ (modify _) => apply triple_modify; side
  | |- triple _ _ _ _ (Set_ _ _) => apply triple_Set; side
  | |- triple _ _ _ _ (when _ _) => apply triple_when
  | |- triple _ _ any _ (call _) =>
      first [ solve [known]
            | eapply triple_any; apply triple_call with (Q := any) ]
  | |- triple _ _ any _ (forM _ _ _) =>
      first [ solve [known]
            | apply triple_forM; [exact I|intros ? ? _ _] ]
  | |- triple _ _ _ _ (if ?c then _ else _) => destruct c eqn:?
  | |- triple _ _ _ _ (match ?x with _ => _ end) => destruct x eqn:?
  | |- triple _ _ _ _ (let _ := _ in _) => cbv zeta
  | |- triple _ _ _ _ _ => solve [known]
  end.

Ltac triple_side :=
  first [ exact I | reflexivity | now (intros; unfold any in *; cbn in *; auto) ].

Ltac triple_auto := repeat (triple_step triple_side fail).

(** ** What leaves metadata.Instance alone *)

Lemma triple_allEvents {R A} (m : M R A) : triple allEvents any any any m.
Proof.
  intros s _. repeat split.
  - now apply forallb_forall.
  - now destruct (res (m s)).
Qed.

(** The events and the state can be looked at apart. *)
Lemma triple_split {R A} p J (Qn : A -> Prop) (Qr : R -> Prop) (m : M R A) :
  triple p any any any m -> triple allEvents J Qn Qr m ->
  triple p J Qn Qr m.
Proof.
  intros Hp HJ s Hs. destruct (Hp s I) as (He & _).
  destruct (HJ s Hs) as (_ & Hst & Hres). auto.
Qed.


Ltac instance_side :=
  first [ exact I | reflexivity
        | match goal with
          | HJ : instanceOnly ?J |- forall s, ?J s -> ?J _ =>
              let s := fresh in let H := fresh in
              intros s H; apply (HJ s); [reflexivity|exact H]
          end ].

Section InstanceOnly.
Context (J : State -> Prop) (HJ : instanceOnly J).

Lemma getLogs_instance w : triple allEvents J any any (getLogs w).
Proof. unfold getLogs, writeLogs. repeat (triple_step instance_side fail). Qed.

Lemma beforeSuite_instance w pw : triple allEvents J any any (beforeSuite w pw).
Proof.
  unfold beforeSuite, installAddons, getLogs, writeLogs.
  repeat (triple_step instance_side fail).
Qed.

Lemma openPDAlerts_instance pw suites jobName jobURL :
  triple allEvents J any any (openPDAlerts pw suites jobName jobURL).
Proof.
  unfold openPDAlerts, openAlertFor. repeat (triple_step instance_side fail).
Qed.

Lemma recordTestcases_instance {R} (Qr : R -> Prop) err tcd suites :
  triple allEvents J any Qr (recordTestcases err tcd suites).
Proof.
  unfold recordTestcases, recordTestcase, testcaseError.
  repeat (triple_step instance_side fail).
Qed.

End InstanceOnly.

(** The lemmas of this section, for an invariant that is known to read
    [metadata.Instance] only. *)
Ltac instance_known HJ :=
  first [ apply getLogs_instance; exact HJ
        | apply beforeSuite_instance; exact HJ
        | apply openPDAlerts_instance; exact HJ
        | apply recordTestcases_instance; exact HJ ].

(** ** Cluster acquisition *)

Lemma bind_call_return {R R' B} (f : M R R) (k : R -> M R' B) s r :
  res (f s) = Return r ->
  bind (call f) k s =
    mkOut (res (k r (st (f s)))) (st (k r (st (f s))))
          (evs (f s) ++ evs (k r (st (f s)))).
Proof. intros H. unfold bind, call. now rewrite H. Qed.

(** [beforeSuite] never runs Ginkgo. *)
Lemma beforeSuite_noRunSpecs w pw :
  triple notRunSpecs any any any (beforeSuite w pw).
Proof.
  unfold beforeSuite, installAddons, getLogs, writeLogs. triple_auto.
Qed.

(** C6: when the phase directory is there (or can be made) and the run is
    not a dry run, so that [beforeSuite] is called, and [beforeSuite] answers
    [false], then [runTestsInPhase] returns [false] with no test-case record
    and Ginkgo's spec runner is never invoked. *)
Theorem runTestsInPhase_beforeSuite_fails w phase description dryrun s :
  let pw := during w phase in
  let s0 := with_cfg s (viper.Set_ (cfg s) config_Phase (VString phase)) in
  let phaseDirectory :=
    filepath_Join (viper.GetString (cfg s0) config_ReportDir) phase in
  (os_Stat_IsNotExist pw phaseDirectory = true ->
   os_Mkdir pw phaseDirectory = None) ->
  negb dryrun || negb (DryRun s) = true ->
  res (beforeSuite w pw s0) = Return false ->
  let o := runTestsInPhase w phase description dryrun s in
  res o = Return (false, []) /\ forallb notRunSpecs (evs o) = true.
Proof.
  cbv zeta. intros Hdir Hrun Hfail. unfold runTestsInPhase. go.
  pose proof (proj1 (beforeSuite_noRunSpecs w (during w phase)
                (with_cfg s (viper.Set_ (cfg s) config_Phase (VString phase)))
                I)) as Hb.
  destruct (os_Stat_IsNotExist _ _).
  - rewrite Hdir by reflexivity. go. cbn [DryRun with_cfg]. rewrite Hrun.
    go. rewrite bind_call_return with (r := false) by exact Hfail.
    cbn [negb]. go. cbn [res evs]. split; [reflexivity|].
    cbn [forallb notRunSpecs andb]. rewrite forallb_app, Hb. reflexivity.
  - go. cbn [DryRun with_cfg]. rewrite Hrun.
    go. rewrite bind_call_return with (r := false) by exact Hfail.
    cbn [negb]. go. cbn [res evs]. split; [reflexivity|].
    cbn [forallb notRunSpecs andb]. rewrite forallb_app, Hb. reflexivity.
Qed.

Lemma runTestsInPhase_beforeSuite_fails_witness :
  res (runTestsInPhase provisionFails phase.InstallPhase "OSD e2e suite"
         false freshState) = Return (false, []) /\
  forallb notRunSpecs
    (evs (runTestsInPhase provisionFails phase.InstallPhase "OSD e2e suite"
            false freshState)) = true.
Proof.
  apply (runTestsInPhase_beforeSuite_fails provisionFails phase.InstallPhase
           "OSD e2e suite" false freshState).
  - intros _. reflexivity.
  - reflexivity.
  - vm_compute. reflexivity.
Defined.

(** ** The test-case records *)

Lemma recordTestcase_nil {R} tcd test s :
  @recordTestcase R None tcd test s
  = mkOut (if hasError test then Panic nilPanic
           else Next (tcd ++ [recordOf "" test])) s [].
Proof.
  unfold recordTestcase, testcaseError, recordOf, hasError.
  destruct (junit.Error test); cbn [Error_]; now go.
Qed.

Lemma recordTests_nil {R} tcd tests s :
  @forM R _ _ tests tcd (recordTestcase None) s
  = mkOut (if existsb hasError tests then Panic nilPanic
           else Next (tcd ++ map (recordOf "") tests)) s [].
Proof.
  revert tcd. induction tests as [|t tests IH]; intros tcd;
    cbn [forM map existsb].
  - now rewrite app_nil_r.
  - destruct (hasError t) eqn:Ht; cbn [orb].
    + rewrite bind_panic with (msg := nilPanic)
        by now rewrite recordTestcase_nil, Ht.
      now rewrite recordTestcase_nil.
    + rewrite bind_next with (a := tcd ++ [recordOf "" t])
        by now rewrite recordTestcase_nil, Ht.
      rewrite recordTestcase_nil. cbn [st evs app]. rewrite IH.
      now rewrite <- app_assoc.
Qed.

Lemma recordTestcases_nil {R} tcd suites s :
  @recordTestcases R None tcd suites s
  = mkOut (if existsb hasError (flat_map junit.Tests suites)
           then Panic nilPanic
           else Next (tcd ++ map (recordOf "") (flat_map junit.Tests suites)))
          s [].
Proof.
  unfold recordTestcases. revert tcd.
  induction suites as [|suite suites IH]; intros tcd; cbn [forM flat_map].
  - now rewrite app_nil_r.
  - rewrite existsb_app.
    destruct (existsb hasError (junit.Tests suite)) eqn:Hs; cbn [orb].
    + rewrite bind_panic with (msg := nilPanic)
        by now rewrite recordTests_nil, Hs.
      now rewrite recordTests_nil.
    + rewrite bind_next with (a := tcd ++ map (recordOf "") (junit.Tests suite))
        by now rewrite recordTests_nil, Hs.
      rewrite recordTests_nil. cbn [st evs app]. rewrite IH.
      now rewrite map_app, app_assoc.
Qed.

(** Calling [openPDAlerts] always comes back, with the state as it was. *)
Lemma bind_call_openPDAlerts {R B} pw suites jobName jobURL
    (k : unit -> M R B) s :
  bind (call (openPDAlerts pw suites jobName jobURL)) k s =
  mkOut (res (k tt s)) (st (k tt s))
        (evs (openPDAlerts pw suites jobName jobURL s) ++ evs (k tt s)).
Proof.
  destruct (isAddonJob jobName) eqn:Haddon.
  - rewrite bind_call_return with (r := tt)
      by now rewrite openPDAlerts_addon.
    now rewrite openPDAlerts_addon.
  - destruct (openPDAlerts_out pw suites jobName jobURL s Haddon)
      as (Hr & Hs & _).
    rewrite bind_call_return with (r := tt) by exact Hr. now rewrite Hs.
Qed.

(** A result file that holds a test case with an error of its own makes the
    loop body panic: the closure calls [Error()] on the enclosing [err],
    which is nil once the file was read. *)
Lemma collectFile_panics w pw phaseDirectory c file suites s :
  junitFileRegex w file = true ->
  IngestFile pw (filepath_Join phaseDirectory file) = Good suites ->
  existsb hasError (flat_map junit.Tests suites) = true ->
  res (collectFile w pw phaseDirectory c file s) = Panic nilPanic.
Proof.
  intros Hmatch Hingest Herr. unfold collectFile.
  rewrite Hmatch. cbv zeta. go. rewrite Hingest.
  destruct (decide (os_Getenv w "JOB_TYPE" = "periodic")); go.
  - rewrite bind_call_openPDAlerts. cbn [res].
    rewrite bind_panic with (msg := nilPanic);
      now rewrite recordTestcases_nil, Herr.
  - rewrite bind_panic with (msg := nilPanic);
      now rewrite recordTestcases_nil, Herr.
Qed.

Lemma recordTestcases_errorsEmpty {R} (Qr : R -> Prop) tcd suites :
  errorsEmpty tcd ->
  triple allEvents any errorsEmpty Qr (recordTestcases None tcd suites).
Proof.
  intros Htcd s _. rewrite recordTestcases_nil. cbn [res st evs].
  repeat split.
  destruct (existsb hasError (flat_map junit.Tests suites)); [exact I|].
  apply Forall_app. split; [exact Htcd|].
  apply Forall_forall. intros tc Htc.
  apply list_elem_of_In, in_map_iff in Htc. destruct Htc as (t & <- & _).
  unfold recordOf. cbn. now destruct (junit.Error t).
Qed.

Ltac records_side :=
  first [ exact I | reflexivity
        | now (intros; unfold any, errorsEmpty in *; cbn in *; auto) ].

Lemma collectFile_errorsEmpty w pw phaseDirectory c file :
  errorsEmpty (testCaseData c) ->
  triple allEvents any (fun c => errorsEmpty (testCaseData c))
         (fun r : PhaseResult => errorsEmpty r.2)
         (collectFile w pw phaseDirectory c file).
Proof.
  intros Hc. unfold collectFile.
  repeat (triple_step records_side
            ltac:(first [ apply recordTestcases_errorsEmpty; exact Hc
                        | apply triple_allEvents ])).
Qed.

Lemma collect_loop_errorsEmpty w pw phaseDirectory files :
  triple allEvents any (fun c => errorsEmpty (testCaseData c))
         (fun r : PhaseResult => errorsEmpty r.2)
         (forM files (mkCollected 0 0 []) (collectFile w pw phaseDirectory)).
Proof.
  apply triple_forM; [constructor|].
  intros c file Hc _. now apply collectFile_errorsEmpty.
Qed.

(** Whatever [runTestsInPhase] returns, no record in it carries an error
    text. *)
Lemma runTestsInPhase_errorsEmpty w phase description dryrun :
  triple allEvents any (fun r : PhaseResult => errorsEmpty r.2)
         (fun r : PhaseResult => errorsEmpty r.2)
         (runTestsInPhase w phase description dryrun).
Proof.
  unfold runTestsInPhase, recordPassRate, countLogMetrics, countLogFile,
    IncrementLogMetric, IncrementBeforeSuiteMetric.
  cbv zeta.
  repeat (triple_step records_side
            ltac:(first [ apply collect_loop_errorsEmpty
                        | apply triple_allEvents ])).
Qed.

(** C8 (as the code has it): the closure that fills in the [Error] of a
    test-case record does not read the test case's own error, it calls
    [Error()] on the [err] of the enclosing block; that [err] is the one
    [junit.IngestFile] assigned, which is nil once the file was read.  So a
    result file with a test case that carries an error makes the loop body
    panic with the nil dereference, whatever the error says and before any
    record of the file is handed on; and no record that [runTestsInPhase]
    returns ever carries an error text. *)
Theorem testcase_error_nil_err_panics :
  (forall w pw phaseDirectory c file suites s,
      junitFileRegex w file = true ->
      IngestFile pw (filepath_Join phaseDirectory file) = Good suites ->
      existsb hasError (flat_map junit.Tests suites) = true ->
      res (collectFile w pw phaseDirectory c file s) = Panic nilPanic) /\
  (forall w phase description dryrun s passed tcd,
      res (runTestsInPhase w phase description dryrun s) = Return (passed, tcd) ->
      Forall (fun tc => db.Error tc = "") tcd).
Proof.
  split.
  - exact collectFile_panics.
  - intros w phase description dryrun s passed tcd Hres.
    destruct (runTestsInPhase_errorsEmpty w phase description dryrun s I)
      as (_ & _ & H).
    rewrite Hres in H. exact H.
Qed.

(** A failed test case, as go-junit reads it (status "failed" and the
    failure as its error), makes the loop body panic. *)
Lemma testcase_error_nil_err_panics_witness :
  res (collectFile quietWorld (phaseWithResults [suiteOf [assertionFailed]])
         "/tmp/report/install" (mkCollected 0 0 []) "junit_abcde.xml"
         freshState) = Panic nilPanic.
Proof.
  apply (proj1 testcase_error_nil_err_panics
           quietWorld (phaseWithResults [suiteOf [assertionFailed]])
           "/tmp/report/install" (mkCollected 0 0 []) "junit_abcde.xml"
           [suiteOf [assertionFailed]] freshState);
    reflexivity.
Defined.

(** C8 as the specification words it fails: a failed test case with an error
    of its own gets no record at all, with a stale error's text or any
    other; the phase panics while it records the file. *)
Lemma error_from_stale_err_as_specified_counterexample :
  ~ error_from_stale_err_as_specified oneAssertionFailed phase.InstallPhase
      "OSD e2e suite" false freshState assertionFailed.
Proof.
  unfold error_from_stale_err_as_specified.
  intros (passed & tcd & stale & H & _). vm_compute in H. discriminate H.
Qed.

(** The same at the level of the phase: the run panics after Ginkgo ran. *)
Example runTestsInPhase_failed_test_panics :
  res (runTestsInPhase
         (worldWith ∅ [] [] None
            (fun _ => phaseWithResults [suiteOf [assertionFailed]]))
         phase.InstallPhase "OSD e2e suite" false freshState)
  = Panic nilPanic.
Proof. vm_compute. reflexivity. Qed.

(** ** The pass rate *)

Lemma countTest_shift a b x y t :
  countTest (a + x, b + y) t =
  (a + (countTest (x, y) t).1, b + (countTest (x, y) t).2).
Proof.
  unfold countTest. cbn [fst snd].
  destruct (bool_decide (junit.Status_ t = junit.StatusSkipped));
    destruct (bool_decide (junit.Status_ t = junit.StatusFailed));
    cbn [negb andb]; f_equal; lia.
Qed.

Lemma foldl_countTest_shift a b x y tests :
  foldl countTest (a + x, b + y) tests =
  (a + (foldl countTest (x, y) tests).1, b + (foldl countTest (x, y) tests).2).
Proof.
  revert x y. induction tests as [|t tests IH]; intros x y; [reflexivity|].
  cbn [foldl]. rewrite countTest_shift.
  destruct (countTest (x, y) t) as [x' y']. apply IH.
Qed.

(** The counters after a file are the counters before it plus the counts of
    the file alone. *)
Lemma countTests_add a b suites :
  countTests (a, b) suites =
  (a + (countTests (0, 0) suites).1, b + (countTests (0, 0) suites).2).
Proof.
  rewrite !countTests_flat.
  rewrite <- (Z.add_0_r a) at 1. rewrite <- (Z.add_0_r b) at 1.
  apply foldl_countTest_shift.
Qed.



Section ZeroTests.
Context (w : World) (phase : string) (V : gmap string float64).
Hypothesis Hzero : forall path suites,
  IngestFile (during w phase) path = Good suites ->
  (countTests (0, 0) suites).1 = 0.







End ZeroTests.

Lemma bind_out {R A B} (m : M R A) (k : A -> M R B) s a s' l :
  m s = mkOut (Next a) s' l ->
  bind m k s = mkOut (res (k a s')) (st (k a s')) (l ++ evs (k a s')).
Proof. intros H. unfold bind. now rewrite H. Qed.

(** Finds an event in the events of a run that was executed up to it. *)
Ltac find_event :=
  repeat first [ left; reflexivity | right | apply in_or_app; right ].



(** ** The log metrics *)

Lemma lookup_increment k x (c : gmap string Z) name :
  metadata.increment k x c !! name =
  if decide (k = name) then Some (default 0 (c !! k) + x) else c !! name.
Proof.
  unfold metadata.increment.
  destruct (c !! k) as [n|] eqn:Hk; cbn [default];
    destruct (decide (k = name)) as [->|Hne];
    rewrite ?lookup_insert_eq, ?lookup_insert_ne by exact Hne;
    try reflexivity.
Qed.

Lemma fileCount_cons m metrics name data :
  fileCount (m :: metrics) name data =
  if decide (config.Name m = name)
  then config.HasMatches m data + fileCount metrics name data
  else fileCount metrics name data.
Proof. reflexivity. Qed.

(** A counter reads as the matches added to what it read before. *)
Lemma counter_incrementAll metrics data (c : gmap string Z) name :
  counter (incrementAll metrics data c) name =
  counter c name + fileCount metrics name data.
Proof.
  unfold incrementAll, counter. revert c.
  induction metrics as [|m metrics IH]; intros c; cbn [foldl].
  - cbn. lia.
  - rewrite IH, lookup_increment, fileCount_cons.
    destruct (decide (config.Name m = name)) as [->|Hne];
      destruct (c !! name); cbn; lia.
Qed.

Lemma forM_IncrementLogMetric {R} metrics data s :
  @forM R _ _ metrics tt (fun _ metric =>
      IncrementLogMetric (config.Name metric) (config.HasMatches metric data)) s
  = mkOut (Next tt)
      (with_Instance s
         (metadata.mkMetadata (metadata.PassRates (Instance_ s))
            (incrementAll metrics data (metadata.LogMetrics (Instance_ s)))
            (metadata.BeforeSuiteMetrics (Instance_ s))))
      [].
Proof.
  revert s. induction metrics as [|m metrics IH]; intros s; cbn [forM].
  - unfold ret. f_equal. now destruct s as [? ? ? []].
  - unfold IncrementLogMetric at 1. rewrite bind_modify, IH. reflexivity.
Qed.

Lemma forM_IncrementBeforeSuiteMetric {R} metrics data s :
  @forM R _ _ metrics tt (fun _ metric =>
      IncrementBeforeSuiteMetric (config.Name metric)
                                 (config.HasMatches metric data)) s
  = mkOut (Next tt)
      (with_Instance s
         (metadata.mkMetadata (metadata.PassRates (Instance_ s))
            (metadata.LogMetrics (Instance_ s))
            (incrementAll metrics data
               (metadata.BeforeSuiteMetrics (Instance_ s)))))
      [].
Proof.
  revert s. induction metrics as [|m metrics IH]; intros s; cbn [forM].
  - unfold ret. f_equal. now destruct s as [? ? ? []].
  - unfold IncrementBeforeSuiteMetric at 1. rewrite bind_modify, IH.
    reflexivity.
Qed.

Lemma countLogFile_next w pw reportDir tcd file s :
  res (countLogFile w pw reportDir tcd file s) = Next tt ->
  countedFrom w pw reportDir [file] s (st (countLogFile w pw reportDir tcd file s)).
Proof.
  unfold countLogFile, countedFrom, logCount. cbn [foldr].
  destruct (logFileRegex w file).
  - go. destruct (ioutil_ReadFile pw _) as [data|err]; go; [|discriminate].
    intros _.
    rewrite (bind_out _ _ _ _ _ _ (forM_IncrementLogMetric _ data s)).
    cbn [st]. rewrite forM_IncrementBeforeSuiteMetric. cbn.
    split; intros name; rewrite counter_incrementAll; lia.
  - intros _. cbn. split; intros name; lia.
Qed.

Lemma countLogFiles_next w pw reportDir tcd files s :
  res (forM files tt (fun _ file => countLogFile w pw reportDir tcd file) s)
    = Next tt ->
  countedFrom w pw reportDir files s
    (st (forM files tt (fun _ file => countLogFile w pw reportDir tcd file) s)).
Proof.
  revert s. induction files as [|file files IH]; intros s; cbn [forM].
  - intros _. unfold countedFrom, logCount. cbn. split; intros name; lia.
  - destruct (res (countLogFile w pw reportDir tcd file s)) as [[]|r|msg] eqn:Hfile.
    + rewrite bind_next with (a := tt) by exact Hfile. cbn [res st].
      intros Hrest. apply IH in Hrest.
      destruct (countLogFile_next w pw reportDir tcd file s Hfile) as [H1 H2].
      destruct Hrest as [H3 H4].
      split; intros name; [rewrite H3, H1|rewrite H4, H2];
        unfold logCount; cbn [foldr];
        destruct (logFileRegex w file);
        try destruct (ioutil_ReadFile pw _); lia.
    + rewrite bind_return with (r := r) by exact Hfile. discriminate.
    + rewrite bind_panic with (msg := msg) by exact Hfile. discriminate.
Qed.

Lemma allZero_reset (c : gmap string Z) : allZero ((fun _ => 0) <$> c).
Proof.
  intros name v H. rewrite lookup_fmap in H.
  destruct (c !! name); cbn in H; congruence.
Qed.

Lemma allZero_counter (c : gmap string Z) name : allZero c -> counter c name = 0.
Proof.
  intros H. unfold counter. destruct (c !! name) as [v|] eqn:Hv; [|reflexivity].
  cbn. exact (H name v Hv).
Qed.

(** C9: the counting pass of a phase starts by zeroing every log-metric
    counter and every before-suite counter, whatever an earlier phase left
    in them; and when the pass completes, each counter holds the matches of
    this phase's log files alone. *)
Theorem countLogMetrics_no_carry_over w pw reportDir tcd files s :
  countLogMetrics w pw reportDir tcd files s =
    forM files tt (fun _ file => countLogFile w pw reportDir tcd file)
         (countingStart s) /\
  allZero (metadata.LogMetrics (Instance_ (countingStart s))) /\
  allZero (metadata.BeforeSuiteMetrics (Instance_ (countingStart s))) /\
  (res (countLogMetrics w pw reportDir tcd files s) = Next tt ->
   forall name,
     counter (metadata.LogMetrics
                (Instance_ (st (countLogMetrics w pw reportDir tcd files s))))
             name
       = logCount w pw reportDir (GetLogMetrics w) name files /\
     counter (metadata.BeforeSuiteMetrics
                (Instance_ (st (countLogMetrics w pw reportDir tcd files s))))
             name
       = logCount w pw reportDir (GetBeforeSuiteMetrics w) name files).
Proof.
  assert (Heq : countLogMetrics w pw reportDir tcd files s =
                forM files tt (fun _ file => countLogFile w pw reportDir tcd file)
                     (countingStart s)).
  { unfold countLogMetrics. go. reflexivity. }
  assert (Hlog : allZero (metadata.LogMetrics (Instance_ (countingStart s))))
    by apply allZero_reset.
  assert (Hbs : allZero (metadata.BeforeSuiteMetrics (Instance_ (countingStart s))))
    by apply allZero_reset.
  repeat split; try assumption.
  - rewrite Heq in *. destruct (countLogFiles_next _ _ _ _ _ _ H) as [H1 _].
    rewrite H1, allZero_counter by exact Hlog. lia.
  - rewrite Heq in *. destruct (countLogFiles_next _ _ _ _ _ _ H) as [_ H2].
    rewrite H2, allZero_counter by exact Hbs. lia.
Qed.

(** An earlier phase left 3 and 2 in the counters; this phase has one log
    file that matches once: the counter reads 1. *)
Lemma countLogMetrics_no_carry_over_witness :
  counter (metadata.LogMetrics
             (Instance_ (st (countLogMetrics oneLogWorld oneLogPhase
                               "/tmp/report" [] ["build.log"]
                               afterEarlierPhase))))
          "panics" = 1.
Proof.
  destruct (countLogMetrics_no_carry_over oneLogWorld oneLogPhase
              "/tmp/report" [] ["build.log"] afterEarlierPhase)
    as (_ & _ & _ & H).
  destruct (H eq_refl "panics") as [-> _]. reflexivity.
Defined.

(** ** The upgrade *)

Lemma upgradeRateIs_instanceOnly v : instanceOnly (upgradeRateIs v).
Proof. intros s s' H. unfold upgradeRateIs. now rewrite H. Qed.

Ltac events_side := first [ exact I | reflexivity | now (intros; exact I) ].

(** The events of the phases other than the upgrade phase. *)
Lemma runTestsInPhase_events w description dryrun :
  triple beforeUpgrade any any any
         (runTestsInPhase w phase.InstallPhase description dryrun).
Proof.
  unfold runTestsInPhase, beforeSuite, installAddons, getLogs, writeLogs,
    collectFile, openPDAlerts, openAlertFor, recordTestcases, recordTestcase,
    testcaseError, recordPassRate, countLogMetrics, countLogFile,
    IncrementLogMetric, IncrementBeforeSuiteMetric.
  cbv zeta.
  repeat (triple_step events_side fail).
Qed.

Ltac rates_side :=
  first [ exact I | reflexivity
        | now (intros; unfold any, upgradeRateIs in *; cbn in *; auto)
        | now (intros; unfold any, upgradeRateIs in *; cbn in *;
               rewrite lookup_insert_ne by discriminate; auto) ].

(** The install phase leaves the pass rate of the upgrade phase alone. *)
Lemma runTestsInPhase_rates v w description dryrun :
  triple allEvents (upgradeRateIs v) any any
         (runTestsInPhase w phase.InstallPhase description dryrun).
Proof.
  unfold runTestsInPhase, recordPassRate, countLogMetrics, countLogFile,
    collectFile, IncrementLogMetric, IncrementBeforeSuiteMetric.
  cbv zeta.
  repeat (triple_step rates_side
            ltac:(instance_known (upgradeRateIs_instanceOnly v))).
Qed.

Lemma setUpRun_before v w :
  triple beforeUpgrade (upgradeRateIs v) any any (setUpRun w).
Proof.
  unfold setUpRun. cbv zeta. repeat (triple_step rates_side fail).
Qed.

Lemma runInstallPhase_before v w :
  triple beforeUpgrade (upgradeRateIs v) any any (runInstallPhase w).
Proof.
  unfold runInstallPhase. cbv zeta.
  repeat (triple_step rates_side
            ltac:(first [ apply triple_split;
                            [ apply runTestsInPhase_events
                            | apply runTestsInPhase_rates ]
                        | apply triple_split;
                            [ unfold getLogs, writeLogs;
                              repeat (triple_step events_side fail)
                            | apply getLogs_instance;
                              apply upgradeRateIs_instanceOnly ] ])).
Qed.

Lemma finishRun_noRunUpgrade w reportDir clusterID install upgraded :
  triple (fun e => negb (isRunUpgrade e)) any any any
         (finishRun w reportDir clusterID install upgraded).
Proof.
  unfold finishRun, storeJob, getLogs, writeLogs. cbv zeta.
  repeat (triple_step events_side fail).
Qed.

Lemma before_notRunUpgrade l :
  forallb beforeUpgrade l = true -> ~ In EvRunUpgrade l.
Proof.
  intros H Hin. rewrite forallb_forall in H. now specialize (H _ Hin).
Qed.

Lemma before_notPostUpgrade l :
  forallb beforeUpgrade l = true -> forallb notPostUpgrade l = true.
Proof.
  rewrite !forallb_forall. intros H e He. specialize (H e He).
  unfold beforeUpgrade in H. now apply andb_true_iff in H.
Qed.

Lemma before_count l :
  forallb beforeUpgrade l = true -> length (List.filter isRunUpgrade l) = 0%nat.
Proof.
  induction l as [|e l IH]; [reflexivity|]. cbn [forallb List.filter].
  intros [He Hl]%andb_true_iff. unfold beforeUpgrade in He.
  apply andb_true_iff in He. destruct He as [_ He].
  apply negb_true_iff in He. rewrite He. auto.
Qed.

(** What the upgrade step does when the upgrade operation fails: either the
    upgrade is not attempted and the step falls through, or it is attempted
    once and the step returns [Failure] right after recording the failure. *)
Lemma upgradeCluster_fails w s e :
  RunUpgrade w = Some e ->
  let o := upgradeCluster w s in
  Instance_ (st o) = Instance_ s /\
  ((res o = Next (true, []) /\ forallb beforeUpgrade (evs o) = true) \/
   (res o = Return (Failure, Some ("error performing upgrade: " +:+ e)) /\
    exists l, evs o = l ++ [EvRunUpgrade; EvRecordEvent "UpgradeFailed"] /\
              forallb beforeUpgrade l = true)).
Proof.
  intros Hup. unfold upgradeCluster. cbv zeta. go.
  destruct (bool_decide _ || bool_decide _); [|now (split; [|left])].
  go. destruct (decide _); go; [|now (split; [|left])].
  unfold when.
  destruct (viper.GetBool (cfg s) config_Upgrade_MonitorRoutesDuringUpgrade
            && negb (DryRun s)).
  - unfold setupRouteMonitors. go. rewrite Hup.
    destruct (routemonitors_Create w); go; cbn [res st evs]; (split; [reflexivity|]); right;
      (split; [reflexivity|]).
    + now exists [EvGoRouteMonitors; EvLog ("Error creating route monitors: " +:+ s0);
                  EvLog "Route Monitors created."].
    + now exists [EvGoRouteMonitors; EvLog "Route Monitors created."].
  - go. rewrite Hup. go. cbn. split; [reflexivity|]. right.
    split; [reflexivity|]. now exists [].
Qed.

(** A run in four stages, of which the first two and the last never invoke
    the upgrade and the third either does not invoke it and falls through,
    or invokes it once and returns [r] right after: if the upgrade is among
    the events, the run has returned [r] from the third stage. *)
Section Staged.
Context {A B C : Type} (m1 : M RunResult A) (m2 : M RunResult B)
  (m3 : M RunResult C) (m4 : A -> B -> C -> M RunResult RunResult).
Context (s : State) (r : RunResult) (c0 : C).

Let o := bind m1 (fun a => bind m2 (fun b => bind m3 (fun c => m4 a b c))) s.

Hypothesis H1 : forallb beforeUpgrade (evs (m1 s)) = true.
Hypothesis H2 : forallb beforeUpgrade (evs (m2 (st (m1 s)))) = true.
Hypothesis H3 :
  (res (m3 (st (m2 (st (m1 s))))) = Next c0 /\
   forallb beforeUpgrade (evs (m3 (st (m2 (st (m1 s)))))) = true) \/
  (res (m3 (st (m2 (st (m1 s))))) = Return r /\
   exists l,
     evs (m3 (st (m2 (st (m1 s))))) =
       l ++ [EvRunUpgrade; EvRecordEvent "UpgradeFailed"] /\
     forallb beforeUpgrade l = true).
Hypothesis H4 : forall a b c s',
  forallb (fun e => negb (isRunUpgrade e)) (evs (m4 a b c s')) = true.

Lemma staged_upgrade_failure :
  In EvRunUpgrade (evs o) ->
  res o = Return r /\
  st o = st (m3 (st (m2 (st (m1 s))))) /\
  length (List.filter isRunUpgrade (evs o)) = 1%nat /\
  forallb notPostUpgrade (evs o) = true.
Proof.
  unfold o.
  destruct (res (m1 s)) as [a|r1|msg] eqn:E1;
    [ rewrite (bind_next _ _ _ _ E1)
    | rewrite (bind_return _ _ _ _ E1); cbn [evs];
      intros Hin; now apply before_notRunUpgrade in Hin
    | rewrite (bind_panic _ _ _ _ E1); cbn [evs];
      intros Hin; now apply before_notRunUpgrade in Hin ].
  destruct (res (m2 (st (m1 s)))) as [b|r2|msg] eqn:E2;
    [ rewrite (bind_next _ _ _ _ E2)
    | rewrite (bind_return _ _ _ _ E2); cbn [res st evs];
      intros Hin; apply in_app_or in Hin;
      destruct Hin as [Hin|Hin]; now apply before_notRunUpgrade in Hin
    | rewrite (bind_panic _ _ _ _ E2); cbn [res st evs];
      intros Hin; apply in_app_or in Hin;
      destruct Hin as [Hin|Hin]; now apply before_notRunUpgrade in Hin ].
  cbn [res st evs].
  destruct H3 as [(Hres & He3)|(Hres & l & Hl & He3)].
  - rewrite (bind_next _ _ _ _ Hres). cbn [res st evs].
    intros Hin. exfalso.
    do 3 (apply in_app_or in Hin; destruct Hin as [Hin|Hin];
          [now apply before_notRunUpgrade in Hin|]).
    pose proof (H4 a b c0 (st (m3 (st (m2 (st (m1 s))))))) as He4.
    rewrite forallb_forall in He4. specialize (He4 _ Hin). discriminate He4.
  - rewrite (bind_return _ _ _ _ Hres). cbn [res st evs].
    intros _. rewrite Hl. repeat split.
    + rewrite !List.filter_app, !List.length_app, !before_count by assumption.
      reflexivity.
    + rewrite !forallb_app, !before_notPostUpgrade by assumption.
      reflexivity.
Qed.

End Staged.

(** C5: when the upgrade operation is invoked and returns an error, the run
    returns [Failure] with that error and the process exits with code 1; the
    upgrade was invoked exactly once; no Ginkgo run of the upgrade phase, no
    record of a successful upgrade and no database row is among the events;
    and the pass rate on record for the upgrade phase is what it was. *)
Theorem upgrade_failure_is_fatal w s e :
  RunUpgrade w = Some e ->
  In EvRunUpgrade (evs (runGinkgoTests w s)) ->
  let o := runGinkgoTests w s in
  res o = Return (Failure, Some ("error performing upgrade: " +:+ e)) /\
  res (RunTests w s) = Return 1 /\
  length (List.filter isRunUpgrade (evs o)) = 1%nat /\
  forallb notPostUpgrade (evs o) = true /\
  metadata.PassRates (Instance_ (st o)) !! phase.UpgradePhase =
    metadata.PassRates (Instance_ s) !! phase.UpgradePhase.
Proof.
  intros Hup Hin. cbv zeta.
  pose (v := metadata.PassRates (Instance_ s) !! phase.UpgradePhase).
  destruct (setUpRun_before v w s eq_refl) as (He1 & HJ1 & _).
  destruct (runInstallPhase_before v w _ HJ1) as (He2 & HJ2 & _).
  destruct (upgradeCluster_fails w (st (runInstallPhase w (st (setUpRun w s)))) e Hup)
    as (Hinst & H3).
  destruct (staged_upgrade_failure
              (setUpRun w) (runInstallPhase w) (upgradeCluster w)
              (fun dirs install upgraded =>
                 finishRun w dirs.1 dirs.2 install upgraded)
              s (Failure, Some ("error performing upgrade: " +:+ e)) (true, [])
              He1 He2 H3
              (fun a b c s' => proj1 (finishRun_noRunUpgrade w a.1 a.2 b c s' I))
              Hin)
    as (Hres & Hst & Hcount & Hpost).
  fold (runGinkgoTests w) in Hres, Hst, Hcount, Hpost.
  repeat split; try assumption.
  - unfold RunTests.
    rewrite bind_call_return
      with (r := (Failure, Some ("error performing upgrade: " +:+ e)))
      by exact Hres.
    cbn [snd fst]. go. reflexivity.
  - rewrite Hst, Hinst. exact HJ2.
Qed.

Lemma upgrade_failure_is_fatal_witness :
  res (runGinkgoTests upgradeFails monitoredUpgrade) =
    Return (Failure, Some "error performing upgrade: timeout") /\
  res (RunTests upgradeFails monitoredUpgrade) = Return 1.
Proof.
  destruct (upgrade_failure_is_fatal upgradeFails monitoredUpgrade "timeout")
    as (H1 & H2 & _).
  - reflexivity.
  - vm_compute. tauto.
  - split; [exact H1|exact H2].
Defined.

(** ** The route monitors *)

(** C2: with route monitoring requested and the upgrade operation failing,
    the run starts the monitors, returns [Failure] from inside the upgrade
    step and never sends the stop signal nor waits for the flush: the
    goroutine is left serving.  When the upgrade succeeds the same step stops
    the monitors and flushes them. *)
Theorem upgrade_error_skips_monitor_stop :
  (let o := runGinkgoTests upgradeFails monitoredUpgrade in
   res o = Return (Failure, Some "error performing upgrade: timeout") /\
   existsb isGoRouteMonitors (evs o) = true /\
   existsb isStopSignal (evs o) = false /\
   monitors (st o) = MonitorsRunning) /\
  (let o := runGinkgoTests quietWorld monitoredUpgrade in
   res o = Return (Success, None) /\
   existsb isGoRouteMonitors (evs o) = true /\
   List.filter isStopSignal (evs o) =
     [EvCloseRouteMonitorChan; EvRouteMonitorsFlush; EvRecvCloseMonitorChan] /\
   monitors (st o) = MonitorsStopped).
Proof. vm_compute. repeat split. Qed.

(** * Further properties *)

(** ** The counters *)

(** X1: over any result files, [numTests] is the number of test cases that
    are not skipped and [numPassingTests] the number of those that are
    neither failed nor skipped, added to what the counters held. *)
Theorem countTests_closed_form n p suites :
  countTests (n, p) suites =
  (n + Z.of_nat (length (List.filter isCounted (flat_map junit.Tests suites))),
   p + Z.of_nat (length (List.filter isCountedPassing
                                     (flat_map junit.Tests suites)))).
Proof.
  rewrite countTests_flat. generalize (flat_map junit.Tests suites).
  intros tests. revert n p.
  induction tests as [|t tests IH]; intros n p; cbn [foldl List.filter length].
  - f_equal; lia.
  - unfold countTest at 2. cbn [fst snd]. rewrite IH.
    unfold isCounted at 2, isCountedPassing at 2.
    destruct (bool_decide (junit.Status_ t = junit.StatusSkipped));
      destruct (bool_decide (junit.Status_ t = junit.StatusFailed));
      cbn [negb andb length]; f_equal; lia.
Qed.

(** X2: whatever the result files hold and in whatever order they are read,
    the counters that start from [(0, 0)] end with
    [0 <= numPassingTests <= numTests]. *)
Theorem countTests_passing_le_total suites :
  0 <= (countTests (0, 0) suites).2 <= (countTests (0, 0) suites).1.
Proof. apply countTests_le. cbn. lia. Qed.

(** X3: the totals of result files read one after another are the sums of
    the totals of each: counting two batches of suites in sequence gives the
    component-wise sum of their separate counts. *)
Theorem countTests_sequence suites1 suites2 :
  countTests (countTests (0, 0) suites1) suites2 =
  countTests (0, 0) (suites1 ++ suites2) /\
  countTests (0, 0) (suites1 ++ suites2) =
  ((countTests (0, 0) suites1).1 + (countTests (0, 0) suites2).1,
   (countTests (0, 0) suites1).2 + (countTests (0, 0) suites2).2).
Proof.
  assert (Happ : countTests (countTests (0, 0) suites1) suites2 =
                 countTests (0, 0) (suites1 ++ suites2)).
  { unfold countTests. now rewrite foldl_app. }
  split; [exact Happ|]. rewrite <- Happ.
  destruct (countTests (0, 0) suites1) as [a b]. apply countTests_add.
Qed.

(** ** The test-case records *)

(** X4: the closure that maps a status to a database result compares with
    "failure", which is none of the four statuses go-junit assigns: "passed"
    and "skipped" are stored as such, "failed" and "error" are both stored
    as [TestResultError], and only the string "failure" gives
    [TestResultFailure]. *)
Theorem testResultOf_statuses :
  testResultOf junit.StatusPassed = db.TestResultPassed /\
  testResultOf junit.StatusSkipped = db.TestResultSkipped /\
  testResultOf junit.StatusFailed = db.TestResultError /\
  testResultOf junit.StatusError = db.TestResultError /\
  (forall s, testResultOf s = db.TestResultFailure <-> s = "failure") /\
  (forall s, testResultOf s = db.TestResultError <->
             s <> "passed" /\ s <> "failure" /\ s <> "skipped").
Proof.
  repeat split; try reflexivity; unfold testResultOf in *;
    repeat (destruct (decide _) as [?|?]); try congruence; try discriminate;
    intros; repeat match goal with H : _ /\ _ |- _ => destruct H end;
    try congruence.
Qed.

(** X5: when no test case of the suites carries an error, the recording loop
    falls through having appended exactly one record per test case, in file
    order, with the name, duration and captured output of the test case, an
    empty error text and job id 0; it emits nothing and leaves the state
    alone. *)
Theorem recordTestcases_one_per_test tcd suites s :
  existsb hasError (flat_map junit.Tests suites) = false ->
  @recordTestcases PhaseResult None tcd suites s =
  mkOut (Next (tcd ++ map (fun t =>
                 db.mkTestcase 0 (testResultOf (junit.Status_ t))
                   (junit.Name t) (junit.Duration t) ""
                   (junit.SystemOut t) (junit.SystemErr t))
               (flat_map junit.Tests suites)))
        s [].
Proof.
  intros H. rewrite recordTestcases_nil, H. do 3 f_equal.
  apply map_ext_in. intros t Ht. unfold recordOf.
  destruct (junit.Error t) eqn:E; [|reflexivity]. exfalso.
  assert (Ht' : existsb hasError (flat_map junit.Tests suites) = true).
  { apply existsb_exists. exists t. split; [exact Ht|].
    unfold hasError. now rewrite E. }
  congruence.
Qed.

Lemma recordTestcases_one_per_test_witness :
  res (@recordTestcases PhaseResult None []
         [suiteOf [passedTest "a"; failedTest "b"]] freshState) =
  Next [db.mkTestcase 0 db.TestResultPassed "a" 1000 "" "" "";
        db.mkTestcase 0 db.TestResultError "b" 1000 "" "" ""].
Proof.
  rewrite (recordTestcases_one_per_test []
             [suiteOf [passedTest "a"; failedTest "b"]] freshState eq_refl).
  reflexivity.
Defined.

(** ** Escalation *)

(** X6: for a job whose name contains "addon" in any letter case,
    [openPDAlerts] returns at once: it calls neither PagerDuty nor Slack,
    logs nothing and leaves the state alone, however many tests failed. *)
Theorem openPDAlerts_addon_silent pw suites jobName jobURL s :
  Strings.Contains (Strings.ToLower jobName) "addon" = true ->
  openPDAlerts pw suites jobName jobURL s = mkOut (Return tt) s [].
Proof. intros H. unfold openPDAlerts. now rewrite H. Qed.

Lemma openPDAlerts_addon_silent_witness :
  evs (openPDAlerts quietPhase [suiteOf (failedTest "t11" :: tenFailed)]
         "osde2e-AddOn-nightly" "url" freshState) = [].
Proof.
  rewrite (openPDAlerts_addon_silent quietPhase
             [suiteOf (failedTest "t11" :: tenFailed)]
             "osde2e-AddOn-nightly" "url" freshState eq_refl).
  reflexivity.
Defined.

(** X7: only test cases whose status is "failed" are ever escalated: every
    incident fired is either the ungrouped bulk incident or is grouped by the
    name of a test case with status "failed"; errored, skipped and passed
    test cases never get an incident. *)
Theorem openPDAlerts_only_failed pw suites jobName jobURL s p :
  In p (alertsFired (evs (openPDAlerts pw suites jobName jobURL s))) ->
  Group p = "" \/
  exists t, In t (flat_map junit.Tests suites) /\
            junit.Status_ t = junit.StatusFailed /\
            junit.Name t = Group p.
Proof.
  destruct (isAddonJob jobName) eqn:Haddon.
  - rewrite openPDAlerts_addon by exact Haddon. intros [].
  - destruct (openPDAlerts_out pw suites jobName jobURL s Haddon) as (_ & _ & H).
    cbv zeta in H.
    destruct (10 <? Z.of_nat (length (failingTestsOf suites)))%Z;
      destruct H as [-> _].
    + intros [<-|[]]. now left.
    + intros Hp. right. apply in_map_iff in Hp.
      destruct Hp as (name & <- & Hname). apply filter_In in Hname.
      destruct Hname as [Hname _]. rewrite failingTestsOf_flat in Hname.
      apply in_flat_map in Hname. destruct Hname as (suite & Hsuite & Hname).
      apply in_map_iff in Hname. destruct Hname as (t & <- & Ht).
      apply filter_In in Ht. destruct Ht as [Ht Hfailed].
      exists t. repeat split.
      * apply in_flat_map. now exists suite.
      * unfold isFailed in Hfailed. now apply bool_decide_eq_true in Hfailed.
Qed.

Lemma openPDAlerts_only_failed_witness :
  Group (testIncident freshState "periodic-ci" "url" "b") = "" \/
  exists t, In t [erroredTest "a"; failedTest "b"; skippedTest "c"] /\
            junit.Status_ t = junit.StatusFailed /\
            junit.Name t = Group (testIncident freshState "periodic-ci" "url" "b").
Proof.
  apply (openPDAlerts_only_failed quietPhase
           [suiteOf [erroredTest "a"; failedTest "b"; skippedTest "c"]]
           "periodic-ci" "url" freshState).
  vm_compute. left. reflexivity.
Defined.

(** X8: a PagerDuty or Slack call that fails never aborts the caller:
    whatever the collaborators answer, [openPDAlerts] returns normally and
    leaves the state as it found it. *)
Theorem openPDAlerts_errors_not_fatal pw suites jobName jobURL s :
  res (openPDAlerts pw suites jobName jobURL s) = Return tt /\
  st (openPDAlerts pw suites jobName jobURL s) = s.
Proof.
  destruct (isAddonJob jobName) eqn:Haddon.
  - now rewrite openPDAlerts_addon.
  - destruct (openPDAlerts_out pw suites jobName jobURL s Haddon)
      as (Hr & Hs & _). now split.
Qed.

(** ** runTestsInPhase: the ways in *)

(** X9: when the phase directory does not exist and cannot be created, the
    phase ends there: [runTestsInPhase] returns [false] with no record after
    the failed [Mkdir] and one log line; no cluster is acquired and Ginkgo
    does not run. *)
Theorem runTestsInPhase_mkdir_fails w phase description dryrun s err :
  let s0 := with_cfg s (viper.Set_ (cfg s) config_Phase (VString phase)) in
  let phaseDirectory :=
    filepath_Join (viper.GetString (cfg s0) config_ReportDir) phase in
  os_Stat_IsNotExist (during w phase) phaseDirectory = true ->
  os_Mkdir (during w phase) phaseDirectory = Some err ->
  runTestsInPhase w phase description dryrun s =
  mkOut (Return (false, [])) s0
        [EvStat phaseDirectory; EvMkdir phaseDirectory;
         EvLog ("error while creating phase directory " +:+ phaseDirectory)].
Proof.
  cbv zeta. intros Hstat Hmk. unfold runTestsInPhase. go.
  rewrite Hstat. go. rewrite Hmk. go. reflexivity.
Qed.

Lemma runTestsInPhase_mkdir_fails_witness :
  res (runTestsInPhase noPhaseDirectory phase.InstallPhase "OSD e2e suite"
         false freshState) = Return (false, []).
Proof.
  rewrite (runTestsInPhase_mkdir_fails noPhaseDirectory phase.InstallPhase
             "OSD e2e suite" false freshState "permission denied"
             eq_refl eq_refl).
  reflexivity.
Defined.

Ltac dry_side :=
  first [ exact I | reflexivity
        | now (intros; unfold any, isDry in *; cbn in *; auto) ].

(** X10: in a dry run (the [dryrun] argument and Ginkgo's own flag are both
    set) [runTestsInPhase] skips [beforeSuite]: nothing that acquires a
    cluster is among its events; and when the phase directory is there or
    can be made, Ginkgo is still run. *)
Theorem runTestsInPhase_dry_run w phase description s :
  DryRun s = true ->
  let s0 := with_cfg s (viper.Set_ (cfg s) config_Phase (VString phase)) in
  let phaseDirectory :=
    filepath_Join (viper.GetString (cfg s0) config_ReportDir) phase in
  let o := runTestsInPhase w phase description true s in
  forallb notAcquisition (evs o) = true /\
  ((os_Stat_IsNotExist (during w phase) phaseDirectory = true ->
    os_Mkdir (during w phase) phaseDirectory = None) ->
   In (EvRunSpecs description phase
         (filepath_Join phaseDirectory
            ("junit_" +:+ viper.GetString (cfg s0) config_Suffix +:+ ".xml")))
      (evs o)).
Proof.
  intros Hdry. cbv zeta. split.
  - assert (H : triple notAcquisition isDry any any
                  (runTestsInPhase w phase description true)).
    { unfold runTestsInPhase, collectFile, openPDAlerts, openAlertFor,
        recordTestcases, recordTestcase, testcaseError, recordPassRate,
        countLogMetrics, countLogFile, IncrementLogMetric,
        IncrementBeforeSuiteMetric.
      cbv zeta.
      repeat first
        [ match goal with
          | H1 : isDry ?a, H2 : negb true || negb (DryRun ?a) = true |- _ =>
              exfalso; unfold isDry in H1; rewrite H1 in H2; discriminate H2
          end
        | triple_step dry_side
            ltac:(apply triple_get; let x := fresh in intros ? x; exact x) ]. }
    exact (proj1 (H s Hdry)).
  - intros Hdir. unfold runTestsInPhase. go.
    destruct (os_Stat_IsNotExist _ _); [rewrite Hdir by reflexivity|]; go;
      cbn [DryRun with_cfg]; rewrite Hdry; cbn [negb orb]; go;
      cbn [evs]; find_event.
Qed.

Lemma runTestsInPhase_dry_run_witness :
  forallb notAcquisition
    (evs (runTestsInPhase quietWorld phase.InstallPhase "OSD e2e suite" true
            dryState)) = true.
Proof.
  exact (proj1 (runTestsInPhase_dry_run quietWorld phase.InstallPhase
                  "OSD e2e suite" dryState eq_refl)).
Defined.

(** ** The pass rate on record *)







(** ** Log collection *)

Lemma writeLogs_out w logs s :
  writeLogs w logs s =
  mkOut (Next tt) s
        (logWrites w (viper.GetString (cfg s) config_ReportDir) logs).
Proof.
  unfold writeLogs.
  induction logs as [|kv logs IH]; [reflexivity|].
  cbn [forM logWrites flat_map]. go.
  destruct (writeLogs_WriteFile w _); go; rewrite IH; reflexivity.
Qed.

(** X12: with a provider, a cluster id and the provider's logs in hand,
    [getLogs] asks for the logs once and then attempts one write per log,
    in the order the range over the logs yields them, to
    [<report dir>/<key>-log.txt]; a write that fails is logged and does not
    stop the others; the state is left alone. *)
Theorem getLogs_writes_each_log w s logs :
  let clusterID := viper.GetString (cfg s) config_Cluster_ID in
  provider s = true ->
  clusterID <> "" ->
  provider_Logs w = Good logs ->
  getLogs w s =
  mkOut (Next tt) s
        (EvProviderLogs clusterID ::
         logWrites w (viper.GetString (cfg s) config_ReportDir) logs).
Proof.
  cbv zeta. intros Hp Hid Hlogs. unfold getLogs. go. rewrite Hp. cbn [negb].
  destruct (decide (_ = "")) as [E|_]; [contradiction|].
  go. rewrite Hlogs. unfold call. rewrite writeLogs_out. reflexivity.
Qed.

Lemma getLogs_writes_each_log_witness :
  evs (getLogs (withLogs quietWorld (Good [("hive", "a"); ("api", "b")])
                  (fun f => bool_decide (f = "/tmp/report/hive-log.txt")))
         provisionedState) =
  [EvProviderLogs "id-1";
   EvWriteFile "/tmp/report/hive-log.txt";
   EvLog "Error writing log /tmp/report/hive-log.txt: disk full";
   EvWriteFile "/tmp/report/api-log.txt"].
Proof.
  rewrite (getLogs_writes_each_log
             (withLogs quietWorld (Good [("hive", "a"); ("api", "b")])
                (fun f => bool_decide (f = "/tmp/report/hive-log.txt")))
             provisionedState [("hive", "a"); ("api", "b")]
             eq_refl ltac:(discriminate) eq_refl).
  reflexivity.
Defined.

(** X13: [getLogs] cannot fail: whatever the provider and the file system
    answer, it falls through and leaves the state alone; and it asks the
    provider for logs only when there is a provider and the configured
    cluster id is not empty. *)
Theorem getLogs_harmless w s :
  let o := getLogs w s in
  res o = Next tt /\ st o = s /\
  (forall id, In (EvProviderLogs id) (evs o) ->
     provider s = true /\ id = viper.GetString (cfg s) config_Cluster_ID /\
     id <> "").
Proof.
  cbv zeta. unfold getLogs. go.
  destruct (provider s); cbn [negb].
  - destruct (decide (_ = "")) as [E|NE].
    + cbn. split; [reflexivity|split; [reflexivity|]].
      intros id [H|[]]; discriminate H.
    + go. destruct (provider_Logs w) as [logs|err].
      * unfold call. rewrite writeLogs_out. cbn [res st evs].
        split; [reflexivity|split; [reflexivity|]].
        intros id [[= <-]|H]; [easy|].
        exfalso. unfold logWrites in H.
        apply in_flat_map in H. destruct H as (kv & _ & H). cbn in H.
        destruct H as [H|H]; [discriminate H|].
        destruct (writeLogs_WriteFile w _); cbn in H;
          intuition discriminate.
      * cbn. split; [reflexivity|split; [reflexivity|]].
        intros id [[= <-]|[H|[]]]; [easy|discriminate H].
  - cbn. split; [reflexivity|split; [reflexivity|]].
    intros id [H|[]]; discriminate H.
Qed.

(** ** Addons *)


(** ** The database *)

Lemma storeTestcases_ok w jobID testcases s :
  (forall tc, In tc testcases ->
     CreateTestcase w (db.with_JobID tc jobID) = None) ->
  forM testcases tt (fun _ tc =>
    emit (R := error) (EvCreateTestcase (db.with_JobID tc jobID));;
    match CreateTestcase w (db.with_JobID tc jobID) with
    | Some err => return_ (Some ("failed creating test case: " +:+ err))
    | None => ret tt
    end) s =
  mkOut (Next tt) s
        (map (fun tc => EvCreateTestcase (db.with_JobID tc jobID)) testcases).
Proof.
  induction testcases as [|tc testcases IH]; intros Hok; [reflexivity|].
  cbn [forM map]. go. rewrite (Hok tc) by now left. go.
  rewrite IH by (intros; apply Hok; now right). reflexivity.
Qed.

(** X15: on a database that takes everything, [storeJob] files the job as
    passed exactly when both the install and the upgrade tests passed, then
    files every test case under the id the database gave the job, in the
    order given, and returns nil. *)
Theorem storeJob_stores_every_testcase w testsPassed upgradeTestsPassed
    testcases jobID s :
  migrate_Up w = None ->
  CreateJob w = Good jobID ->
  (forall tc, In tc testcases ->
     CreateTestcase w (db.with_JobID tc jobID) = None) ->
  storeJob w testsPassed upgradeTestsPassed testcases s =
  mkOut (Return None) s
        (EvLog "We're storing data in the database!" :: EvMigrateUp ::
         EvCreateJob (jobResultOf testsPassed upgradeTestsPassed) ::
         map (fun tc => EvCreateTestcase (db.with_JobID tc jobID)) testcases).
Proof.
  intros Hup Hjob Hok. unfold storeJob. go. rewrite Hup. cbv zeta. go.
  rewrite Hjob.
  rewrite bind_next with (a := tt) (m := forM _ _ _)
    by now rewrite storeTestcases_ok.
  rewrite storeTestcases_ok by exact Hok. cbn. now rewrite app_nil_r.
Qed.

Lemma storeJob_stores_every_testcase_witness :
  evs (storeJob quietWorld true false [passedRecord "a"; passedRecord "b"]
         freshState) =
  [EvLog "We're storing data in the database!"; EvMigrateUp;
   EvCreateJob db.JobResultFailed;
   EvCreateTestcase (db.with_JobID (passedRecord "a") 1);
   EvCreateTestcase (db.with_JobID (passedRecord "b") 1)].
Proof.
  rewrite (storeJob_stores_every_testcase quietWorld true false
             [passedRecord "a"; passedRecord "b"] 1 freshState
             eq_refl eq_refl (fun _ _ => eq_refl)).
  reflexivity.
Defined.

(** X16: the first test case the database refuses ends [storeJob]: the
    records before it have been filed, the ones after it are never
    attempted, and the refusal is returned as the error. *)
Theorem storeJob_stops_at_first_refusal w testsPassed upgradeTestsPassed
    filed tc rest jobID err s :
  migrate_Up w = None ->
  CreateJob w = Good jobID ->
  (forall tc', In tc' filed ->
     CreateTestcase w (db.with_JobID tc' jobID) = None) ->
  CreateTestcase w (db.with_JobID tc jobID) = Some err ->
  storeJob w testsPassed upgradeTestsPassed (filed ++ tc :: rest) s =
  mkOut (Return (Some ("failed creating test case: " +:+ err))) s
        (EvLog "We're storing data in the database!" :: EvMigrateUp ::
         EvCreateJob (jobResultOf testsPassed upgradeTestsPassed) ::
         map (fun tc => EvCreateTestcase (db.with_JobID tc jobID))
             (filed ++ [tc])).
Proof.
  intros Hup Hjob Hok Hbad. unfold storeJob. go. rewrite Hup. cbv zeta. go.
  rewrite Hjob.
  assert (Hloop : forall k : unit -> M error error,
    bind (forM (filed ++ tc :: rest) tt (fun _ tc0 =>
            emit (EvCreateTestcase (db.with_JobID tc0 jobID));;
            match CreateTestcase w (db.with_JobID tc0 jobID) with
            | Some err0 =>
                return_ (Some ("failed creating test case: " +:+ err0))
            | None => ret tt
            end)) k s =
    mkOut (Return (Some ("failed creating test case: " +:+ err))) s
          (map (fun tc => EvCreateTestcase (db.with_JobID tc jobID))
               (filed ++ [tc]))).
  { intros k. clear Hup Hjob. induction filed as [|tc' filed IH].
    - cbn [app forM map]. go. rewrite Hbad. go. reflexivity.
    - cbn [app forM map]. go. rewrite (Hok tc') by now left. go.
      rewrite IH by (intros; apply Hok; now right). reflexivity. }
  rewrite Hloop. reflexivity.
Qed.

Lemma storeJob_stops_at_first_refusal_witness :
  evs (storeJob
         (withCreateTestcase quietWorld
            (fun tc => bool_decide (db.Name tc = "b")))
         true true [passedRecord "a"; passedRecord "b"; passedRecord "c"]
         freshState) =
  [EvLog "We're storing data in the database!"; EvMigrateUp;
   EvCreateJob db.JobResultPassed;
   EvCreateTestcase (db.with_JobID (passedRecord "a") 1);
   EvCreateTestcase (db.with_JobID (passedRecord "b") 1)].
Proof.
  rewrite (storeJob_stops_at_first_refusal
             (withCreateTestcase quietWorld
                (fun tc => bool_decide (db.Name tc = "b")))
             true true [passedRecord "a"] (passedRecord "b")
             [passedRecord "c"] 1 "duplicate key" freshState
             eq_refl eq_refl).
  - reflexivity.
  - intros tc' [<-|[]]. reflexivity.
  - reflexivity.
Defined.

(** ** Rules of the weakest precondition *)

Section Wp.
Context {R : Type} (Qr : R -> State -> list Event -> Prop)
        (Qp : string -> Prop).

Lemma wp_ret {A} (Qn : A -> State -> list Event -> Prop) a s l :
  Qn a s l -> wp (ret a) Qn Qr Qp s l.
Proof. unfold wp. cbn. now rewrite app_nil_r. Qed.

Lemma wp_return {A} (Qn : A -> State -> list Event -> Prop) r s l :
  Qr r s l -> wp (return_ r) Qn Qr Qp s l.
Proof. unfold wp. cbn. now rewrite app_nil_r. Qed.

Lemma wp_panic {A} (Qn : A -> State -> list Event -> Prop) msg s l :
  Qp msg -> wp (panic msg) Qn Qr Qp s l.
Proof. now unfold wp. Qed.

Lemma wp_get (Qn : State -> State -> list Event -> Prop) s l :
  Qn s s l -> wp get Qn Qr Qp s l.
Proof. unfold wp. cbn. now rewrite app_nil_r. Qed.

Lemma wp_GetString (Qn : string -> State -> list Event -> Prop) k s l :
  Qn (viper.GetString (cfg s) k) s l -> wp (GetString k) Qn Qr Qp s l.
Proof. unfold wp. cbn. now rewrite app_nil_r. Qed.

Lemma wp_GetBool (Qn : bool -> State -> list Event -> Prop) k s l :
  Qn (viper.GetBool (cfg s) k) s l -> wp (GetBool k) Qn Qr Qp s l.
Proof. unfold wp. cbn. now rewrite app_nil_r. Qed.

Lemma wp_emit (Qn : unit -> State -> list Event -> Prop) e s l :
  Qn tt s (l ++ [e]) -> wp (emit e) Qn Qr Qp s l.
Proof. now unfold wp. Qed.

Lemma wp_log (Qn : unit -> State -> list Event -> Prop) msg s l :
  Qn tt s (l ++ [EvLog msg]) -> wp (log_ msg) Qn Qr Qp s l.
Proof. apply wp_emit. Qed.

Lemma wp_modify (Qn : unit -> State -> list Event -> Prop) f s l :
  Qn tt (f s) l -> wp (modify f) Qn Qr Qp s l.
Proof. unfold wp. cbn. now rewrite app_nil_r. Qed.

Lemma wp_Set (Qn : unit -> State -> list Event -> Prop) k v s l :
  Qn tt (with_cfg s (viper.Set_ (cfg s) k v)) l ->
  wp (Set_ k v) Qn Qr Qp s l.
Proof.
  intros H.
  now apply (wp_modify Qn (fun s => with_cfg s (viper.Set_ (cfg s) k v))).
Qed.

Lemma wp_Error (Qn : string -> State -> list Event -> Prop) err s l :
  match err with Some msg => Qn msg s l | None => Qp nilPanic end ->
  wp (Error_ err) Qn Qr Qp s l.
Proof. destruct err; [apply wp_ret|apply wp_panic]. Qed.

Lemma wp_bind {A B} (Qn : B -> State -> list Event -> Prop)
    (m : M R A) (k : A -> M R B) s l :
  wp m (fun a s' l' => wp (k a) Qn Qr Qp s' l') Qr Qp s l ->
  wp (bind m k) Qn Qr Qp s l.
Proof.
  unfold wp, bind. destruct (res (m s)); cbn [res st evs]; auto.
  now rewrite app_assoc.
Qed.

Lemma wp_when (Qn : unit -> State -> list Event -> Prop) c (m : M R unit)
    s l :
  (c = true -> wp m Qn Qr Qp s l) -> (c = false -> Qn tt s l) ->
  wp (when c m) Qn Qr Qp s l.
Proof. destruct c; intros H1 H2; [auto|apply wp_ret; auto]. Qed.

Lemma wp_forM {A B} (I : B -> State -> list Event -> Prop)
    (xs : list A) (b : B) (body : B -> A -> M R B) s l :
  I b s l ->
  (forall b x s l, I b s l -> In x xs -> wp (body b x) I Qr Qp s l) ->
  wp (forM xs b body) I Qr Qp s l.
Proof.
  revert b s l. induction xs as [|x xs IH]; intros b s l Hb Hbody;
    cbn [forM].
  - now apply wp_ret.
  - apply wp_bind. unfold wp at 1.
    pose proof (Hbody b x s l Hb (or_introl eq_refl)) as H.
    unfold wp in H at 1. destruct (res (body b x s)); auto.
    apply IH; [exact H|]. intros. apply Hbody; [assumption|now right].
Qed.

End Wp.

Lemma wp_call {R R'} (Q : R -> State -> list Event -> Prop)
    (Qr : R' -> State -> list Event -> Prop) (Qp : string -> Prop)
    (f : M R R) s l :
  wp f Q Q Qp s l -> wp (call f) Q Qr Qp s l.
Proof. unfold wp, call. destruct (res (f s)); now cbn. Qed.

Lemma wp_mono {R A} (Qn Qn' : A -> State -> list Event -> Prop)
    (Qr Qr' : R -> State -> list Event -> Prop) (Qp Qp' : string -> Prop)
    (m : M R A) s l :
  wp m Qn Qr Qp s l ->
  (forall a s' l', Qn a s' l' -> Qn' a s' l') ->
  (forall r s' l', Qr r s' l' -> Qr' r s' l') ->
  (forall msg, Qp msg -> Qp' msg) ->
  wp m Qn' Qr' Qp' s l.
Proof. unfold wp. destruct (res (m s)); auto. Qed.

(** What a triple says, as a weakest precondition: the events come after
    those already there. *)
Lemma wp_triple {R A} p J (Qn0 : A -> Prop) (Qr0 : R -> Prop) (m : M R A)
    (Qn : A -> State -> list Event -> Prop)
    (Qr : R -> State -> list Event -> Prop) s l :
  triple p J Qn0 Qr0 m -> J s ->
  (forall a s' l', J s' -> forallb p l' = true -> Qn0 a -> Qn a s' (l ++ l')) ->
  (forall r s' l', J s' -> forallb p l' = true -> Qr0 r -> Qr r s' (l ++ l')) ->
  wp m Qn Qr (fun _ => True) s l.
Proof.
  intros H HJ Hn Hr. destruct (H s HJ) as (Hp & HJ' & Hres). unfold wp.
  destruct (res (m s)); auto.
Qed.

(** What a weakest precondition says of a run from the start. *)
Lemma wp_run {R A} (m : M R A) Qn Qr Qp s :
  wp m Qn Qr Qp s [] ->
  match res (m s) with
  | Next a => Qn a (st (m s)) (evs (m s))
  | Return r => Qr r (st (m s)) (evs (m s))
  | Panic msg => Qp msg
  end.
Proof. now unfold wp. Qed.

(** The state a statement has just written gets a name. *)
Ltac wp_name_state :=
  lazymatch goal with
  | |- wp _ _ _ _ ?s _ => let s' := fresh "s" in remember s as s'
  | |- _ => idtac
  end.

(** One step of a symbolic run. *)
Ltac wp_step :=
  lazymatch goal with
  | |- wp (bind _ _) _ _ _ _ _ => apply wp_bind
  | |- wp (ret _) _ _ _ _ _ => apply wp_ret
  | |- wp (return_ _) _ _ _ _ _ => apply wp_return
  | |- wp (panic _) _ _ _ _ _ => apply wp_panic
  | |- wp get _ _ _ _ _ => apply wp_get
  | |- wp (GetString _) _ _ _ _ _ => apply wp_GetString
  | |- wp (GetBool _) _ _ _ _ _ => apply wp_GetBool
  | |- wp (emit _) _ _ _ _ _ => apply wp_emit
  | |- wp (log_ _) _ _ _ _ _ => apply wp_log
  | |- wp (modify _) _ _ _ _ _ => apply wp_modify; cbv beta; wp_name_state
  | |- wp (Set_ _ _) _ _ _ _ _ => apply wp_Set; cbv beta; wp_name_state
  | |- wp (Error_ _) _ _ _ _ _ => apply wp_Error
  | |- wp (when _ _) _ _ _ _ _ => apply wp_when; intros ?
  | |- wp (if ?c then _ else _) _ _ _ _ _ => destruct c eqn:?
  | |- wp (match ?x with _ => _ end) _ _ _ _ _ => destruct x eqn:?
  | |- wp (let _ := _ in _) _ _ _ _ _ => cbv zeta
  end; cbv beta.

(** ** Triples that watch the panics *)

Section PTriples.
Context (Pp : string -> Prop) (p : Event -> bool) (J : State -> Prop).

Lemma ptriple_ret {R A} (Qn : A -> Prop) (Qr : R -> Prop) a :
  Qn a -> ptriple Pp p J Qn Qr (ret a).
Proof. intros H s HJ. now cbn. Qed.

Lemma ptriple_return {R A} (Qn : A -> Prop) (Qr : R -> Prop) r :
  Qr r -> ptriple Pp p J Qn Qr (return_ r).
Proof. intros H s HJ. now cbn. Qed.

Lemma ptriple_panic {R A} (Qn : A -> Prop) (Qr : R -> Prop) msg :
  Pp msg -> ptriple Pp p J Qn Qr (panic msg).
Proof. intros H s HJ. now cbn. Qed.

Lemma ptriple_get {R} (Qn : State -> Prop) (Qr : R -> Prop) :
  (forall s, J s -> Qn s) -> ptriple Pp p J Qn Qr get.
Proof. intros H s HJ. cbn. auto. Qed.

Lemma ptriple_GetString {R} (Qn : string -> Prop) (Qr : R -> Prop) k :
  (forall s, J s -> Qn (viper.GetString (cfg s) k)) ->
  ptriple Pp p J Qn Qr (GetString k).
Proof. intros H s HJ. cbn. auto. Qed.

Lemma ptriple_GetBool {R} (Qn : bool -> Prop) (Qr : R -> Prop) k :
  (forall s, J s -> Qn (viper.GetBool (cfg s) k)) ->
  ptriple Pp p J Qn Qr (GetBool k).
Proof. intros H s HJ. cbn. auto. Qed.

Lemma ptriple_emit {R} (Qr : R -> Prop) e :
  p e = true -> ptriple Pp p J any Qr (emit e).
Proof. intros He s HJ. cbn. now rewrite He. Qed.

Lemma ptriple_log {R} (Qr : R -> Prop) msg :
  p (EvLog msg) = true -> ptriple Pp p J any Qr (log_ msg).
Proof. apply ptriple_emit. Qed.

Lemma ptriple_modify {R} (Qr : R -> Prop) f :
  (forall s, J s -> J (f s)) -> ptriple Pp p J any Qr (modify f).
Proof. intros Hf s HJ. cbn. unfold any. auto. Qed.

Lemma ptriple_Set {R} (Qr : R -> Prop) k v :
  (forall s, J s -> J (with_cfg s (viper.Set_ (cfg s) k v))) ->
  ptriple Pp p J any Qr (Set_ k v).
Proof. intros Hc. apply ptriple_modify. auto. Qed.

Lemma ptriple_Error {R} (Qr : R -> Prop) err :
  (err = None -> Pp nilPanic) -> ptriple Pp p J any Qr (Error_ err).
Proof.
  destruct err; intros H; [now apply ptriple_ret|apply ptriple_panic; auto].
Qed.

Lemma ptriple_bind {R A B} (Qa : A -> Prop) (Qn : B -> Prop) (Qr : R -> Prop)
    (m : M R A) (k : A -> M R B) :
  ptriple Pp p J Qa Qr m ->
  (forall a, Qa a -> ptriple Pp p J Qn Qr (k a)) ->
  ptriple Pp p J Qn Qr (bind m k).
Proof.
  intros Hm Hk s HJ. destruct (Hm s HJ) as (Hp & HJ' & Hres). unfold bind.
  destruct (res (m s)) as [a| |]; cbn; auto.
  destruct (Hk a Hres _ HJ') as (Hp' & HJ'' & Hres').
  rewrite forallb_app, Hp, Hp'. auto.
Qed.

Lemma ptriple_call {R R'} (Q : R -> Prop) (Qr : R' -> Prop) (f : M R R) :
  ptriple Pp p J Q Q f -> ptriple Pp p J Q Qr (call f).
Proof.
  intros Hf s HJ. destruct (Hf s HJ) as (Hp & HJ' & Hres). unfold call.
  destruct (res (f s)); cbn; auto.
Qed.

Lemma ptriple_call_any {R R'} (Qr : R' -> Prop) (f : M R R) :
  ptriple Pp p J any any f -> ptriple Pp p J any Qr (call f).
Proof. apply ptriple_call. Qed.

Lemma ptriple_when {R} (Qr : R -> Prop) c (m : M R unit) :
  (c = true -> ptriple Pp p J any Qr m) -> ptriple Pp p J any Qr (when c m).
Proof. intros Hm. destruct c; [now apply Hm|now apply ptriple_ret]. Qed.

Lemma ptriple_forM {R A B} (I : B -> Prop) (Qr : R -> Prop)
    (l : list A) (b : B) (body : B -> A -> M R B) :
  I b ->
  (forall b x, I b -> In x l -> ptriple Pp p J I Qr (body b x)) ->
  ptriple Pp p J I Qr (forM l b body).
Proof.
  revert b. induction l as [|x l IH]; intros b Hb Hbody; cbn [forM].
  - now apply ptriple_ret.
  - apply ptriple_bind with (Qa := I).
    + apply Hbody; [exact Hb|now left].
    + intros b' Hb'. apply IH; [exact Hb'|].
      intros b0 y Hb0 Hy. apply Hbody; [exact Hb0|now right].
Qed.

Lemma ptriple_weaken {R A} (Qn Qn' : A -> Prop) (Qr Qr' : R -> Prop)
    (m : M R A) :
  ptriple Pp p J Qn Qr m ->
  (forall a, Qn a -> Qn' a) -> (forall r, Qr r -> Qr' r) ->
  ptriple Pp p J Qn' Qr' m.
Proof.
  intros Hm Hn Hr s HJ. destruct (Hm s HJ) as (Hp & HJ' & Hres).
  repeat split; [exact Hp|exact HJ'|].
  destruct (res (m s)); auto.
Qed.

End PTriples.

Lemma ptriple_events {R A} Pp (p p' : Event -> bool) J (Qn : A -> Prop)
    (Qr : R -> Prop) (m : M R A) :
  (forall e, p e = true -> p' e = true) ->
  ptriple Pp p J Qn Qr m -> ptriple Pp p' J Qn Qr m.
Proof.
  intros Hpp H s HJ. destruct (H s HJ) as (Hp & HJ' & Hres).
  repeat split; [|exact HJ'|exact Hres].
  rewrite forallb_forall in *. auto.
Qed.

Lemma ptriple_triple {R A} Pp p J (Qn : A -> Prop) (Qr : R -> Prop) m :
  ptriple Pp p J Qn Qr m -> triple p J Qn Qr m.
Proof.
  intros H s HJ. destruct (H s HJ) as (Hp & HJ' & Hres).
  repeat split; [exact Hp|exact HJ'|]. destruct (res (m s)); auto.
Qed.

Lemma ptriple_triple_any {R A} p J (Qn : A -> Prop) (Qr : R -> Prop) m :
  triple p J Qn Qr m -> ptriple (fun _ => True) p J Qn Qr m.
Proof.
  intros H s HJ. destruct (H s HJ) as (Hp & HJ' & Hres).
  repeat split; [exact Hp|exact HJ'|]. destruct (res (m s)); auto.
Qed.

(** What a watched triple says, as a weakest precondition. *)
Lemma wp_ptriple {R A} Pp p J (Qn0 : A -> Prop) (Qr0 : R -> Prop)
    (m : M R A) (Qn : A -> State -> list Event -> Prop)
    (Qr : R -> State -> list Event -> Prop) s l :
  ptriple Pp p J Qn0 Qr0 m -> J s ->
  (forall a s' l', J s' -> forallb p l' = true -> Qn0 a -> Qn a s' (l ++ l')) ->
  (forall r s' l', J s' -> forallb p l' = true -> Qr0 r -> Qr r s' (l ++ l')) ->
  wp m Qn Qr Pp s l.
Proof.
  intros H HJ Hn Hr. destruct (H s HJ) as (Hp & HJ' & Hres). unfold wp.
  destruct (res (m s)); auto.
Qed.

(** One step of a proof of a watched triple; [side] closes the side
    conditions, [known] proves the triple of a loop or of a called function
    from a lemma. *)
Ltac ptriple_step side known :=
  lazymatch goal with
  | |- ptriple _ _ _ _ _ (bind _ _) =>
      first [ eapply ptriple_bind; [solve [known]|intros ? ?]
            | eapply ptriple_bind with (Qa := any); [|intros ? _] ]
  | |- ptriple _ _ _ _ _ (ret _) => apply ptriple_ret; side
  | |- ptriple _ _ _ _ _ (return_ _) => apply ptriple_return; side
  | |- ptriple _ _ _ _ _ (panic _) => apply ptriple_panic; side
  | |- ptriple _ _ _ _ _ get => apply ptriple_get; side
  | |- ptriple _ _ _ _ _ (GetString _) => apply ptriple_GetString; side
  | |- ptriple _ _ _ _ _ (GetBool _) => apply ptriple_GetBool; side
  | |- ptriple _ _ _ _ _ (Error_ _) => apply ptriple_Error; side
  | |- ptriple _ _ _ _ _ (emit _) => apply ptriple_emit; side
  | |- ptriple _ _ _ _ _ (log_ _) => apply ptriple_log; side
  | |- ptriple _ _ _ _ _ (modify _) => apply ptriple_modify; side
  | |- ptriple _ _ _ _ _ (Set_ _ _) => apply ptriple_Set; side
  | |- ptriple _ _ _ _ _ (when _ _) => apply ptriple_when; intros ?
  | |- ptriple _ _ _ any _ (call _) =>
      first [ solve [known]
            | apply ptriple_call_any ]
  | |- ptriple _ _ _ any _ (forM _ _ _) =>
      first [ solve [known]
            | apply ptriple_forM; [exact I|intros ? ? _ _] ]
  | |- ptriple _ _ _ _ _ (if ?c then _ else _) => destruct c eqn:?
  | |- ptriple _ _ _ _ _ (match ?x with _ => _ end) => destruct x eqn:?
  | |- ptriple _ _ _ _ _ (let _ := _ in _) => cbv zeta
  | |- ptriple _ _ _ _ _ _ => solve [known]
  end.

Ltac ptriple_side :=
  first [ exact I | reflexivity
        | now (intros; unfold any in *; cbn in *; auto) ].

(** ** Reading the configuration back *)

Lemma GetString_Set c k v :
  viper.GetString (viper.Set_ c k (VString v)) k = v.
Proof.
  unfold viper.GetString, viper.Set_. now destruct (decide (k = k)).
Qed.

Lemma Set_ne c k k' v : k' <> k -> viper.Set_ c k v k' = c k'.
Proof. intros H. unfold viper.Set_. now destruct (decide (k' = k)). Qed.

Lemma GetString_Set_ne c k k' v :
  k' <> k -> viper.GetString (viper.Set_ c k v) k' = viper.GetString c k'.
Proof.
  intros H. unfold viper.GetString, viper.Set_.
  now destruct (decide (k' = k)).
Qed.

Lemma GetBool_Set_ne c k k' v :
  k' <> k -> viper.GetBool (viper.Set_ c k v) k' = viper.GetBool c k'.
Proof.
  intros H. unfold viper.GetBool, viper.Set_.
  now destruct (decide (k' = k)).
Qed.

(** The states that were named are written out again. *)
Ltac wp_states :=
  repeat match goal with
         | H : ?x = with_cfg _ _ |- _ => subst x
         end;
  cbn [cfg with_cfg] in *.

(** ** Cluster acquisition, further *)




(** X18: a kubeconfig file that is configured but cannot be read ends
    [beforeSuite] at once with [false]: there is no fall-back to
    provisioning, whatever the configuration already holds. *)
Theorem beforeSuite_unreadable_kubeconfig w pw s err :
  let kubeconfigPath := viper.GetString (cfg s) config_Kubeconfig_Path in
  kubeconfigPath <> "" ->
  ioutil_ReadFile pw kubeconfigPath = Bad err ->
  beforeSuite w pw s =
  mkOut (Return false) s
        [EvReadFile kubeconfigPath;
         EvLog ("failed reading '" +:+ kubeconfigPath
                  +:+ "' which has been set as the TEST_KUBECONFIG: " +:+ err)].
Proof.
  cbv zeta. intros Hpath Hread. unfold beforeSuite. go.
  destruct (decide (_ <> "")) as [_|E]; [|contradiction].
  go. rewrite Hread. go. reflexivity.
Qed.

Lemma beforeSuite_unreadable_kubeconfig_witness :
  res (beforeSuite quietWorld unreadable kubeconfigState) = Return false.
Proof.
  rewrite (beforeSuite_unreadable_kubeconfig quietWorld unreadable
             kubeconfigState "no such file" ltac:(discriminate) eq_refl).
  reflexivity.
Defined.


(** The rest of a run satisfies a watched triple: its events come after
    those already there. *)
Ltac wp_rest accepted inv :=
  eapply wp_ptriple
    with (p := accepted) (J := inv) (Qn0 := any) (Qr0 := any).

Ltac rest_notProvisioning :=
  wp_rest notProvisioning (@any State);
  [ unfold installAddons, getLogs, writeLogs;
    repeat (ptriple_step ptriple_side fail)
  | exact I
  | intros ? ? ? _ Hl _; rewrite forallb_app, Hl; reflexivity
  | intros ? ? ? _ Hl _; rewrite forallb_app, Hl; reflexivity ].

(** X19: with a kubeconfig at hand [beforeSuite] provisions nothing: it
    does not ask for a cluster, sets no cluster property or metadata, does
    not wait for a wake-up, fetches no kubeconfig and does not sleep. *)
Theorem beforeSuite_reuses_kubeconfig w pw s :
  kubeconfigAtHand pw s ->
  forallb notProvisioning (evs (beforeSuite w pw s)) = true.
Proof.
  intros Hhand.
  enough (H : wp (beforeSuite w pw)
                 (fun _ _ l => forallb notProvisioning l = true)
                 (fun _ _ l => forallb notProvisioning l = true)
                 never s []).
  { apply wp_run in H. now destruct (res (beforeSuite w pw s)). }
  unfold kubeconfigAtHand in Hhand. cbv zeta in Hhand.
  unfold beforeSuite.
  do 4 wp_step.
  - destruct (decide (_ = "")) as [E|_] in Hhand; [contradiction|].
    destruct Hhand as (kubeconfigBytes & Hread & Hbytes).
    do 2 wp_step. rewrite Hread. do 3 wp_step.
    wp_states. rewrite GetString_Set.
    destruct (decide (kubeconfigBytes = "")) as [E|_]; [contradiction|].
    do 2 wp_step. rest_notProvisioning.
  - destruct (decide (_ = "")) as [_|E] in Hhand; [|contradiction].
    do 3 wp_step.
    destruct (decide (_ = "")) as [E|_]; [contradiction|].
    do 2 wp_step. rest_notProvisioning.
Qed.

Lemma beforeSuite_reuses_kubeconfig_witness :
  forallb notProvisioning
    (evs (beforeSuite quietWorld readable kubeconfigState)) = true.
Proof.
  apply (beforeSuite_reuses_kubeconfig quietWorld readable kubeconfigState).
  unfold kubeconfigAtHand. cbn. exists "kubeconfig". now split.
Defined.

(** A statement that leaves the state alone and emits only events [accepted]
    takes: the run goes on from the same state, after some such events. *)
Ltac wp_skip accepted :=
  lazymatch goal with
  | |- wp _ _ _ _ ?s _ =>
      eapply wp_ptriple
        with (p := accepted) (J := eq s) (Qn0 := any) (Qr0 := any);
      [ | reflexivity | intros ? ? ? <- ? _ | intros ? ? ? <- ? _ ]
  end.

Ltac in_trace H :=
  repeat (lazymatch type of H with
          | In _ (_ ++ _) => apply in_app_or in H; destruct H as [H|H]
          | In _ (_ :: _) => destruct H as [H|H]; [try discriminate H|]
          | In _ [] => destruct H
          | In _ ?l =>
              match goal with
              | Hl : forallb _ l = true |- _ =>
                  exfalso; rewrite forallb_forall in Hl; apply Hl in H;
                  discriminate H
              end
          end).

(** As [wp_skip], for a statement that always returns. *)
Ltac wp_leave accepted :=
  lazymatch goal with
  | |- wp _ _ _ _ ?s _ =>
      eapply wp_ptriple
        with (p := accepted) (J := eq s) (Qn0 := never) (Qr0 := any);
      [ | reflexivity | intros ? ? ? _ _ [] | intros ? ? ? <- ? _ ]
  end.

(** The simple statements at the head of a sequence. *)
Ltac wp_line :=
  repeat (lazymatch goal with
          | |- wp (bind (emit _) _) _ _ _ _ _ => apply wp_bind; apply wp_emit
          | |- wp (bind (log_ _) _) _ _ _ _ _ => apply wp_bind; apply wp_log
          | |- wp (bind (Set_ _ _) _) _ _ _ _ _ =>
              apply wp_bind; apply wp_Set; cbv beta; wp_name_state
          | |- wp (bind (GetString _) _) _ _ _ _ _ =>
              apply wp_bind; apply wp_GetString
          | |- wp (bind (GetBool _) _) _ _ _ _ _ =>
              apply wp_bind; apply wp_GetBool
          | |- wp (bind get _) _ _ _ _ _ => apply wp_bind; apply wp_get
          end; cbv beta).

Ltac quiet_rest :=
  unfold installAddons, getLogs, writeLogs;
  repeat (ptriple_step ptriple_side fail).

Ltac sleep_post :=
  let n := fresh "n" in let Hin := fresh "Hin" in
  intros n Hin; in_trace Hin.

(** A statement in a sequence that leaves the state alone and emits only
    events [accepted] takes. *)
Ltac wp_over accepted :=
  apply wp_bind; wp_skip accepted; [solve [quiet_rest]| |solve [sleep_post]].

(** As [wp_skip], for a call, which falls through. *)
Ltac wp_skip_call accepted :=
  lazymatch goal with
  | |- wp (call _) _ _ _ ?s _ =>
      eapply wp_ptriple
        with (p := accepted) (J := eq s) (Qn0 := any) (Qr0 := never);
      [ | reflexivity | intros ? ? ? <- ? _ | intros ? ? ? _ _ [] ]
  end.

(** X20: [beforeSuite] takes its ten-minute sleep only when the kubeconfig
    the provider handed out is empty: whenever a sleep is among its events,
    it is of 600 seconds and the kubeconfig contents the run is left with
    are the empty string. *)
Theorem beforeSuite_sleeps_on_empty_kubeconfig w pw s n :
  let o := beforeSuite w pw s in
  In (EvSleep n) (evs o) ->
  n = 600 /\
  viper.GetString (cfg (st o)) config_Kubeconfig_Contents = "".
Proof.
  cbv zeta.
  enough (H : wp (beforeSuite w pw)
                 (fun _ s' l =>
                    forall n, In (EvSleep n) l ->
                      n = 600 /\
                      viper.GetString (cfg s') config_Kubeconfig_Contents = "")
                 (fun _ s' l =>
                    forall n, In (EvSleep n) l ->
                      n = 600 /\
                      viper.GetString (cfg s') config_Kubeconfig_Contents = "")
                 never s []).
  { apply wp_run in H. destruct (res (beforeSuite w pw s)); [apply H|apply H|destruct H]. }
  unfold beforeSuite.
  do 2 wp_step.
  (* the kubeconfig file *)
  wp_step. wp_step; [do 2 wp_step; wp_step; [wp_step|]|wp_step].
  2: { do 3 wp_step. intros n' Hin. in_trace Hin. }
  (* with or without contents *)
  all: do 2 wp_step; wp_step; wp_step.
  all: try solve [wp_step; wp_skip notSleep; [quiet_rest|sleep_post|sleep_post]].
  (* provisioning *)
  all: do 2 wp_step; wp_step.
  all: try solve [wp_leave notSleep; [quiet_rest|sleep_post]].
  all: wp_line.
  all: wp_over notSleep; wp_line.
  all: wp_over notSleep; wp_line.
  all: wp_over notSleep; wp_line.
  all: wp_step.
  all: try solve [wp_leave notSleep; [quiet_rest|sleep_post]].
  all: wp_line; wp_step; wp_step.
  all: wp_line; wp_step.
  all: wp_skip_call notSleep; [solve [quiet_rest]|].
  all: wp_skip notSleep; [solve [quiet_rest]| |].
  all: intros n' Hin; in_trace Hin.
  all: injection Hin as <-; split; [reflexivity|].
  all: wp_states; rewrite GetString_Set.
  all: match goal with
       | e : String.length ?x = 0%nat |- ?kubeconfigBytes = "" =>
           pose proof e as Hlen; rewrite GetString_Set in Hlen;
           now destruct kubeconfigBytes
       end.
Qed.

Lemma beforeSuite_sleeps_on_empty_kubeconfig_witness :
  600 = 600 /\
  viper.GetString
    (cfg (st (beforeSuite quietWorld emptyKubeconfig freshState)))
    config_Kubeconfig_Contents = "".
Proof.
  apply (beforeSuite_sleeps_on_empty_kubeconfig quietWorld emptyKubeconfig
           freshState 600).
  vm_compute. repeat (first [left; reflexivity|right]).
Defined.

(** ** A phase, watched *)

Ltac phase_side HP :=
  first
    [ exact I | reflexivity
    | solve [ cbn [phaseEvent]; apply String.eqb_refl ]
    | solve [ let k := fresh "k" in let Hk := fresh "Hk" in
              intros ? (? & ? & ? & ?); repeat split; try assumption;
              intros k Hk; cbn [cfg with_cfg]; unfold viper.Set_;
              destruct (decide (k = _)) as [->|]; [now cbn in Hk|auto] ]
    | solve [ intros _; destruct HP as [HP|HP]; [exact HP|];
              match goal with
              | H1 : IngestFile _ _ = Good ?suites, H2 : In ?suite ?suites,
                H3 : In ?t (junit.Tests ?suite), H4 : junit.Error ?t = Some _
                |- _ =>
                  rewrite (HP _ _ _ _ H1 H2 H3) in H4; discriminate H4
              end ]
    | now (intros; unfold any, sameButPhase in *; cbn in *; auto) ].

Lemma phaseEvent_notMonitor phase e :
  phaseEvent phase e = true -> notMonitorEvent e = true.
Proof. destruct e; cbn; auto. Qed.

Ltac phase_step HP :=
  lazymatch goal with
  | |- ptriple _ _ _ any _ (forM _ _ _) =>
      apply ptriple_forM; [exact I|intros ? ? _ ?]
  | |- _ => ptriple_step ltac:(phase_side HP) fail
  end.

Lemma runTestsInPhase_watched Pp w phase description dryrun s0 :
  Pp nilPanic \/ noErrorElements (during w phase) ->
  ptriple Pp (phaseEvent phase) (sameButPhase s0) never
          (fun r => r.1 = true ->
                    RunSpecs (during w phase) description = true)
          (runTestsInPhase w phase description dryrun).
Proof.
  intros HP.
  unfold runTestsInPhase, collectFile, openPDAlerts, openAlertFor,
    recordTestcases, recordTestcase, testcaseError, recordPassRate,
    countLogMetrics, countLogFile, IncrementLogMetric,
    IncrementBeforeSuiteMetric, beforeSuite, installAddons, getLogs,
    writeLogs.
  cbv zeta.
  repeat (phase_step HP).
Qed.



(** X22: a phase changes only what is its own: after [runTestsInPhase],
    however it ends, the provider, Ginkgo's dry-run flag and the route
    monitors are as before, and so is every configuration key other than
    the phase and the cluster keys; and if it panics, it is with the nil
    dereference of the error that was never set. *)
Theorem runTestsInPhase_frame w phase description dryrun s :
  let o := runTestsInPhase w phase description dryrun s in
  provider (st o) = provider s /\ DryRun (st o) = DryRun s /\
  monitors (st o) = monitors s /\
  (forall k, isPhaseKey k = false -> cfg (st o) k = cfg s k) /\
  (forall msg, res o = Panic msg -> msg = nilPanic).
Proof.
  cbv zeta.
  destruct (runTestsInPhase_watched (eq nilPanic) w phase description dryrun
              s (or_introl eq_refl) s) as (_ & (Hp & Hd & Hm & Hk) & Hres).
  { now repeat split. }
  repeat split; try assumption.
  intros msg E. rewrite E in Hres. now symmetry.
Qed.

(** X23: [runTestsInPhase] reports success only when Ginkgo's run of the
    phase passed: every other way out of it (a directory that cannot be
    made or read, a cluster that cannot be acquired, a result or log file
    that cannot be read or written, a cluster whose state cannot be
    fetched) reports failure. *)
Theorem runTestsInPhase_passed_only_if_ginkgo_passed w phase description
    dryrun s tcd :
  res (runTestsInPhase w phase description dryrun s) = Return (true, tcd) ->
  RunSpecs (during w phase) description = true.
Proof.
  intros E.
  destruct (runTestsInPhase_watched (eq nilPanic) w phase description dryrun
              s (or_introl eq_refl) s) as (_ & _ & Hres).
  { now repeat split. }
  rewrite E in Hres. now apply Hres.
Qed.

Lemma runTestsInPhase_passed_only_if_ginkgo_passed_witness :
  RunSpecs (during quietWorld phase.InstallPhase) "OSD e2e suite" = true.
Proof.
  apply (runTestsInPhase_passed_only_if_ginkgo_passed quietWorld
           phase.InstallPhase "OSD e2e suite" false freshState []).
  vm_compute. reflexivity.
Defined.

(** What is known of the state at hand, written out: the states that were
    named, and what a phase leaves alone. *)
Ltac track_once :=
  repeat match goal with
         | H : ?x = with_cfg _ _ |- _ => subst x
         | H : ?x = with_monitors _ _ |- _ => subst x
         end;
  cbn [monitors DryRun cfg provider with_cfg with_monitors] in *;
  unfold viper.GetBool in *;
  repeat match goal with
         | H : context [viper.Set_ ?c ?k ?v ?k'] |- _ =>
             rewrite (Set_ne c k k' v) in H by discriminate
         | |- context [viper.Set_ ?c ?k ?v ?k'] =>
             rewrite (Set_ne c k k' v) by discriminate
         end;
  repeat match goal with
         | H : forall k, isPhaseKey k = false -> cfg _ k = _ |- _ =>
             rewrite !H in * by reflexivity
         | H : monitors _ = _ |- _ => rewrite !H in *
         | H : DryRun _ = _ |- _ => rewrite !H in *
         end;
  cbn [monitors DryRun cfg provider with_cfg with_monitors] in *.

Ltac track := do 2 track_once.

(** The call of a phase, in a symbolic run. *)
Ltac phase_call :=
  lazymatch goal with
  | |- wp (call (runTestsInPhase _ _ _ _)) _ _ _ ?s _ =>
      eapply wp_ptriple
        with (Pp := eq nilPanic) (p := notMonitorEvent)
             (J := sameButPhase s) (Qn0 := any) (Qr0 := never);
      [ apply ptriple_call_any; eapply ptriple_weaken;
        [ eapply ptriple_events;
          [apply phaseEvent_notMonitor|apply runTestsInPhase_watched; now left]
        | now intros | now intros ]
      | now repeat split
      | intros ? ? ? (? & ? & ? & ?) ? _
      | intros ? ? ? _ _ [] ]
  end.

Lemma monitorEvents_none l :
  forallb notMonitorEvent l = true -> List.filter isMonitorEvent l = [].
Proof.
  induction l as [|e l IH]; [reflexivity|]. cbn [forallb List.filter].
  intros H. apply andb_prop in H. destruct H as [He Hl].
  unfold notMonitorEvent in He. apply negb_true_iff in He. rewrite He.
  now apply IH.
Qed.

(** X24: when [upgradeCluster] falls through, the route monitors are
    reconciled: starting from no monitors, either none was started, or the
    goroutine was started, served, got the stop signal once, saved what it
    gathered and was heard back, or it was started, failed to create the
    monitors and was released; the stop signal is never sent to a channel
    that was not made or was already closed, so that the only panic that
    can come out of the upgrade is the nil dereference of a phase. *)
Theorem upgradeCluster_monitors_reconciled w s :
  monitors s = MonitorsNone ->
  let o := upgradeCluster w s in
  (forall upgraded, res o = Next upgraded ->
     monitorsReconciled w (st o) (evs o)) /\
  (forall msg, res o = Panic msg -> msg = nilPanic).
Proof.
  intros Hnone. cbv zeta.
  enough (H : wp (upgradeCluster w)
                 (fun _ s' l => monitorsReconciled w s' l)
                 (fun _ _ _ => True) (eq nilPanic) s []).
  { apply wp_run in H.
    destruct (res (upgradeCluster w s)); split; intros; try discriminate;
      try assumption.
    injection H0 as <-. now symmetry. }
  unfold upgradeCluster, setupRouteMonitors, closeRouteMonitors.
  wp_line. wp_step; [|wp_step; left; now split].
  wp_line. wp_step; [|wp_line; wp_step; left; now split].
  wp_line. wp_step. wp_step.
  1: wp_step; wp_line; (wp_step; [wp_line; wp_step|wp_step]); wp_step.
  all: wp_line; wp_step; (wp_step; [wp_line; wp_step; exact I|wp_step]).
  all: wp_line; wp_step;
    (wp_step; [wp_line; wp_step; phase_call; wp_line; wp_step|wp_step]).
  all: wp_line; wp_step; wp_step.
  all: track.
  all: try congruence.
  all: try (wp_step; wp_line; track).
  all: repeat first [progress wp_line|wp_step].
  all: track.
  all: unfold monitorsReconciled, monitorEvents;
    rewrite !List.filter_app;
    repeat match goal with
           | Hl : forallb notMonitorEvent ?l = true |- _ =>
               rewrite (monitorEvents_none l Hl)
           end;
    cbn [List.filter isMonitorEvent app monitors with_cfg with_monitors].
  all: first
         [ left; split; [congruence|reflexivity]
         | right; left; repeat split; congruence
         | right; right; repeat split; congruence ].
Qed.

Lemma upgradeCluster_monitors_reconciled_witness :
  monitorsReconciled quietWorld (st (upgradeCluster quietWorld upgradeReady))
    (evs (upgradeCluster quietWorld upgradeReady)).
Proof.
  destruct (upgradeCluster_monitors_reconciled quietWorld upgradeReady
              eq_refl) as [H _].
  apply (H (true, [])). vm_compute. reflexivity.
Defined.

(** ** The verdict of a run *)

Ltac verdict_side :=
  first [ exact I | reflexivity
        | now (left; split)
        | now (right; split; [left|discriminate])
        | now (right; split; [right|discriminate])
        | now (intros; unfold any in *; cbn in *; auto) ].

Lemma runGinkgoTests_returns_verdict w :
  triple allEvents any never verdict (runGinkgoTests w).
Proof.
  unfold runGinkgoTests, setUpRun, runInstallPhase, upgradeCluster, finishRun,
    setupRouteMonitors, closeRouteMonitors.
  cbv zeta.
  repeat (triple_step verdict_side ltac:(apply triple_allEvents)).
Qed.

(** X25: whenever [runGinkgoTests] comes back it is with a verdict: the exit
    code [Success] and no error, or the exit code [Failure] or [Aborted] and
    an error; it never comes back with another code, with a code that
    disagrees with the error, or by falling off its end. *)
Theorem runGinkgoTests_verdict w s :
  let o := runGinkgoTests w s in
  (forall r, res o = Return r -> verdict r) /\
  (forall r, res o <> Next r).
Proof.
  cbv zeta. destruct (runGinkgoTests_returns_verdict w s I) as (_ & _ & H).
  destruct (res (runGinkgoTests w s)); split; intros; try discriminate;
    try congruence.
  destruct H.
Qed.



Lemma setUpRun_events w : triple isSetUpEvent any any any (setUpRun w).
Proof. unfold setUpRun. cbv zeta. triple_auto. Qed.

Lemma afterSetUp_notAborted w reportDir clusterID :
  triple allEvents any never notAborted
         (install ← runInstallPhase w;
          upgraded ← upgradeCluster w;
          finishRun w reportDir clusterID install upgraded).
Proof.
  unfold runInstallPhase, upgradeCluster, finishRun, setupRouteMonitors,
    closeRouteMonitors.
  cbv zeta.
  repeat (triple_step
            ltac:(first [ exact I | reflexivity | discriminate
                        | now (intros; unfold any in *; cbn in *; auto) ])
            ltac:(apply triple_allEvents)).
Qed.

(** A result that only the first part of a sequence can return comes with
    the events of the first part alone. *)
Lemma returned_by_first {R A B} (m : M R A) (k : A -> M R B)
    (p : Event -> bool) (P : R -> Prop) s r :
  triple p any any any m ->
  (forall a, triple allEvents any any (fun r => ~ P r) (k a)) ->
  res (bind m k s) = Return r -> P r ->
  forallb p (evs (bind m k s)) = true.
Proof.
  intros Hm Hk. destruct (Hm s I) as (Hev & _ & _). unfold bind.
  destruct (res (m s)) as [a|r'|msg]; cbn [res evs].
  - destruct (Hk a (st (m s)) I) as (_ & _ & H).
    intros Hres HP. rewrite Hres in H. contradiction.
  - intros _ _. exact Hev.
  - discriminate.
Qed.

(** X27: a run is aborted before it has touched anything: when
    [runGinkgoTests] returns [Aborted], all it has done is set the run up
    (the report directory, the build log, the cluster provider, the choice
    of versions); no cluster was provisioned, Ginkgo did not run, no upgrade
    was started, nothing was stored or cleaned up. *)
Theorem aborted_before_any_phase w s err :
  res (runGinkgoTests w s) = Return (Aborted, err) ->
  forallb isSetUpEvent (evs (runGinkgoTests w s)) = true.
Proof.
  intros Hres. unfold runGinkgoTests in *.
  apply (returned_by_first _ _ isSetUpEvent (fun r => r.1 = Aborted) s
           (Aborted, err)).
  - apply setUpRun_events.
  - intros dirs. eapply triple_weaken.
    + apply afterSetUp_notAborted.
    + now intros.
    + now intros.
  - exact Hres.
  - reflexivity.
Qed.

Lemma aborted_before_any_phase_witness :
  forallb isSetUpEvent (evs (runGinkgoTests quietWorld sameVersions)) = true.
Proof.
  apply (aborted_before_any_phase quietWorld sameVersions
           (Some "install version and upgrade version are the same -- skipping tests")).
  vm_compute. reflexivity.
Defined.

(** ** What a success stands for *)

Lemma triple_events {R A} (p p' : Event -> bool) J (Qn : A -> Prop)
    (Qr : R -> Prop) (m : M R A) :
  (forall e, p e = true -> p' e = true) ->
  triple p J Qn Qr m -> triple p' J Qn Qr m.
Proof.
  intros Hpp H s HJ. destruct (H s HJ) as (Hp & HJ' & Hres).
  repeat split; [|exact HJ'|exact Hres].
  rewrite forallb_forall in *. auto.
Qed.

Lemma runTestsInPhase_judged w phase description dryrun :
  triple (phaseEvent phase) any never
         (fun r => r.1 = true ->
                   RunSpecs (during w phase) description = true)
         (runTestsInPhase w phase description dryrun).
Proof.
  intros s _.
  destruct (runTestsInPhase_watched (fun _ => True) w phase description
              dryrun s (or_introl I) s) as (Hev & _ & Hres).
  { now repeat split. }
  repeat split; [exact Hev|].
  now destruct (res (runTestsInPhase w phase description dryrun s)).
Qed.

Lemma installEvent_notUpgradeSpecs e :
  phaseEvent phase.InstallPhase e = true -> notUpgradeSpecs e = true.
Proof.
  destruct e; cbn; auto. intros H. apply String.eqb_eq in H. now subst.
Qed.

Ltac judged_side :=
  first [ exact I | reflexivity | assumption
        | now (intros; unfold any, succeeded in *; cbn in *; auto) ].

Lemma runInstallPhase_judged w :
  triple notUpgradeSpecs any (fun install => install.1 = true -> installPassed w)
         (fun r => ~ succeeded r) (runInstallPhase w).
Proof.
  unfold runInstallPhase, getLogs, writeLogs. cbv zeta.
  repeat (triple_step judged_side
            ltac:(apply triple_call
                    with (Q := fun r : PhaseResult =>
                                 r.1 = true -> installPassed w);
                  eapply triple_weaken;
                  [ eapply triple_events;
                    [ apply installEvent_notUpgradeSpecs
                    | apply runTestsInPhase_judged ]
                  | intros ? []
                  | intros ? H; exact H ])).
Qed.

Lemma setUpRun_judged w :
  triple notUpgradeSpecs any any (fun r => ~ succeeded r) (setUpRun w).
Proof.
  unfold setUpRun. cbv zeta.
  repeat (triple_step
            ltac:(first [ exact I | reflexivity | discriminate
                        | now (intros; unfold any in *; cbn in *; auto) ])
            fail).
Qed.

Ltac finish_side :=
  first
    [ exact I | reflexivity
    | solve [ intros H; discriminate H ]
    | solve [ intros _; cbv beta in *;
              match goal with
              | H : negb ?a || negb ?b = false |- _ =>
                  destruct a, b; try discriminate H; now split
              end ]
    | now (intros; unfold any in *; cbn in *; auto) ].

Lemma finishRun_judged w reportDir clusterID (install upgraded : PhaseResult) :
  triple notUpgradeSpecs any never
         (fun r => succeeded r -> install.1 = true /\ upgraded.1 = true)
         (finishRun w reportDir clusterID install upgraded).
Proof.
  unfold finishRun, storeJob, getLogs, writeLogs. cbv zeta.
  repeat (triple_step finish_side
            ltac:(idtac;
                  match goal with
                  | |- triple _ _ ?Q _
                         (if negb ?a || negb ?b then _ else _) =>
                      unify Q (fun _ : unit => negb a || negb b = false);
                      destruct (negb a || negb b) eqn:?;
                      [ repeat (triple_step finish_side fail)
                      | apply triple_ret; reflexivity ]
                  end)).
Qed.

(** The call of a phase, in a symbolic run that looks at its verdict. *)
Ltac phase_call_judged :=
  lazymatch goal with
  | |- wp (call (runTestsInPhase ?w ?ph ?d _)) _ _ _ ?s _ =>
      eapply wp_ptriple
        with (Pp := fun _ => True) (p := allEvents) (J := any)
             (Qn0 := fun r : PhaseResult =>
                       r.1 = true -> RunSpecs (during w ph) d = true)
             (Qr0 := never);
      [ apply ptriple_call;
        apply ptriple_triple_any; eapply triple_weaken;
        [ eapply triple_events;
          [|apply runTestsInPhase_judged]; now intros
        | intros ? [] | auto ]
      | exact I
      | intros ? ? ? _ _ ?
      | intros ? ? ? _ _ [] ]
  end.

Lemma upgradeCluster_judged w s :
  wp (upgradeCluster w)
     (fun up _ l => up.1 = true -> upgradeTested l -> upgradePassed w)
     (fun r _ _ => ~ succeeded r) (fun _ => True) s [].
Proof.
  unfold upgradeCluster, setupRouteMonitors, closeRouteMonitors.
  wp_line. wp_step; [|wp_step; intros _ (e & Hin & He); in_trace Hin].
  wp_line.
  wp_step; [|wp_line; wp_step; intros _ (e & Hin & He); in_trace Hin;
             subst; discriminate].
  wp_line. wp_step. wp_step.
  1: wp_step; wp_line; (wp_step; [wp_line; wp_step|wp_step]); wp_step.
  all: wp_line; wp_step;
    (wp_step; [wp_line; wp_step; now (unfold succeeded, Failure, Success; cbn)|wp_step]).
  all: wp_line; wp_step;
    (wp_step;
     [wp_line; wp_step; phase_call_judged; wp_line; wp_step|wp_step]).
  all: wp_line; wp_step; wp_step.
  all: repeat first [progress wp_line|wp_step].
  all: try exact I.
  all: try solve [intros Ha _; unfold upgradePassed, phase.UpgradePhase; auto].
  all: intros _ (e & Hin & He); in_trace Hin; subst; discriminate.
Qed.

Section Judged.
Context {A B C R : Type} (q : Event -> bool) (G1 G2 : Prop)
        (P1 : B -> Prop) (P3 : C -> Prop) (ok : R -> Prop)
        (m1 : M R A) (m2 : M R B) (m3 : M R C) (m4 : A -> B -> C -> M R R).
Hypothesis H1 : triple q any any (fun r => ~ ok r) m1.
Hypothesis H2 : triple q any (fun b => P1 b -> G1) (fun r => ~ ok r) m2.
Hypothesis H3 :
  forall s, wp m3 (fun c _ l => P3 c -> (exists e, In e l /\ q e = false) -> G2)
               (fun r _ _ => ~ ok r) (fun _ => True) s [].
Hypothesis H4 :
  forall a b c, triple q any never (fun r => ok r -> P1 b /\ P3 c) (m4 a b c).

(** A run in four parts that ends well: the second part's value and the
    third part's were good, and an event that [q] refuses can only come
    from the third part. *)
Lemma judged_run s r :
  let run := a ← m1; b ← m2; c ← m3; m4 a b c in
  res (run s) = Return r -> ok r ->
  G1 /\ ((exists e, In e (evs (run s)) /\ q e = false) -> G2).
Proof.
  cbv zeta. unfold bind.
  destruct (H1 s I) as (E1 & _ & R1).
  destruct (res (m1 s)) as [a|r1|msg1]; cbn [res st evs];
    [|intros [= <-] Hok; contradiction|discriminate].
  destruct (H2 (st (m1 s)) I) as (E2 & _ & R2).
  destruct (res (m2 (st (m1 s)))) as [b|r2|msg2]; cbn [res st evs];
    [|intros [= <-] Hok; contradiction|discriminate].
  pose proof (wp_run _ _ _ _ _ (H3 (st (m2 (st (m1 s)))))) as R3.
  destruct (res (m3 (st (m2 (st (m1 s)))))) as [c|r3|msg3]; cbn [res st evs];
    [|intros [= <-] Hok; contradiction|discriminate].
  destruct (H4 a b c (st (m3 (st (m2 (st (m1 s)))))) I) as (E4 & _ & R4).
  destruct (res (m4 a b c (st (m3 (st (m2 (st (m1 s))))))))
    as [r4|r4|msg4]; [destruct R4| |discriminate].
  intros [= <-] Hok. destruct (R4 Hok) as [HP1 HP3]. split; [auto|].
  intros (e & Hin & He). apply R3; [exact HP3|]. exists e. split; [|exact He].
  rewrite forallb_forall in E1, E2, E4.
  apply in_app_or in Hin. destruct Hin as [Hin|Hin];
    [apply E1 in Hin; congruence|].
  apply in_app_or in Hin. destruct Hin as [Hin|Hin];
    [apply E2 in Hin; congruence|].
  apply in_app_or in Hin. destruct Hin as [Hin|Hin]; [exact Hin|].
  apply E4 in Hin. congruence.
Qed.

End Judged.

(** X28: a success stands for passed tests: when [runGinkgoTests] returns
    [Success], Ginkgo's run of the install phase passed, and if Ginkgo ran
    the upgrade phase, that run passed too. *)
Theorem success_only_if_ginkgo_passed w s err :
  res (runGinkgoTests w s) = Return (Success, err) ->
  installPassed w /\
  (upgradeTested (evs (runGinkgoTests w s)) -> upgradePassed w).
Proof.
  intros Hres. unfold runGinkgoTests in *.
  apply (judged_run notUpgradeSpecs (installPassed w) (upgradePassed w)
           (fun install : PhaseResult => install.1 = true)
           (fun upgraded : PhaseResult => upgraded.1 = true)
           succeeded (setUpRun w) (runInstallPhase w) (upgradeCluster w)
           (fun dirs install upgraded =>
              finishRun w dirs.1 dirs.2 install upgraded)
           (setUpRun_judged w) (runInstallPhase_judged w)
           (upgradeCluster_judged w)
           (fun dirs install upgraded =>
              finishRun_judged w dirs.1 dirs.2 install upgraded)
           s (Success, err)).
  - exact Hres.
  - reflexivity.
Qed.

Lemma success_only_if_ginkgo_passed_witness :
  installPassed quietWorld /\
  (upgradeTested (evs (runGinkgoTests quietWorld upgradeReady)) ->
   upgradePassed quietWorld).
Proof.
  apply (success_only_if_ginkgo_passed quietWorld upgradeReady None).
  vm_compute. reflexivity.
Defined.

(** ** The BeforeEach hook *)

Lemma HasPrefix_empty s : Strings.HasPrefix s "" = true.
Proof. now destruct s. Qed.

Lemma shouldRun_iff testContext testsToRun :
  shouldRun testContext testsToRun = true <->
  exists testToRun,
    In testToRun testsToRun /\
    Strings.HasPrefix testContext testToRun = true.
Proof.
  induction testsToRun as [|t l IH]; cbn [shouldRun].
  - split; [discriminate|]. now intros (t & [] & _).
  - destruct (Strings.HasPrefix testContext t) eqn:E.
    + split; [|reflexivity]. intros _. exists t. split; [now left|exact E].
    + rewrite IH. split.
      * intros (t' & Hin & Ht'). exists t'. split; [now right|exact Ht'].
      * intros (t' & [<-|Hin] & Ht'); [congruence|]. now exists t'.
Qed.

(** X29: the [BeforeEach] hook lets a test run exactly when some entry of
    the tests to run is a prefix of the test's context, and skips it
    otherwise; so with no entry every test is skipped, and an empty entry
    lets every test run. *)
Theorem BeforeEach_runs_iff_prefix fullTestText testContext testsToRun :
  (BeforeEach fullTestText testContext testsToRun = None <->
   exists testToRun,
     In testToRun testsToRun /\
     Strings.HasPrefix testContext testToRun = true) /\
  BeforeEach fullTestText testContext [] <> None /\
  (In "" testsToRun -> BeforeEach fullTestText testContext testsToRun = None).
Proof.
  assert (H : BeforeEach fullTestText testContext testsToRun = None <->
              shouldRun testContext testsToRun = true).
  { unfold BeforeEach. destruct (shouldRun testContext testsToRun); cbn.
    - tauto.
    - split; discriminate. }
  split; [|split].
  - rewrite H. apply shouldRun_iff.
  - discriminate.
  - intros Hin. apply H. apply shouldRun_iff. exists "".
    split; [exact Hin|apply HasPrefix_empty].
Qed.

(** ** The end of a run *)

Lemma jobNameOf_Set s0 s k v :
  k <> config_JobName -> jobNameOf s0 s ->
  jobNameOf s0 (with_cfg s (viper.Set_ (cfg s) k v)).
Proof.
  intros Hk H. unfold jobNameOf in *. cbn [cfg with_cfg].
  rewrite GetString_Set_ne by congruence. exact H.
Qed.

Ltac upload_side :=
  first
    [ exact I | reflexivity
    | solve [ intros; apply jobNameOf_Set; [discriminate|assumption] ]
    | solve [ exfalso; cbv beta in *;
              match goal with
              | Hu : uploadsNothing _, Ha : ?a = _,
                H1 : decide (?a = "") = right _,
                H2 : Strings.HasPrefix ?a _ = false |- _ =>
                  rewrite <- Ha in Hu; destruct Hu; congruence
              end ]
    | now (intros; unfold any, jobNameOf in *; cbn in *; auto) ].

Lemma finishRun_uploadsNothing w reportDir clusterID install upgraded s0 :
  uploadsNothing (viper.GetString (cfg s0) config_JobName) ->
  ptriple (fun _ => True) notUpload (jobNameOf s0) any any
          (finishRun w reportDir clusterID install upgraded).
Proof.
  intros Hu. unfold finishRun, storeJob, getLogs, writeLogs. cbv zeta.
  repeat (ptriple_step upload_side
            ltac:(idtac;
                  lazymatch goal with
                  | |- ptriple _ _ _ _ _ (GetString config_JobName) =>
                      apply ptriple_GetString
                        with (Qn := fun v =>
                                v = viper.GetString (cfg s0) config_JobName);
                      intros ? H; exact H
                  end)).
Qed.

(** X30: a local run and a rehearsal upload no metrics: when the configured
    job name is empty or starts with "rehearse-", [finishRun] never calls
    [uploadFileToMetricsBucket], whatever else happens. *)
Theorem finishRun_skips_upload w reportDir clusterID install upgraded s :
  uploadsNothing (viper.GetString (cfg s) config_JobName) ->
  forallb notUpload
    (evs (finishRun w reportDir clusterID install upgraded s)) = true.
Proof.
  intros Hu.
  now destruct (finishRun_uploadsNothing w reportDir clusterID install
                  upgraded s Hu s eq_refl) as (Hev & _).
Qed.

Lemma finishRun_skips_upload_witness :
  forallb notUpload
    (evs (finishRun quietWorld "/tmp/report" "id-1" (true, []) (true, [])
            rehearsal)) = true.
Proof.
  apply (finishRun_skips_upload quietWorld "/tmp/report" "id-1" (true, [])
           (true, []) rehearsal).
  right. reflexivity.
Defined.
